(** * Kilo: the tool-calling loop of the terminal assistant

    A shallow embedding of the Go packages [kilo/internal/ai],
    [kilo/internal/tools] and [kilo/internal/tui], and the properties of
    the orchestration loop that the specification states about them.

    Go strings are byte sequences: they are [string] here, [len] is
    [String.length] and [s[:n]] is [substring 0 n s].  Everything that
    happens outside the process (the Anthropic API, the shell, the clock)
    is reached through the operations of the class [Outside] and threaded
    as an explicit state. *)

From Stdlib Require Import String Ascii List ZArith Lia Bool.
From stdpp Require Import base option list strings gmap pretty.

Local Open Scope nat_scope.

(** ** Go's strings, errors and formatting *)

Module Go.

(** [len(s)] *)
Definition len (s : string) : nat := String.length s.

(** [s[:n]], for [n <= len(s)] (Go panics otherwise) *)
Definition slice_to (s : string) (n : nat) : string := String.substring 0 n s.

(** The [error] interface, as far as this program builds values of it:
    [errors.New] and [fmt.Errorf] without [%w] give a plain message;
    [fmt.Errorf] with [%w] gives a message that also remembers the error
    it wraps.  Errors that come from outside are plain messages too. *)
Inductive error : Type :=
| errorString (s : string)
| wrapError (msg : string) (err : error).

(** [err.Error()] *)
Definition Error (e : error) : string :=
  match e with
  | errorString s => s
  | wrapError msg _ => msg
  end.

(** [errors.Unwrap(err)] *)
Definition Unwrap (e : error) : option error :=
  match e with
  | errorString _ => None
  | wrapError _ inner => Some inner
  end.

(** [fmt.Errorf(pre + "%w" + post, err)] *)
Definition Errorf_w (pre : string) (err : error) (post : string) : error :=
  wrapError (pre +:+ Error err +:+ post) err.

(** [context.Context], as far as deadlines go *)
Inductive Context : Type :=
| Background
| WithTimeout (parent : Context) (seconds : nat).

(** A state monad, for code that reaches outside the process. *)
Definition State (S A : Type) : Type := S -> A * S.

Definition ret {S A : Type} (a : A) : State S A := fun s => (a, s).

Definition bind {S A B : Type} (c : State S A) (k : A -> State S B) : State S B :=
  fun s => let (a, s') := c s in k a s'.

End Go.

Export Go.

Notation "'do' x <- c ;; k" := (bind c (fun x => k))
  (at level 10, x pattern, c at level 99, k at level 200).

(** A quotation mark and a line feed, for the string constants that hold one. *)
Definition dq : string := String "034"%char EmptyString.
Definition LF : string := String "010"%char EmptyString.

(** ** encoding/json, as far as the tool handlers use it *)

Module json.

(** A scanned JSON text.  Object members keep their order and their
    duplicates, the way the decoder meets them. *)
#[warnings="-register-all"]
Inductive Value : Type :=
| Null
| Bool (b : bool)
| Number (literal : string)
| Str (s : string)
| Array (elements : list Value)
| Object (members : list (string * Value)).

(** The word [UnmarshalTypeError] uses for a value. *)
Definition kind (v : Value) : string :=
  match v with
  | Null => "null"
  | Bool _ => "bool"
  | Number _ => "number"
  | Str _ => "string"
  | Array _ => "array"
  | Object _ => "object"
  end.

(** ASCII upper case of one byte; the field name below has no letter with
    a non-ASCII case variant, so this is the decoder's name folding. *)
Definition upper (c : ascii) : ascii :=
  let n := nat_of_ascii c in
  if (97 <=? n) && (n <=? 122) then ascii_of_nat (n - 32) else c.

Fixpoint foldName (s : string) : string :=
  match s with
  | EmptyString => EmptyString
  | String c s' => String (upper c) (foldName s')
  end.

(** A key selects a struct field on an exact or a case-insensitive match. *)
Definition matches (field key : string) : bool :=
  bool_decide (key = field) || bool_decide (foldName key = foldName field).

(** What [Unmarshal] has done so far with
    [var params struct { Command string `json:"command"` }]:
    the field, and the first type error it saved. *)
Record Params : Type := mkParams { Command : string; saved : option error }.

Definition typeError (v : Value) : error :=
  errorString ("json: cannot unmarshal " +:+ kind v +:+
               " into Go struct field .command of type string").

Definition saveError (p : Params) (e : error) : Params :=
  match saved p with
  | Some _ => p
  | None => mkParams (Command p) (Some e)
  end.

(** One member of the object: unknown keys are skipped, [null] leaves the
    field alone, a string is stored, anything else is a type error and the
    decoder goes on. *)
Definition member (p : Params) (kv : string * Value) : Params :=
  let (key, v) := kv in
  if matches "command" key then
    match v with
    | Str s => mkParams s (saved p)
    | Null => p
    | _ => saveError p (typeError v)
    end
  else p.

(** The scanned value decoded into the zero-valued struct.  (In the text
    of the error for a value that is no object, the Go type is shortened
    to [struct].) *)
Definition decode (v : Value) : Params :=
  let zero := mkParams EmptyString None in
  match v with
  | Null => zero
  | Object members => fold_left member members zero
  | _ => mkParams EmptyString
           (Some (errorString ("json: cannot unmarshal " +:+ kind v +:+
                               " into Go value of type struct")))
  end.

(** The scanned value decoded into [inputMap := make(map[string]any)]:
    later members overwrite earlier ones. *)
Definition decodeMap (v : Value) : gmap string Value :=
  match v with
  | Object members =>
      fold_left (fun m (kv : string * Value) => <[fst kv := snd kv]> m) members ∅
  | _ => ∅
  end.

End json.

(** ** The Anthropic SDK, as far as [ai.Client] uses it *)

Module anthropic.

Inductive ContentBlockParam : Type :=
| NewTextBlock (text : string)
| NewToolUseBlock (id : string) (input : gmap string json.Value) (name : string)
| NewToolResultBlock (toolUseID content : string) (isError : bool).

Inductive MessageParam : Type :=
| NewUserMessage (blocks : list ContentBlockParam)
| NewAssistantMessage (blocks : list ContentBlockParam).

Record ToolParam : Type := mkToolParam {
  Name : string;
  Description : string;
  Properties : gmap string (gmap string string);
  Required : list string
}.

Record MessageNewParams : Type := mkMessageNewParams {
  Model : string;
  MaxTokens : Z;
  Messages : list MessageParam;
  Tools : list ToolParam;
  System : list string
}.

(** A block of the reply; [Input] is the raw JSON text of the arguments. *)
Inductive ContentBlock : Type :=
| TextBlock (Text : string)
| ToolUseBlock (ID Name Input : string)
| OtherBlock.

Record Message : Type := mkMessage { Content : list ContentBlock }.

End anthropic.

(** ** What lies outside the process *)

Class Outside : Type := {
  (** the state of the network, the file system and the clock *)
  World : Type;
  (** [c.client.Messages.New(ctx, params)] *)
  MessagesNew :
    Context -> string -> anthropic.MessageNewParams ->
    State World (anthropic.Message + error);
  (** [exec.CommandContext(ctx, name, args...).CombinedOutput()] *)
  CombinedOutput :
    Context -> string -> list string -> State World (string * option error);
  (** [strings.TrimSpace] *)
  TrimSpace : string -> string;
  (** the scanner of [encoding/json]: the value a text denotes, or the
      syntax error *)
  scan : string -> json.Value + error;
  (** [os.Getenv], on the environment the process was started in *)
  Getenv : string -> string
}.

(** ** Package ai *)

Module ai.

Module Message.
Record t : Type := mk {
  Role : string;
  Content : string;
  ToolCallID : string;
  ToolCallName : string;
  ToolCallInput : string
}.
End Message.

Module ToolCall.
Record t : Type := mk { ID : string; Name : string; Input : string }.
End ToolCall.

Module Response.
Record t : Type := mk { Content : string; ToolCalls : list ToolCall.t }.
End Response.

Module Tool.
Record t : Type := mk {
  Name : string;
  Description : string;
  Parameters : gmap string (gmap string string);
  Required : list string
}.
End Tool.

Module Client.
Record t : Type := mk { apiKey : string; model : string }.
End Client.

(** Every call that crosses the boundary of the loop is recorded, in order:
    a call of the model gateway with the transcript it was given, and a call
    of the tool executor with the request it was given. *)
Inductive Call : Type :=
| GatewayCall (messages : list Message.t)
| ToolExecution (toolCall : ToolCall.t).

Section WithOutside.
Context `{Outside}.

Record Run : Type := mkRun { world : World; calls : list Call }.

(** Code that runs inside the process and may call out. *)
Definition M (A : Type) : Type := State Run A.

Definition outside {A : Type} (c : State World A) : M A :=
  fun r => let (a, w) := c (world r) in (a, mkRun w (calls r)).

Definition record (c : Call) : M unit :=
  fun r => (tt, mkRun (world r) (calls r ++ [c])).

(** [json.Unmarshal([]byte(input), &params)] for the one-field struct of
    the command tools: the field and the error. *)
Definition Unmarshal (input : string) : string * option error :=
  match scan input with
  | inr e => (EmptyString, Some e)
  | inl v => let p := json.decode v in (json.Command p, json.saved p)
  end.

(** [json.Unmarshal([]byte(input), &inputMap)], the error dropped. *)
Definition UnmarshalMap (input : string) : gmap string json.Value :=
  match scan input with
  | inr _ => ∅
  | inl v => json.decodeMap v
  end.

Definition NewClient (apiKey : string) : Client.t :=
  Client.mk apiKey "claude-sonnet-4-20250514".

Definition systemPrompt : string :=
  "You are Kilo, a helpful AI support agent. Use the tools available to you to assist the user." +:+ LF +:+
  LF +:+
  "# Tool Usage" +:+ LF +:+
  "- When you need information to answer a question, use tools immediately without announcing your intention" +:+ LF +:+
  "- The user sees the tool output, so you should interpret and explain what the results mean" +:+ LF +:+
  "- Be concise and direct in your responses" +:+ LF +:+
  LF +:+
  "# Examples" +:+ LF +:+
  "<example>" +:+ LF +:+
  "user: what time is it?" +:+ LF +:+
  "assistant: [uses get_time tool which returns " +:+ dq +:+ "Sat Oct 18 14:23:45 PDT 2025" +:+ dq +:+ "]" +:+ LF +:+
  "The current time is 2:23 PM on Saturday, October 18th, 2025." +:+ LF +:+
  "</example>" +:+ LF +:+
  LF +:+
  "<example>" +:+ LF +:+
  "user: list files in current directory" +:+ LF +:+
  "assistant: [uses bash tool with " +:+ dq +:+ "ls" +:+ dq +:+ " which returns file list]" +:+ LF +:+
  "Your directory contains: main.go, README.md, and an internal/ folder." +:+ LF +:+
  "</example>" +:+ LF +:+
  LF +:+
  "IMPORTANT: Keep responses under 4 lines unless the user asks for more detail.".

(** The transcript in the provider's form: an assistant turn is a tool use
    when its three tool fields are set, else text when it has content, else
    it is left out; turns of any other role are left out. *)
Definition toParam (msg : Message.t) : list anthropic.MessageParam :=
  if bool_decide (Message.Role msg = "user") then
    [anthropic.NewUserMessage [anthropic.NewTextBlock (Message.Content msg)]]
  else if bool_decide (Message.Role msg = "assistant") then
    if bool_decide (Message.ToolCallID msg <> EmptyString)
       && bool_decide (Message.ToolCallName msg <> EmptyString)
       && bool_decide (Message.ToolCallInput msg <> EmptyString) then
      [anthropic.NewAssistantMessage
         [anthropic.NewToolUseBlock (Message.ToolCallID msg)
            (UnmarshalMap (Message.ToolCallInput msg)) (Message.ToolCallName msg)]]
    else if bool_decide (Message.Content msg <> EmptyString) then
      [anthropic.NewAssistantMessage [anthropic.NewTextBlock (Message.Content msg)]]
    else []
  else if bool_decide (Message.Role msg = "tool") then
    [anthropic.NewUserMessage
       [anthropic.NewToolResultBlock (Message.ToolCallID msg) (Message.Content msg) false]]
  else [].

Definition toToolParam (tool : Tool.t) : anthropic.ToolParam :=
  anthropic.mkToolParam (Tool.Name tool) (Tool.Description tool)
    (Tool.Parameters tool) (Tool.Required tool).

(** The text blocks of the reply concatenated, and its tool uses in order. *)
Fixpoint extract (blocks : list anthropic.ContentBlock)
    (content : string) (toolCalls : list ToolCall.t) : Response.t :=
  match blocks with
  | [] => Response.mk content toolCalls
  | anthropic.TextBlock text :: rest => extract rest (content +:+ text) toolCalls
  | anthropic.ToolUseBlock id name input :: rest =>
      extract rest content (toolCalls ++ [ToolCall.mk id name input])
  | anthropic.OtherBlock :: rest => extract rest content toolCalls
  end.

Definition SendMessageWithTools (c : Client.t) (ctx : Context)
    (messages : list Message.t) (tools : list Tool.t) : M (Response.t + error) :=
  let anthropicMessages := flat_map toParam messages in
  let anthropicTools := map toToolParam tools in
  do _ <- record (GatewayCall messages) ;;
  do reply <- outside (MessagesNew ctx (Client.apiKey c)
                 (anthropic.mkMessageNewParams (Client.model c) 1024
                    anthropicMessages anthropicTools [systemPrompt])) ;;
  match reply with
  | inr err => ret (inr (Errorf_w "failed to send message: " err EmptyString))
  | inl response => ret (inl (extract (anthropic.Content response) EmptyString []))
  end.

(** [type ToolHandler func(ctx context.Context, input string) (string, error)] *)
Definition ToolHandler : Type :=
  Context -> string -> State World (string * option error).

Record ToolExecutor : Type := mkToolExecutor { tools : gmap string ToolHandler }.

(** [te.tools[name] = handler] *)
Definition RegisterTool (te : ToolExecutor) (name : string)
    (handler : ToolHandler) : ToolExecutor :=
  mkToolExecutor (<[name := handler]> (tools te)).

Definition Execute (te : ToolExecutor) (ctx : Context)
    (toolCall : ToolCall.t) : M (string * option error) :=
  do _ <- record (ToolExecution toolCall) ;;
  let handler : option ToolHandler := tools te !! ToolCall.Name toolCall in
  match handler with
  | None =>
      ret (EmptyString,
           Some (errorString ("tool not found: " +:+ ToolCall.Name toolCall)))
  | Some handler => outside (handler ctx (ToolCall.Input toolCall))
  end.

(** The built-in handlers of package ai. *)
Definition executeBash : ToolHandler := fun ctx input =>
  match Unmarshal input with
  | (_, Some err) => ret (EmptyString, Some (Errorf_w "invalid input: " err EmptyString))
  | (command, None) =>
      do (output, err) <- CombinedOutput ctx "bash" ["-c"; command] ;;
      match err with
      | Some err =>
          ret (EmptyString,
               Some (Errorf_w "command failed: " err (LF +:+ "Output: " +:+ output)))
      | None => ret (TrimSpace output, None)
      end
  end.

Definition executeGetTime : ToolHandler := fun ctx input =>
  do (output, err) <- CombinedOutput ctx "date" [] ;;
  match err with
  | Some err => ret (EmptyString, Some (Errorf_w "failed to get time: " err EmptyString))
  | None => ret (TrimSpace output, None)
  end.

Definition NewToolExecutor : ToolExecutor :=
  let executor := mkToolExecutor ∅ in
  let executor := RegisterTool executor "bash" executeBash in
  let executor := RegisterTool executor "get_time" executeGetTime in
  executor.

(** [GetAvailableTools] of the executor of package ai. *)
Definition GetAvailableTools (te : ToolExecutor) : list Tool.t :=
  [Tool.mk "bash" "Execute a bash command and return the output"
     {[ "command" :=
          {[ "type" := "string";
             "description" := "The bash command to execute" ]} ]}
     ["command"];
   Tool.mk "get_time" "Get the current date and time" ∅ []].

(** The transcript in the provider's form for [SendMessage]: user and
    assistant turns as text, whatever they hold; every other turn is left
    out. *)
Definition toTextParam (msg : Message.t) : list anthropic.MessageParam :=
  if bool_decide (Message.Role msg = "user") then
    [anthropic.NewUserMessage [anthropic.NewTextBlock (Message.Content msg)]]
  else if bool_decide (Message.Role msg = "assistant") then
    [anthropic.NewAssistantMessage [anthropic.NewTextBlock (Message.Content msg)]]
  else [].

(** The text blocks of a reply concatenated. *)
Fixpoint textOf (blocks : list anthropic.ContentBlock) (content : string) : string :=
  match blocks with
  | [] => content
  | anthropic.TextBlock text :: rest => textOf rest (content +:+ text)
  | _ :: rest => textOf rest content
  end.

(** [SendMessage]: the transcript sent without tools and without a system
    instruction. *)
Definition SendMessage (c : Client.t) (ctx : Context)
    (messages : list Message.t) : M (string * option error) :=
  let anthropicMessages := flat_map toTextParam messages in
  do _ <- record (GatewayCall messages) ;;
  do reply <- outside (MessagesNew ctx (Client.apiKey c)
                 (anthropic.mkMessageNewParams (Client.model c) 1024
                    anthropicMessages [] [])) ;;
  match reply with
  | inr err =>
      ret (EmptyString, Some (Errorf_w "failed to send message: " err EmptyString))
  | inl response => ret (textOf (anthropic.Content response) EmptyString, None)
  end.

End WithOutside.

End ai.

(** ** Package tools *)

Module tools.

Section WithOutside.
Context `{Outside}.

Definition BashTool : ai.Tool.t :=
  ai.Tool.mk "bash"
    "Execute a bash command and return the output. Use this to run shell commands, check system information, or interact with the filesystem. For commands like 'top', use 'top -l 1' to get a single snapshot instead of continuous output."
    {[ "command" :=
         {[ "type" := "string";
            "description" := "The bash command to execute (e.g., 'ls -la', 'date', 'pwd', 'top -l 1'). Use flags to limit output for commands that run continuously." ]} ]}
    ["command"].

(** [ExecuteBash]: the arguments decoded, then [bash -c command] under a
    deadline of thirty seconds. *)
Definition ExecuteBash : ai.ToolHandler := fun ctx input =>
  match ai.Unmarshal input with
  | (_, Some err) => ret (EmptyString, Some (Errorf_w "invalid input: " err EmptyString))
  | (command, None) =>
      let ctx := WithTimeout ctx 30 in
      do (output, err) <- CombinedOutput ctx "bash" ["-c"; command] ;;
      match err with
      | Some err =>
          ret (EmptyString,
               Some (Errorf_w "command failed: " err (LF +:+ "Output: " +:+ output)))
      | None => ret (TrimSpace output, None)
      end
  end.

Definition NvidiaSmiTool : ai.Tool.t :=
  ai.Tool.mk "nvidia_smi"
    "Execute the nvidia-smi command on shell and return the output."
    {[ "command" :=
         {[ "type" := "string";
            "description" := "The nvidia-smi command to execute (e.g., 'nvidia-smi', 'nvidia-smi -q', 'nvidia-smi -l 1'). Use flags to limit output for commands that run continuously." ]} ]}
    ["command"].

Definition ExecuteNvidiaSmi : ai.ToolHandler := fun ctx input =>
  match ai.Unmarshal input with
  | (_, Some err) => ret (EmptyString, Some (Errorf_w "invalid input: " err EmptyString))
  | (command, None) =>
      let ctx := WithTimeout ctx 30 in
      do (output, err) <- CombinedOutput ctx "bash" ["-c"; command] ;;
      match err with
      | Some err =>
          ret (EmptyString,
               Some (Errorf_w "command failed: " err (LF +:+ "Output: " +:+ output)))
      | None => ret (TrimSpace output, None)
      end
  end.

Record Executor : Type := mkExecutor { executor : ai.ToolExecutor }.

(** [New]: the executor of package ai with its built-in tools, then the
    tools of this package registered on top. *)
Definition New : Executor :=
  let executor := ai.NewToolExecutor in
  let executor := ai.RegisterTool executor "bash" ExecuteBash in
  let executor := ai.RegisterTool executor "nvidia_smi" ExecuteNvidiaSmi in
  mkExecutor executor.

Definition Execute (e : Executor) (ctx : Context) (toolCall : ai.ToolCall.t)
    : ai.M (string * option error) :=
  ai.Execute (executor e) ctx toolCall.

Definition GetAvailableTools (e : Executor) : list ai.Tool.t :=
  [BashTool; NvidiaSmiTool].

End WithOutside.

End tools.

(** ** Package tui *)

Module tui.

Module responseMsg.
Record t : Type := mk {
  content : string;
  messages : list ai.Message.t;
  err : option error
}.
End responseMsg.

Module toolExecutedMsg.
Record t : Type := mk { messages : list ai.Message.t }.
End toolExecutedMsg.

Module toolResponseMsg.
Record t : Type := mk { result : string; err : option error }.
End toolResponseMsg.

Inductive KeyType : Type :=
| KeyCtrlC
| KeyEsc
| KeyEnter
| KeyRunes
| KeyOther (code : nat).

(** [tea.Msg], by the dynamic types that [Update] tells apart; [OtherMsg]
    stands for a message of any other type. *)
Inductive Msg : Type :=
| WindowSizeMsg (Width Height : Z)
| KeyMsg (type : KeyType) (runes : string)
| ResponseMsg (msg : responseMsg.t)
| ToolResponseMsg (msg : toolResponseMsg.t)
| ToolExecutedMsg (msg : toolExecutedMsg.t)
| OtherMsg (tag : nat).

(** A lipgloss style, by the attributes this program sets. *)
Record Style : Type := mkStyle { Foreground : string; Bold : bool; Italic : bool }.

(** The widgets of the bubbles library and the rendering of lipgloss. *)
Class Widgets : Type := {
  textarea : Type;
  viewport : Type;
  WidgetCmd : Type;
  (** the text area as [New] sets it up *)
  textarea_New : textarea;
  textarea_Update : textarea -> Msg -> textarea * option WidgetCmd;
  textarea_Value : textarea -> string;
  textarea_Reset : textarea -> textarea;
  textarea_SetWidth : textarea -> Z -> textarea;
  viewport_New : Z -> Z -> viewport;
  viewport_Update : viewport -> Msg -> viewport * option WidgetCmd;
  viewport_setSize : viewport -> Z -> Z -> viewport;
  viewport_SetContent : viewport -> string -> viewport;
  viewport_GotoBottom : viewport -> viewport;
  Render : Style -> string -> string
}.

Section WithOutside.
Context `{Outside} `{Widgets}.

Record model : Type := mkModel {
  width : Z;
  height : Z;
  client : ai.Client.t;
  executor : tools.Executor;
  input : textarea;
  viewport_ : viewport;
  messages : list ai.Message.t;
  ready : bool;
  thinking : bool
}.

(** [tea.Cmd]: the commands this program hands to the runtime.  A command
    made by [m.sendMessage()] or [m.sendFinalMessage()] is a closure over
    the copy [m] of the model it was called on. *)
Inductive Cmd : Type :=
| Quit
| Batch (cmds : list (option WidgetCmd))
| sendMessageCmd (m : model)
| sendFinalMessageCmd (m : model).

Definition set_widgets (m : model) (ta : textarea) (vp : viewport) : model :=
  mkModel (width m) (height m) (client m) (executor m) ta vp
    (messages m) (ready m) (thinking m).

Definition set_viewport (m : model) (vp : viewport) : model :=
  set_widgets m (input m) vp.

Definition set_input (m : model) (ta : textarea) : model :=
  set_widgets m ta (viewport_ m).

Definition set_messages (m : model) (msgs : list ai.Message.t) : model :=
  mkModel (width m) (height m) (client m) (executor m) (input m) (viewport_ m)
    msgs (ready m) (thinking m).

Definition set_thinking (m : model) (b : bool) : model :=
  mkModel (width m) (height m) (client m) (executor m) (input m) (viewport_ m)
    (messages m) (ready m) b.

Definition set_size (m : model) (w h : Z) : model :=
  mkModel w h (client m) (executor m) (input m) (viewport_ m)
    (messages m) (ready m) (thinking m).

Definition set_ready (m : model) (b : bool) : model :=
  mkModel (width m) (height m) (client m) (executor m) (input m) (viewport_ m)
    (messages m) b (thinking m).

Definition New : model :=
  let apiKey := Getenv "ANTHROPIC_API_KEY" in
  let ta := textarea_New in
  let vp := viewport_New 80 20 in
  mkModel 0 0 (ai.NewClient apiKey) tools.New ta vp [] false false.

Definition renderMessage (msg : ai.Message.t) : string :=
  let userStyle := mkStyle "#00FFFF" true false in
  let assistantStyle := mkStyle "#FF10F0" true false in
  let contentStyle := mkStyle "#FAFAFA" false false in
  if bool_decide (ai.Message.Role msg = "user") then
    Render userStyle "You: " +:+ Render contentStyle (ai.Message.Content msg)
      +:+ LF +:+ LF
  else if bool_decide (ai.Message.Role msg = "assistant") then
    if bool_decide (ai.Message.Content msg <> EmptyString) then
      Render assistantStyle "Kilo: " +:+ Render contentStyle (ai.Message.Content msg)
        +:+ LF +:+ LF
    else EmptyString
  else if bool_decide (ai.Message.Role msg = "tool") then
    let toolStyle := mkStyle "#666666" false true in
    Render toolStyle ("Tool output:" +:+ LF +:+ ai.Message.Content msg) +:+ LF +:+ LF
  else EmptyString.

Definition renderMessages (m : model) : string :=
  if length (messages m) =? 0 then
    Render (mkStyle "#666666" false true) "Start chatting with Claude..."
  else
    let output := fold_left (fun out msg => out +:+ renderMessage msg) (messages m) EmptyString in
    if thinking m then
      output +:+ Render (mkStyle "#B026FF" false true) "Kilo is thinking..."
    else output.

(** The cap on a tool result and the marker put after a cut one. *)
Definition maxResultLen : nat := 5000.
Definition truncationMarker : string := LF +:+ "... [output truncated, too long]".

(** [if len(result) > 5000 { result = result[:5000] + marker }] *)
Definition truncate (result : string) : string :=
  if maxResultLen <? len result
  then slice_to result maxResultLen +:+ truncationMarker
  else result.

(** The turn that records a tool call of the model, and the turn that
    answers it. *)
Definition toolCallMessage (toolCall : ai.ToolCall.t) : ai.Message.t :=
  ai.Message.mk "assistant" EmptyString (ai.ToolCall.ID toolCall)
    (ai.ToolCall.Name toolCall) (ai.ToolCall.Input toolCall).

Definition toolResultMessage (toolCall : ai.ToolCall.t) (result : string)
    : ai.Message.t :=
  ai.Message.mk "tool" result (ai.ToolCall.ID toolCall) EmptyString EmptyString.

(** What is put into the tool turn for an outcome of [Execute]. *)
Definition resultText (outcome : string * option error) : string :=
  let (result, err) := outcome in
  let result :=
    match err with
    | Some err => "Error: " +:+ Error err
    | None => result
    end in
  truncate result.

(** [for _, toolCall := range response.ToolCalls { ... }], the same body in
    [sendMessage] and in [sendFinalMessage]: the call is appended, the tool
    is run, the result (or the error as text) is cut to the cap and
    appended. *)
Fixpoint executeToolCalls (e : tools.Executor) (ctx : Context)
    (toolCalls : list ai.ToolCall.t) (msgs : list ai.Message.t)
    : ai.M (list ai.Message.t) :=
  match toolCalls with
  | [] => ret msgs
  | toolCall :: rest =>
      let msgs := msgs ++ [toolCallMessage toolCall] in
      do outcome <- tools.Execute e ctx toolCall ;;
      let msgs := msgs ++ [toolResultMessage toolCall (resultText outcome)] in
      executeToolCalls e ctx rest msgs
  end.

(** The closure [m.sendMessage()] returns. *)
Definition sendMessage (m : model) : ai.M Msg :=
  let ctx := Background in
  let tools := tools.GetAvailableTools (executor m) in
  do reply <- ai.SendMessageWithTools (client m) ctx (messages m) tools ;;
  match reply with
  | inr err => ret (ResponseMsg (responseMsg.mk EmptyString [] (Some err)))
  | inl response =>
      if length (ai.Response.ToolCalls response) =? 0 then
        ret (ResponseMsg
               (responseMsg.mk (ai.Response.Content response) (messages m) None))
      else
        do msgs <- executeToolCalls (executor m) ctx
                     (ai.Response.ToolCalls response) (messages m) ;;
        ret (ToolExecutedMsg (toolExecutedMsg.mk msgs))
  end.

Definition maxIterations : nat := 5.

(** [for iteration := 0; iteration < maxIterations; iteration++ { ... }]
    followed by the statement after the loop; [remaining] is
    [maxIterations - iteration] and [msgs] is [m.messages]. *)
Fixpoint finalLoop (m : model) (ctx : Context) (tools : list ai.Tool.t)
    (remaining : nat) (msgs : list ai.Message.t) : ai.M Msg :=
  match remaining with
  | 0 =>
      ret (ResponseMsg
             (responseMsg.mk EmptyString msgs
                (Some (errorString
                         ("reached maximum iterations (" +:+ pretty maxIterations
                          +:+ ") - Claude kept calling tools")))))
  | S remaining' =>
      do reply <- ai.SendMessageWithTools (client m) ctx msgs tools ;;
      match reply with
      | inr err =>
          ret (ResponseMsg
                 (responseMsg.mk EmptyString msgs
                    (Some (Errorf_w "final response error: " err EmptyString))))
      | inl response =>
          if 0 <? length (ai.Response.ToolCalls response) then
            do msgs <- executeToolCalls (executor m) ctx
                         (ai.Response.ToolCalls response) msgs ;;
            finalLoop m ctx tools remaining' msgs
          else if bool_decide (ai.Response.Content response <> EmptyString) then
            ret (ResponseMsg
                   (responseMsg.mk (ai.Response.Content response) msgs None))
          else
            ret (ResponseMsg
                   (responseMsg.mk EmptyString msgs
                      (Some (errorString
                               "empty response from Claude (no error, just empty content)"))))
      end
  end.

(** The closure [m.sendFinalMessage()] returns. *)
Definition sendFinalMessage (m : model) : ai.M Msg :=
  let ctx := WithTimeout Background 60 in
  let tools := tools.GetAvailableTools (executor m) in
  finalLoop m ctx tools maxIterations (messages m).

Definition appendMessage (m : model) (msg : ai.Message.t) : model :=
  set_messages m (messages m ++ [msg]).

Definition textMessage (role content : string) : ai.Message.t :=
  ai.Message.mk role content EmptyString EmptyString EmptyString.

(** [m.viewport.SetContent(m.renderMessages()); m.viewport.GotoBottom()] *)
Definition showMessages (m : model) : model :=
  set_viewport m
    (viewport_GotoBottom (viewport_SetContent (viewport_ m) (renderMessages m))).

Definition Update (m : model) (msg : Msg) : model * option Cmd :=
  let (ta, tiCmd) := textarea_Update (input m) msg in
  let m := set_input m ta in
  let (vp, vpCmd) := viewport_Update (viewport_ m) msg in
  let m := set_viewport m vp in
  match msg with
  | WindowSizeMsg Width Height =>
      let m := set_size m Width Height in
      let m := set_viewport m
                 (viewport_setSize (viewport_ m) (Width - 4) (Height - 10)) in
      let m := set_input m (textarea_SetWidth (input m) (Width - 4)) in
      let m := if ready m then m else set_ready m true in
      let m := set_viewport m (viewport_SetContent (viewport_ m) (renderMessages m)) in
      (m, None)
  | KeyMsg KeyCtrlC _ | KeyMsg KeyEsc _ => (m, Some Quit)
  | KeyMsg KeyEnter _ =>
      if thinking m then (m, None)
      else
        let userInput := TrimSpace (textarea_Value (input m)) in
        if bool_decide (userInput = EmptyString) then (m, None)
        else
          let m := appendMessage m (textMessage "user" userInput) in
          let m := set_input m (textarea_Reset (input m)) in
          let m := set_thinking m true in
          let m := showMessages m in
          (m, Some (sendMessageCmd m))
  | ResponseMsg msg =>
      let m := set_thinking m false in
      let m :=
        match responseMsg.err msg with
        | Some err =>
            appendMessage m (textMessage "assistant" ("Error: " +:+ Error err))
        | None =>
            let m :=
              if 0 <? length (responseMsg.messages msg)
              then set_messages m (responseMsg.messages msg)
              else m in
            appendMessage m (textMessage "assistant" (responseMsg.content msg))
        end in
      (showMessages m, None)
  | ToolResponseMsg msg =>
      let m := set_thinking m false in
      let m :=
        match toolResponseMsg.err msg with
        | Some err =>
            appendMessage m (textMessage "assistant" ("Tool Error: " +:+ Error err))
        | None =>
            appendMessage m (textMessage "assistant" (toolResponseMsg.result msg))
        end in
      (showMessages m, None)
  | ToolExecutedMsg msg =>
      let m := set_messages m (toolExecutedMsg.messages msg) in
      let m := showMessages m in
      (m, Some (sendFinalMessageCmd m))
  | _ => (m, Some (Batch [tiCmd; vpCmd]))
  end.

(** The runtime of Bubble Tea, as far as one exchange needs it: a command
    is run, the message it returns is handed to [Update], and so on until
    [Update] returns no command.  The commands of the widgets and [Quit]
    return no message to this program. *)
Definition runCmd (c : Cmd) : ai.M (option Msg) :=
  match c with
  | sendMessageCmd m => do msg <- sendMessage m ;; ret (Some msg)
  | sendFinalMessageCmd m => do msg <- sendFinalMessage m ;; ret (Some msg)
  | Quit | Batch _ => ret None
  end.

Fixpoint settle (fuel : nat) (m : model) (c : option Cmd) : ai.M (option model) :=
  match c with
  | None => ret (Some m)
  | Some c =>
      match fuel with
      | 0 => ret None
      | S fuel' =>
          do msg <- runCmd c ;;
          match msg with
          | None => ret (Some m)
          | Some msg => let (m', c') := Update m msg in settle fuel' m' c'
          end
      end
  end.

(** One exchange: Enter is pressed and the commands that follow are run
    to the end. *)
Definition exchange (fuel : nat) (m : model) : ai.M (option model) :=
  let (m', c) := Update m (KeyMsg KeyEnter EmptyString) in
  settle fuel m' c.

End WithOutside.

End tui.

(** ** A laboratory: one concrete outside world

    A scanner for JSON texts, ASCII space trimming, a gateway that plays a
    script of replies, a shell with three kinds of command, and widgets
    that hold plain text.  The general theorems below do not depend on it;
    it serves to run the program on concrete inputs. *)

Module Lab.

Definition isSpace (c : ascii) : bool :=
  let n := nat_of_ascii c in
  (n =? 32) || (n =? 9) || (n =? 10) || (n =? 13).

Fixpoint skipSpace (s : string) : string :=
  match s with
  | String c s' => if isSpace c then skipSpace s' else s
  | EmptyString => s
  end.

Definition isDigit (c : ascii) : bool :=
  let n := nat_of_ascii c in (48 <=? n) && (n <=? 57).

(** The leading digits of a text and what follows them. *)
Fixpoint digits (s : string) : string * string :=
  match s with
  | String c s' =>
      if isDigit c then let (ds, r) := digits s' in (String c ds, r)
      else (EmptyString, s)
  | EmptyString => (EmptyString, s)
  end.

(** A number literal at the head of a text. *)
Definition number (s : string) : option (string * string) :=
  let (sign, s) :=
    match s with
    | String "-"%char r => ("-", r)
    | _ => (EmptyString, s)
    end in
  let (int, s) :=
    match s with
    | String "0"%char r => ("0", r)
    | _ => digits s
    end in
  if bool_decide (int = EmptyString) then None
  else
    let frac :=
      match s with
      | String "."%char r =>
          let (ds, r') := digits r in
          if bool_decide (ds = EmptyString) then None else Some ("." +:+ ds, r')
      | _ => Some (EmptyString, s)
      end in
    match frac with
    | None => None
    | Some (frac, s) =>
        let mark :=
          match s with
          | String "e"%char r => Some ("e", r)
          | String "E"%char r => Some ("E", r)
          | _ => None
          end in
        match mark with
        | None => Some (sign +:+ int +:+ frac, s)
        | Some (e, r) =>
            let (esign, r) :=
              match r with
              | String "+"%char r' => ("+", r')
              | String "-"%char r' => ("-", r')
              | _ => (EmptyString, r)
              end in
            let (ds, r') := digits r in
            if bool_decide (ds = EmptyString) then None
            else Some (sign +:+ int +:+ frac +:+ e +:+ esign +:+ ds, r')
        end
    end.

Local Open Scope N_scope.

Definition hexDigit (c : ascii) : option N :=
  let n := N_of_ascii c in
  if (48 <=? n) && (n <=? 57) then Some (n - 48)
  else if (97 <=? n) && (n <=? 102) then Some (n - 87)
  else if (65 <=? n) && (n <=? 70) then Some (n - 55)
  else None.

(** Four hexadecimal digits at the head of a text. *)
Definition hex4 (s : string) : option (N * string) :=
  match s with
  | String a (String b (String c (String d r))) =>
      match hexDigit a, hexDigit b, hexDigit c, hexDigit d with
      | Some a, Some b, Some c, Some d => Some (((a * 16 + b) * 16 + c) * 16 + d, r)
      | _, _, _, _ => None
      end
  | _ => None
  end.

Definition byte (n : N) : string := String (ascii_of_N n) EmptyString.

(** UTF-8 of a code point. *)
Definition utf8 (cp : N) : string :=
  if cp <? 128 then byte cp
  else if cp <? 2048 then byte (192 + cp / 64) +:+ byte (128 + cp mod 64)
  else if cp <? 65536 then
    byte (224 + cp / 4096) +:+ byte (128 + (cp / 64) mod 64) +:+ byte (128 + cp mod 64)
  else
    byte (240 + cp / 262144) +:+ byte (128 + (cp / 4096) mod 64)
      +:+ byte (128 + (cp / 64) mod 64) +:+ byte (128 + cp mod 64).

Definition replacementChar : N := 65533.

(** The code point of a [\u] escape whose four digits gave [hi], and the
    text after it: a surrogate pair is joined, a lone surrogate is
    replaced. *)
Definition escaped (hi : N) (r : string) : N * string :=
  if (55296 <=? hi) && (hi <? 56320) then
    match r with
    | String "\"%char (String "u"%char r') =>
        match hex4 r' with
        | Some (lo, r'') =>
            if (56320 <=? lo) && (lo <? 57344)
            then (65536 + (hi - 55296) * 1024 + (lo - 56320), r'')
            else (replacementChar, r)
        | None => (replacementChar, r)
        end
    | _ => (replacementChar, r)
    end
  else if (56320 <=? hi) && (hi <? 57344) then (replacementChar, r)
  else (hi, r).

Local Close Scope N_scope.

(** The text of a string literal after its opening quote, unquoted, and
    what follows the closing quote. *)
Fixpoint stringBody (fuel : nat) (s : string) : option (string * string) :=
  match fuel with
  | 0 => None
  | S fuel' =>
      let more (bytes r : string) :=
        match stringBody fuel' r with
        | Some (body, r') => Some (bytes +:+ body, r')
        | None => None
        end in
      match s with
      | EmptyString => None
      | String c r =>
          if bool_decide (c = "034"%char) then Some (EmptyString, r)
          else if bool_decide (c = "\"%char) then
            match r with
            | String e r' =>
                if bool_decide (e = "034"%char) then more dq r'
                else if bool_decide (e = "\"%char) then more "\" r'
                else if bool_decide (e = "/"%char) then more "/" r'
                else if bool_decide (e = "b"%char) then more (byte 8) r'
                else if bool_decide (e = "f"%char) then more (byte 12) r'
                else if bool_decide (e = "n"%char) then more (byte 10) r'
                else if bool_decide (e = "r"%char) then more (byte 13) r'
                else if bool_decide (e = "t"%char) then more (byte 9) r'
                else if bool_decide (e = "u"%char) then
                  match hex4 r' with
                  | Some (hi, r'') => let (cp, r3) := escaped hi r'' in more (utf8 cp) r3
                  | None => None
                  end
                else None
            | EmptyString => None
            end
          else if nat_of_ascii c <? 32 then None
          else more (String c EmptyString) r
      end
  end.

(** Whether [p] is a prefix of [s], and the rest of [s] if so. *)
Fixpoint stripPrefix (p s : string) : option string :=
  match p, s with
  | EmptyString, _ => Some s
  | String a p', String b s' => if bool_decide (a = b) then stripPrefix p' s' else None
  | String _ _, EmptyString => None
  end.

(** A JSON value at the head of a text, and the text after it.  Every
    call consumes a byte, so the length of the text is fuel enough. *)
Fixpoint value (fuel : nat) (s : string) {struct fuel}
    : option (json.Value * string) :=
  match fuel with
  | 0 => None
  | S fuel' =>
      match skipSpace s with
      | String "{"%char r =>
          match skipSpace r with
          | String "}"%char r' => Some (json.Object [], r')
          | r1 => members fuel' r1 []
          end
      | String "["%char r =>
          match skipSpace r with
          | String "]"%char r' => Some (json.Array [], r')
          | r1 => elements fuel' r1 []
          end
      | String "034"%char r =>
          match stringBody (S (len r)) r with
          | Some (body, r') => Some (json.Str body, r')
          | None => None
          end
      | s1 =>
          match stripPrefix "true" s1, stripPrefix "false" s1, stripPrefix "null" s1 with
          | Some r, _, _ => Some (json.Bool true, r)
          | _, Some r, _ => Some (json.Bool false, r)
          | _, _, Some r => Some (json.Null, r)
          | None, None, None =>
              match number s1 with
              | Some (literal, r) => Some (json.Number literal, r)
              | None => None
              end
          end
      end
  end
with members (fuel : nat) (s : string) (acc : list (string * json.Value))
    {struct fuel} : option (json.Value * string) :=
  match fuel with
  | 0 => None
  | S fuel' =>
      match skipSpace s with
      | String "034"%char r =>
          match stringBody (S (len r)) r with
          | Some (key, r1) =>
              match skipSpace r1 with
              | String ":"%char r2 =>
                  match value fuel' r2 with
                  | Some (v, r3) =>
                      match skipSpace r3 with
                      | String ","%char r4 => members fuel' r4 (acc ++ [(key, v)])
                      | String "}"%char r4 => Some (json.Object (acc ++ [(key, v)]), r4)
                      | _ => None
                      end
                  | None => None
                  end
              | _ => None
              end
          | None => None
          end
      | _ => None
      end
  end
with elements (fuel : nat) (s : string) (acc : list json.Value)
    {struct fuel} : option (json.Value * string) :=
  match fuel with
  | 0 => None
  | S fuel' =>
      match value fuel' s with
      | Some (v, r) =>
          match skipSpace r with
          | String ","%char r' => elements fuel' r' (acc ++ [v])
          | String "]"%char r' => Some (json.Array (acc ++ [v]), r')
          | _ => None
          end
      | None => None
      end
  end.

Definition scan (s : string) : json.Value + error :=
  if bool_decide (skipSpace s = EmptyString)
  then inr (errorString "unexpected end of JSON input")
  else
    match value (S (len s)) s with
    | Some (v, r) =>
        if bool_decide (skipSpace r = EmptyString) then inl v
        else inr (errorString "invalid character after top-level value")
    | None => inr (errorString "invalid character in JSON input")
    end.

(** [strings.TrimSpace] on ASCII text. *)
Definition asciiSpace (c : ascii) : bool :=
  let n := nat_of_ascii c in
  (n =? 9) || (n =? 10) || (n =? 11) || (n =? 12) || (n =? 13) || (n =? 32).

Fixpoint trimLeft (s : string) : string :=
  match s with
  | String c s' => if asciiSpace c then trimLeft s' else s
  | EmptyString => s
  end.

Definition TrimSpace (s : string) : string :=
  String.rev (trimLeft (String.rev (trimLeft s))).

(** The world: the replies the provider will give, in order. *)
Record World : Type := mkWorld { replies : list (anthropic.Message + error) }.

Definition MessagesNew (ctx : Context) (apiKey : string)
    (params : anthropic.MessageNewParams)
    : State World (anthropic.Message + error) :=
  fun w =>
    match replies w with
    | [] => (inr (errorString "connection refused"), w)
    | reply :: rest => (reply, mkWorld rest)
    end.

Fixpoint repeatString (s : string) (n : nat) : string :=
  match n with
  | 0 => EmptyString
  | S n' => s +:+ repeatString s n'
  end.

(** The shell: the empty command prints nothing, [pwd] prints a
    directory, [printf %06000d 0] prints six thousand zeros, [false] fails,
    and no other command is found; [date] prints a date. *)
Definition CombinedOutput (ctx : Context) (name : string) (args : list string)
    : State World (string * option error) :=
  fun w =>
    match args with
    | [_; command] =>
        if bool_decide (command = EmptyString) then ((EmptyString, None), w)
        else if bool_decide (command = "pwd") then (("/home/kilo" +:+ LF, None), w)
        else if bool_decide (command = "printf %06000d 0")
        then ((repeatString "0" (60 * 100), None), w)
        else if bool_decide (command = "false")
        then ((EmptyString, Some (errorString "exit status 1")), w)
        else (("bash: line 1: " +:+ command +:+ ": command not found" +:+ LF,
               Some (errorString "exit status 127")), w)
    | _ => (("Sat Oct 18 14:23:45 PDT 2025" +:+ LF, None), w)
    end.

Definition outside : Outside :=
  Build_Outside World MessagesNew CombinedOutput TrimSpace scan (fun _ => "sk-lab").

(** The widgets: a text area is its value, Enter puts a line break into
    it and runes are typed into it; a viewport is its content. *)
Definition textarea_Update (ta : string) (msg : tui.Msg) : string * option unit :=
  match msg with
  | tui.KeyMsg tui.KeyEnter _ => (ta +:+ LF, None)
  | tui.KeyMsg tui.KeyRunes runes => (ta +:+ runes, None)
  | _ => (ta, None)
  end.

Definition widgets : tui.Widgets :=
  {| tui.textarea := string;
     tui.viewport := string;
     tui.WidgetCmd := unit;
     tui.textarea_New := EmptyString;
     tui.textarea_Update := textarea_Update;
     tui.textarea_Value := fun ta => ta;
     tui.textarea_Reset := fun _ => EmptyString;
     tui.textarea_SetWidth := fun ta _ => ta;
     tui.viewport_New := fun _ _ => EmptyString;
     tui.viewport_Update := fun vp _ => (vp, None);
     tui.viewport_setSize := fun vp _ _ => vp;
     tui.viewport_SetContent := fun _ content => content;
     tui.viewport_GotoBottom := fun vp => vp;
     tui.Render := fun _ s => s |}.

#[local] Existing Instance outside.
#[local] Existing Instance widgets.

(** The payload of a command tool: an object whose member [command] is
    the given text. *)
Definition payload (command : string) : string :=
  "{" +:+ dq +:+ "command" +:+ dq +:+ ":" +:+ dq +:+ command +:+ dq +:+ "}".

(** Replies of the provider: a text, a remark with a call of the bash
    tool, a call of any tool, a failure of the transport. *)
Definition say (text : string) : anthropic.Message + error :=
  inl (anthropic.mkMessage [anthropic.TextBlock text]).

Definition useBash (id command : string) : anthropic.Message + error :=
  inl (anthropic.mkMessage
         [anthropic.TextBlock "Let me check.";
          anthropic.ToolUseBlock id "bash" (payload command)]).

Definition useTool (id name input : string) : anthropic.Message + error :=
  inl (anthropic.mkMessage [anthropic.ToolUseBlock id name input]).

Definition refuse (message : string) : anthropic.Message + error :=
  inr (errorString message).

(** A run that starts with an empty log and a script of replies. *)
Definition start (script : list (anthropic.Message + error)) : ai.Run :=
  ai.mkRun (mkWorld script) [].

(** The model at start-up with a text typed into the input. *)
Definition typed (text : string) : tui.model := tui.set_input tui.New text.

(** A handler that ignores its input and returns a fixed text. *)
Definition constant (text : string) : ai.ToolHandler :=
  fun _ _ w => ((text, None), w).

End Lab.

(** ** The vocabulary of the properties *)

(** The gateway calls in a log of calls. *)
Fixpoint gatewayCalls (cs : list ai.Call) : nat :=
  match cs with
  | [] => 0
  | ai.GatewayCall _ :: rest => S (gatewayCalls rest)
  | ai.ToolExecution _ :: rest => gatewayCalls rest
  end.

(** The tool executions in a log of calls. *)
Fixpoint toolExecutions (cs : list ai.Call) : nat :=
  match cs with
  | [] => 0
  | ai.GatewayCall _ :: rest => toolExecutions rest
  | ai.ToolExecution _ :: rest => S (toolExecutions rest)
  end.

(** The cycles in a log of calls: the gateway calls that are directly
    followed by the execution of a tool. *)
Fixpoint cycles (cs : list ai.Call) : nat :=
  match cs with
  | [] => 0
  | ai.GatewayCall _ :: ((ai.ToolExecution _ :: _) as rest) => S (cycles rest)
  | _ :: rest => cycles rest
  end.

(** The turns that answer tool calls with results, call by call. *)
Definition toolTurns (toolCalls : list ai.ToolCall.t) (results : list string)
    : list ai.Message.t :=
  flat_map (fun p : ai.ToolCall.t * string =>
              [tui.toolCallMessage p.1; tui.toolResultMessage p.1 p.2])
           (zip toolCalls results).

(** A run of turns made of tool calls, each directly followed by its
    result. *)
Inductive ToolTurns : list ai.Message.t -> Prop :=
| ToolTurns_nil : ToolTurns []
| ToolTurns_cons toolCall result rest :
    ToolTurns rest ->
    ToolTurns (tui.toolCallMessage toolCall :: tui.toolResultMessage toolCall result :: rest).

(** Every turn of role tool in a transcript stands directly after the turn
    of the tool call it answers, and so carries the identifier of a call
    appended before it. *)
Definition answered (transcript : list ai.Message.t) : Prop :=
  forall i res,
    transcript !! i = Some res ->
    ai.Message.Role res = "tool" ->
    exists j toolCall result,
      i = S j /\
      transcript !! j = Some (tui.toolCallMessage toolCall) /\
      res = tui.toolResultMessage toolCall result.

(** A message that starts or continues no exchange: a key other than
    Enter, a change of the window size, a message of the widgets. *)
Definition idle (msg : tui.Msg) : Prop :=
  match msg with
  | tui.WindowSizeMsg _ _ | tui.OtherMsg _ => True
  | tui.KeyMsg type _ => type <> tui.KeyEnter
  | _ => False
  end.

Section Sessions.
Context `{Outside} `{tui.Widgets}.

(** The models a session can be in between exchanges: the model at
    start-up, and what idle messages and whole exchanges make of such a
    model, whatever the outside world does. *)
Inductive Reachable : tui.model -> Prop :=
| Reachable_New : Reachable tui.New
| Reachable_idle m msg : Reachable m -> idle msg -> Reachable (tui.Update m msg).1
| Reachable_exchange m (r : ai.Run) m' :
    Reachable m -> (tui.exchange 2 m r).1 = Some m' -> Reachable m'.

End Sessions.

Section Passing.
Context `{Outside} `{tui.Widgets}.

(** The models a session passes through, between exchanges and within
    them: the model at start-up and what [Update] makes of such a model on
    any message, the messages of the commands included. *)
Inductive Live : tui.model -> Prop :=
| Live_New : Live tui.New
| Live_Update m msg : Live m -> Live (tui.Update m msg).1.

End Passing.

(** How often [m] occurs in [s], overlapping occurrences counted. *)
Fixpoint occurrences (m s : string) : nat :=
  (if String.prefix m s then 1 else 0) +
  match s with
  | EmptyString => 0
  | String _ s' => occurrences m s'
  end.

(** A member that makes the decoder of the command struct save an error:
    its key selects the field and its value is neither a string nor null. *)
Definition mistyped (kv : string * json.Value) : bool :=
  json.matches "command" kv.1 &&
  match kv.2 with
  | json.Str _ | json.Null => false
  | _ => true
  end.

(** The transcript a message of a command carries back to [Update]. *)
Definition carried (msg : tui.Msg) : list ai.Message.t :=
  match msg with
  | tui.ResponseMsg rm => tui.responseMsg.messages rm
  | tui.ToolExecutedMsg em => tui.toolExecutedMsg.messages em
  | _ => []
  end.

(** The two errors the follow-up loop makes itself. *)
Definition iterationsExhausted : error :=
  errorString ("reached maximum iterations (" +:+ pretty tui.maxIterations
               +:+ ") - Claude kept calling tools").

Definition emptyResponse : error :=
  errorString "empty response from Claude (no error, just empty content)".

(** The tool uses among the blocks of a reply, in order. *)
Definition toolUses (blocks : list anthropic.ContentBlock) : list ai.ToolCall.t :=
  flat_map (fun b => match b with
                     | anthropic.ToolUseBlock id name input => [ai.ToolCall.mk id name input]
                     | _ => []
                     end) blocks.

(** A turn that holds text only: a user turn, or an assistant turn with
    content and without a complete tool call. *)
Definition plainText (msg : ai.Message.t) : Prop :=
  ai.Message.Role msg = "user" \/
  (ai.Message.Role msg = "assistant" /\
   ai.Message.Content msg <> EmptyString /\
   (ai.Message.ToolCallID msg = EmptyString \/
    ai.Message.ToolCallName msg = EmptyString \/
    ai.Message.ToolCallInput msg = EmptyString)).

(** Every gateway call in a log was made on a transcript that extends the
    transcript of the gateway call before it, the first one on a
    transcript that extends [prev]. *)
Fixpoint growing (prev : list ai.Message.t) (cs : list ai.Call) : Prop :=
  match cs with
  | [] => True
  | ai.GatewayCall transcript :: rest =>
      prev `prefix_of` transcript /\ growing transcript rest
  | ai.ToolExecution _ :: rest => growing prev rest
  end.

Section Requests.
Context `{Outside}.

(** What [SendMessageWithTools] hands to the SDK. *)
Definition request (c : ai.Client.t) (messages : list ai.Message.t)
    (tools : list ai.Tool.t) : anthropic.MessageNewParams :=
  anthropic.mkMessageNewParams (ai.Client.model c) 1024
    (flat_map ai.toParam messages) (map ai.toToolParam tools) [ai.systemPrompt].

(** What [SendMessage] hands to the SDK. *)
Definition textRequest (c : ai.Client.t) (messages : list ai.Message.t)
    : anthropic.MessageNewParams :=
  anthropic.mkMessageNewParams (ai.Client.model c) 1024
    (flat_map ai.toTextParam messages) [] [].

End Requests.

(** A turn whose content, if it is the result of a tool, is within the cap
    and the marker. *)
Definition capped (msg : ai.Message.t) : Prop :=
  ai.Message.Role msg = "tool" ->
  len (ai.Message.Content msg) <= tui.maxResultLen + len tui.truncationMarker.

Section Inputs.
Context `{Outside} `{tui.Widgets}.

(** What [Update] reads as the input when Enter arrives: the value of the
    text area after the text area has processed the key, trimmed. *)
Definition submitted (m : tui.model) (runes : string) : string :=
  TrimSpace
    (tui.textarea_Value
       (tui.textarea_Update (tui.input m) (tui.KeyMsg tui.KeyEnter runes)).1).

(** The output of [renderMessages] for a transcript that is not empty,
    before the thinking line. *)
Definition rendered (msgs : list ai.Message.t) : string :=
  fold_left (fun out msg => out +:+ tui.renderMessage msg) msgs EmptyString.

End Inputs.

(** ** Strings *)

Lemma append_cons (c : ascii) (s t : string) :
  String c s +:+ t = String c (s +:+ t).
Proof. reflexivity. Qed.

Lemma append_nil_l (t : string) : "" +:+ t = t.
Proof. reflexivity. Qed.

Lemma append_nil_r (s : string) : s +:+ "" = s.
Proof. induction s as [|c s IH]; [reflexivity|]. now rewrite append_cons, IH. Qed.

Lemma len_app (s t : string) : len (s +:+ t) = len s + len t.
Proof.
  unfold len. induction s as [|c s IH]; [reflexivity|].
  rewrite append_cons. simpl. now rewrite IH.
Qed.

Lemma len_slice_to (s : string) (n : nat) :
  n <= len s -> len (slice_to s n) = n.
Proof.
  unfold len, slice_to. revert n.
  induction s as [|c s IH]; intros [|n] Hn; simpl in *; try reflexivity; try lia.
  rewrite IH; [reflexivity | lia].
Qed.

(** ** The state monad and the log of calls *)

Section Properties.
Context `{Outside} `{tui.Widgets}.

Lemma gatewayCalls_app (a b : list ai.Call) :
  gatewayCalls (a ++ b) = gatewayCalls a + gatewayCalls b.
Proof.
  induction a as [|[msgs|tc] a IH]; cbn [gatewayCalls app]; [reflexivity|..];
    rewrite IH; reflexivity.
Qed.

Lemma toolExecutions_app (a b : list ai.Call) :
  toolExecutions (a ++ b) = toolExecutions a + toolExecutions b.
Proof.
  induction a as [|[msgs|tc] a IH]; cbn [toolExecutions app]; [reflexivity|..];
    rewrite IH; reflexivity.
Qed.

Lemma gatewayCalls_executions (tcs : list ai.ToolCall.t) :
  gatewayCalls (map ai.ToolExecution tcs) = 0.
Proof. induction tcs as [|tc tcs IH]; [reflexivity | exact IH]. Qed.

Lemma toolExecutions_executions (tcs : list ai.ToolCall.t) :
  toolExecutions (map ai.ToolExecution tcs) = length tcs.
Proof.
  induction tcs as [|tc tcs IH]; [reflexivity|].
  cbn [map toolExecutions length]. now rewrite IH.
Qed.

Lemma cycles_le_gatewayCalls (cs : list ai.Call) : cycles cs <= gatewayCalls cs.
Proof.
  induction cs as [|c cs IH]; [reflexivity|].
  destruct c as [msgs|tc].
  - change (gatewayCalls (ai.GatewayCall msgs :: cs)) with (S (gatewayCalls cs)).
    destruct cs as [|[msgs'|tc'] cs']; cbn [cycles] in *; lia.
  - change (gatewayCalls (ai.ToolExecution tc :: cs)) with (gatewayCalls cs).
    cbn [cycles]. exact IH.
Qed.

Lemma SendMessageWithTools_calls c ctx msgs tools (r : ai.Run) :
  ai.calls (ai.SendMessageWithTools c ctx msgs tools r).2
  = ai.calls r ++ [ai.GatewayCall msgs].
Proof.
  unfold ai.SendMessageWithTools, bind, ai.record, ai.outside, ret. cbn.
  destruct (MessagesNew _ _ _ _) as [[reply|err] w]; reflexivity.
Qed.

Lemma Execute_calls e ctx toolCall (r : ai.Run) :
  ai.calls (tools.Execute e ctx toolCall r).2
  = ai.calls r ++ [ai.ToolExecution toolCall].
Proof.
  unfold tools.Execute, ai.Execute, bind, ai.record, ai.outside, ret. cbn.
  destruct (ai.tools _ !! _) as [handler|]; [|reflexivity].
  destruct (handler _ _ _) as [outcome w]; reflexivity.
Qed.

Lemma executeToolCalls_cons e ctx toolCall rest msgs (r : ai.Run) :
  tui.executeToolCalls e ctx (toolCall :: rest) msgs r
  = tui.executeToolCalls e ctx rest
      (msgs ++ [tui.toolCallMessage toolCall;
                tui.toolResultMessage toolCall
                  (tui.resultText (tools.Execute e ctx toolCall r).1)])
      (tools.Execute e ctx toolCall r).2.
Proof.
  cbn [tui.executeToolCalls]. unfold bind.
  destruct (tools.Execute e ctx toolCall r) as [outcome r1]. cbn [fst snd].
  now rewrite <- app_assoc.
Qed.

Lemma toolTurns_cons toolCall rest result results :
  toolTurns (toolCall :: rest) (result :: results)
  = tui.toolCallMessage toolCall :: tui.toolResultMessage toolCall result
      :: toolTurns rest results.
Proof. reflexivity. Qed.

Lemma toolTurns_ToolTurns toolCalls : forall results,
  ToolTurns (toolTurns toolCalls results).
Proof.
  induction toolCalls as [|tc tcs IH]; intros [|res results];
    try apply ToolTurns_nil.
  rewrite toolTurns_cons. apply ToolTurns_cons, IH.
Qed.

Lemma ToolTurns_app a b : ToolTurns a -> ToolTurns b -> ToolTurns (a ++ b).
Proof.
  induction 1 as [|tc res rest Hrest IH]; intros Hb; [exact Hb|].
  cbn [app]. apply ToolTurns_cons, IH, Hb.
Qed.

(** The loop over the tool calls of one response: it always comes back,
    with the transcript extended by one call turn and one result turn per
    tool call, in the order of the response, and with one execution
    logged per tool call. *)
Lemma executeToolCalls_spec e ctx toolCalls : forall msgs (r : ai.Run),
  exists results,
    length results = length toolCalls /\
    (tui.executeToolCalls e ctx toolCalls msgs r).1 = msgs ++ toolTurns toolCalls results /\
    ai.calls (tui.executeToolCalls e ctx toolCalls msgs r).2
    = ai.calls r ++ map ai.ToolExecution toolCalls.
Proof.
  induction toolCalls as [|tc tcs IH]; intros msgs r.
  - exists []. cbn. now rewrite !app_nil_r.
  - rewrite executeToolCalls_cons.
    destruct (IH (msgs ++ [tui.toolCallMessage tc;
                           tui.toolResultMessage tc
                             (tui.resultText (tools.Execute e ctx tc r).1)])
                 (tools.Execute e ctx tc r).2)
      as (results & Hlen & Hmsgs & Hcalls).
    exists (tui.resultText (tools.Execute e ctx tc r).1 :: results).
    split; [cbn; now rewrite Hlen|]. split.
    + rewrite Hmsgs, toolTurns_cons, <- app_assoc. reflexivity.
    + rewrite Hcalls, Execute_calls, <- app_assoc. reflexivity.
Qed.

(** One pass of the follow-up loop, case by case. *)
Lemma finalLoop_S m ctx tools k msgs (r : ai.Run) :
  tui.finalLoop m ctx tools (S k) msgs r
  = match ai.SendMessageWithTools (tui.client m) ctx msgs tools r with
    | (inr err, r1) =>
        (tui.ResponseMsg
           (tui.responseMsg.mk EmptyString msgs
              (Some (Errorf_w "final response error: " err EmptyString))), r1)
    | (inl response, r1) =>
        match ai.Response.ToolCalls response with
        | [] =>
            if bool_decide (ai.Response.Content response <> EmptyString)
            then (tui.ResponseMsg
                    (tui.responseMsg.mk (ai.Response.Content response) msgs None), r1)
            else (tui.ResponseMsg
                    (tui.responseMsg.mk EmptyString msgs (Some emptyResponse)), r1)
        | _ :: _ =>
            tui.finalLoop m ctx tools k
              (tui.executeToolCalls (tui.executor m) ctx
                 (ai.Response.ToolCalls response) msgs r1).1
              (tui.executeToolCalls (tui.executor m) ctx
                 (ai.Response.ToolCalls response) msgs r1).2
        end
    end.
Proof.
  cbn [tui.finalLoop]. unfold bind at 1.
  destruct (ai.SendMessageWithTools _ _ _ _ _) as [[response|err] r1];
    [|reflexivity].
  destruct (ai.Response.ToolCalls response) as [|tc tcs] eqn:Etcs.
  - cbn [length Nat.ltb Nat.leb]. case_bool_decide; reflexivity.
  - cbn [length Nat.ltb Nat.leb]. unfold bind.
    destruct (tui.executeToolCalls _ _ _ _ _) as [msgs' r2]. reflexivity.
Qed.

Lemma finalLoop_0 m ctx tools msgs (r : ai.Run) :
  tui.finalLoop m ctx tools 0 msgs r
  = (tui.ResponseMsg (tui.responseMsg.mk EmptyString msgs (Some iterationsExhausted)), r).
Proof. reflexivity. Qed.

(** A pass of the loop that ends it: one gateway call, no new turn. *)
Ltac terminal_pass msgs :=
  eexists _, [], [ai.GatewayCall msgs]; cbn [fst snd];
  split; [reflexivity|]; cbn; rewrite app_nil_r;
  split_and!; [reflexivity | constructor | assumption | lia | auto; discriminate].

(** The follow-up loop always comes back with a response message.  Its
    transcript is the one the loop started from, extended by tool calls
    with their results; the loop called the gateway at most [remaining]
    times; and it reports success only with a text that is not empty. *)
Lemma finalLoop_spec m ctx tools remaining : forall msgs (r : ai.Run),
  exists rm turns evs,
    (tui.finalLoop m ctx tools remaining msgs r).1 = tui.ResponseMsg rm /\
    tui.responseMsg.messages rm = msgs ++ turns /\
    ToolTurns turns /\
    ai.calls (tui.finalLoop m ctx tools remaining msgs r).2 = ai.calls r ++ evs /\
    gatewayCalls evs <= remaining /\
    (tui.responseMsg.err rm = None -> tui.responseMsg.content rm <> EmptyString).
Proof.
  induction remaining as [|k IH]; intros msgs r.
  - rewrite finalLoop_0. eexists _, [], []. cbn [fst snd].
    split; [reflexivity|]. cbn. rewrite !app_nil_r.
    split_and!; [reflexivity | constructor | reflexivity | lia | discriminate].
  - rewrite finalLoop_S.
    pose proof (SendMessageWithTools_calls (tui.client m) ctx msgs tools r) as Hgw.
    destruct (ai.SendMessageWithTools _ _ _ _ _) as [[response|err] r1];
      cbn [snd] in Hgw.
    + destruct (ai.Response.ToolCalls response) as [|tc tcs] eqn:Etcs.
      * case_bool_decide as Hc.
        -- terminal_pass msgs.
        -- terminal_pass msgs.
      * destruct (executeToolCalls_spec (tui.executor m) ctx (tc :: tcs) msgs r1)
          as (results & _ & Hmsgs & Hcalls).
        destruct (IH (tui.executeToolCalls (tui.executor m) ctx (tc :: tcs) msgs r1).1
                     (tui.executeToolCalls (tui.executor m) ctx (tc :: tcs) msgs r1).2)
          as (rm & turns & evs & Hres & Hrm & Hturns & Hlog & Hbound & Hdone).
        exists rm, (toolTurns (tc :: tcs) results ++ turns),
          (ai.GatewayCall msgs :: map ai.ToolExecution (tc :: tcs) ++ evs).
        split; [exact Hres|]. split; [now rewrite Hrm, Hmsgs, <- app_assoc|].
        split; [apply ToolTurns_app; [apply toolTurns_ToolTurns | exact Hturns]|].
        split.
        { rewrite Hlog, Hcalls, Hgw, <- !app_assoc. reflexivity. }
        split; [|exact Hdone].
        change (ai.GatewayCall msgs :: map ai.ToolExecution (tc :: tcs) ++ evs)
          with ([ai.GatewayCall msgs] ++ map ai.ToolExecution (tc :: tcs) ++ evs).
        rewrite !gatewayCalls_app, gatewayCalls_executions. cbn. lia.
    + terminal_pass msgs.
Qed.

(** ** Transcripts whose tool results answer tool calls *)

Lemma answered_nil : answered [].
Proof. intros i res Hi. now rewrite lookup_nil in Hi. Qed.

Lemma answered_app_text (l : list ai.Message.t) (msg : ai.Message.t) :
  answered l -> ai.Message.Role msg <> "tool" -> answered (l ++ [msg]).
Proof.
  intros Hl Hmsg i res Hi Hrole.
  apply lookup_app_Some in Hi as [Hi | [Hge Hi]].
  - destruct (Hl i res Hi Hrole) as (j & tc & result & -> & Hj & ->).
    exists j, tc, result. split_and!; [reflexivity | | reflexivity].
    now apply lookup_app_l_Some.
  - apply list_lookup_singleton_Some in Hi as [_ <-]. contradiction.
Qed.

Lemma answered_app_pair (l : list ai.Message.t) toolCall result :
  answered l ->
  answered (l ++ [tui.toolCallMessage toolCall; tui.toolResultMessage toolCall result]).
Proof.
  intros Hl i res Hi Hrole.
  apply lookup_app_Some in Hi as [Hi | [Hge Hi]].
  - destruct (Hl i res Hi Hrole) as (j & tc & result' & -> & Hj & ->).
    exists j, tc, result'. split_and!; [reflexivity | | reflexivity].
    now apply lookup_app_l_Some.
  - destruct (i - length l) as [|[|n]] eqn:Ei; cbn in Hi; try discriminate.
    + injection Hi as <-. discriminate Hrole.
    + injection Hi as <-. exists (length l), toolCall, result.
      split_and!; [lia | | reflexivity].
      rewrite lookup_app_r by lia. now rewrite Nat.sub_diag.
Qed.

Lemma answered_app_ToolTurns (turns : list ai.Message.t) :
  ToolTurns turns -> forall l, answered l -> answered (l ++ turns).
Proof.
  induction 1 as [|tc result rest Hrest IH]; intros l Hl.
  - now rewrite app_nil_r.
  - change (tui.toolCallMessage tc :: tui.toolResultMessage tc result :: rest)
      with ([tui.toolCallMessage tc; tui.toolResultMessage tc result] ++ rest).
    rewrite app_assoc. apply IH, answered_app_pair, Hl.
Qed.

(** ** Update, case by case *)

Lemma Update_enter m runes :
  let ta := (tui.textarea_Update (tui.input m) (tui.KeyMsg tui.KeyEnter runes)).1 in
  let vp := (tui.viewport_Update (tui.viewport_ m) (tui.KeyMsg tui.KeyEnter runes)).1 in
  let m0 := tui.set_widgets m ta vp in
  tui.Update m (tui.KeyMsg tui.KeyEnter runes)
  = if tui.thinking m then (m0, None)
    else if bool_decide (TrimSpace (tui.textarea_Value ta) = EmptyString)
    then (m0, None)
    else
      let m1 :=
        tui.showMessages
          (tui.set_thinking
             (tui.set_input
                (tui.appendMessage m0
                   (tui.textMessage "user" (TrimSpace (tui.textarea_Value ta))))
                (tui.textarea_Reset ta))
             true) in
      (m1, Some (tui.sendMessageCmd m1)).
Proof.
  unfold tui.Update.
  destruct (tui.textarea_Update _ _) as [ta tiCmd].
  destruct (tui.viewport_Update _ _) as [vp vpCmd]. reflexivity.
Qed.

Lemma Update_response m msg :
  exists m',
    tui.Update m (tui.ResponseMsg msg) = (m', None) /\
    tui.thinking m' = false /\
    tui.messages m' =
      match tui.responseMsg.err msg with
      | Some err => tui.messages m ++ [tui.textMessage "assistant" ("Error: " +:+ Error err)]
      | None =>
          (if 0 <? length (tui.responseMsg.messages msg)
           then tui.responseMsg.messages msg else tui.messages m)
          ++ [tui.textMessage "assistant" (tui.responseMsg.content msg)]
      end.
Proof.
  unfold tui.Update.
  destruct (tui.textarea_Update _ _) as [ta tiCmd].
  destruct (tui.viewport_Update _ _) as [vp vpCmd].
  eexists. split; [reflexivity|].
  destruct (tui.responseMsg.err msg) as [err|]; [split; reflexivity|].
  destruct (0 <? length (tui.responseMsg.messages msg)); split; reflexivity.
Qed.

Lemma Update_toolExecuted m msg :
  exists m',
    tui.Update m (tui.ToolExecutedMsg msg) = (m', Some (tui.sendFinalMessageCmd m')) /\
    tui.messages m' = tui.toolExecutedMsg.messages msg /\
    tui.client m' = tui.client m /\
    tui.executor m' = tui.executor m /\
    tui.thinking m' = tui.thinking m.
Proof.
  unfold tui.Update.
  destruct (tui.textarea_Update _ _) as [ta tiCmd].
  destruct (tui.viewport_Update _ _) as [vp vpCmd].
  eexists. split_and!; reflexivity.
Qed.

(** The first command of an exchange, case by case. *)
Lemma sendMessage_eq m (r : ai.Run) :
  tui.sendMessage m r
  = match ai.SendMessageWithTools (tui.client m) Background (tui.messages m)
            (tools.GetAvailableTools (tui.executor m)) r with
    | (inr err, r1) =>
        (tui.ResponseMsg (tui.responseMsg.mk EmptyString [] (Some err)), r1)
    | (inl response, r1) =>
        match ai.Response.ToolCalls response with
        | [] =>
            (tui.ResponseMsg
               (tui.responseMsg.mk (ai.Response.Content response) (tui.messages m) None),
             r1)
        | _ :: _ =>
            let run := tui.executeToolCalls (tui.executor m) Background
                         (ai.Response.ToolCalls response) (tui.messages m) r1 in
            (tui.ToolExecutedMsg (tui.toolExecutedMsg.mk run.1), run.2)
        end
    end.
Proof.
  unfold tui.sendMessage. unfold bind at 1.
  destruct (ai.SendMessageWithTools _ _ _ _ _) as [[response|err] r1];
    [|reflexivity].
  destruct (ai.Response.ToolCalls response) as [|tc tcs] eqn:Etcs; [reflexivity|].
  cbn [length Nat.eqb]. unfold bind.
  destruct (tui.executeToolCalls _ _ _ _ _) as [msgs' r2]. reflexivity.
Qed.

(** ** One exchange, from Enter to the last message *)

Lemma settle_None fuel m (r : ai.Run) : tui.settle fuel m None r = (Some m, r).
Proof. destruct fuel; reflexivity. Qed.

Lemma settle_S fuel m c (r : ai.Run) :
  tui.settle (S fuel) m (Some c) r
  = match (tui.runCmd c r).1 with
    | None => (Some m, (tui.runCmd c r).2)
    | Some msg =>
        tui.settle fuel (tui.Update m msg).1 (tui.Update m msg).2 (tui.runCmd c r).2
    end.
Proof.
  cbn [tui.settle]. unfold bind.
  destruct (tui.runCmd c r) as [[msg|] r1]; [|reflexivity].
  cbn [fst snd]. destruct (tui.Update m msg) as [m' c']. reflexivity.
Qed.

Lemma runCmd_sendMessage m (r : ai.Run) :
  tui.runCmd (tui.sendMessageCmd m) r
  = (Some (tui.sendMessage m r).1, (tui.sendMessage m r).2).
Proof.
  cbn [tui.runCmd]. unfold bind, ret. now destruct (tui.sendMessage m r).
Qed.

Lemma runCmd_sendFinalMessage m (r : ai.Run) :
  tui.runCmd (tui.sendFinalMessageCmd m) r
  = (Some (tui.sendFinalMessage m r).1, (tui.sendFinalMessage m r).2).
Proof.
  cbn [tui.runCmd]. unfold bind, ret. now destruct (tui.sendFinalMessage m r).
Qed.

(** The follow-up command, run to the end: the model is left with its
    transcript, some tool calls with results, and one closing assistant
    turn; at most [maxIterations] gateway calls were made. *)
Lemma settle_final fuel m (r : ai.Run) :
  let run := tui.settle (S fuel) m (Some (tui.sendFinalMessageCmd m)) r in
  exists m' turns final evs,
    run.1 = Some m' /\
    tui.thinking m' = false /\
    tui.messages m' = tui.messages m ++ turns ++ [tui.textMessage "assistant" final] /\
    ToolTurns turns /\
    ai.calls run.2 = ai.calls r ++ evs /\
    gatewayCalls evs <= tui.maxIterations.
Proof.
  cbn zeta. rewrite settle_S, runCmd_sendFinalMessage. cbn [fst snd].
  unfold tui.sendFinalMessage.
  destruct (finalLoop_spec m (WithTimeout Background 60)
              (tools.GetAvailableTools (tui.executor m)) tui.maxIterations
              (tui.messages m) r)
    as (rm & turns & evs & Hres & Hrm & Hturns & Hlog & Hbound & Hdone).
  rewrite Hres.
  destruct (Update_response m rm) as (m' & HU & Hth & Hmsgs).
  rewrite HU, settle_None. cbn [fst snd].
  destruct (tui.responseMsg.err rm) as [err|] eqn:Eerr.
  - exists m', [], ("Error: " +:+ Error err), evs.
    split_and!; auto using ToolTurns_nil.
  - exists m', turns, (tui.responseMsg.content rm), evs.
    split_and!; auto. rewrite Hmsgs, Hrm.
    destruct (tui.messages m ++ turns) as [|x l] eqn:El; cbn [length Nat.ltb Nat.leb].
    + apply app_eq_nil in El as [-> ->]. reflexivity.
    + rewrite <- El, <- app_assoc. reflexivity.
Qed.

(** One exchange always ends.  Either nothing was submitted, or the
    transcript has grown by the user turn, tool calls with their results,
    and one closing assistant turn; the gateway was called at most once
    more than [maxIterations]. *)
Lemma exchange_spec m (r : ai.Run) :
  let run := tui.exchange 2 m r in
  exists m' evs,
    run.1 = Some m' /\
    ai.calls run.2 = ai.calls r ++ evs /\
    gatewayCalls evs <= S tui.maxIterations /\
    ((tui.messages m' = tui.messages m /\ evs = []) \/
     exists userInput turns final,
       userInput <> EmptyString /\
       tui.thinking m = false /\
       tui.thinking m' = false /\
       tui.messages m' =
         tui.messages m ++ tui.textMessage "user" userInput
           :: turns ++ [tui.textMessage "assistant" final] /\
       ToolTurns turns).
Proof.
  cbn zeta. unfold tui.exchange. rewrite Update_enter. cbn zeta.
  set (ta := (tui.textarea_Update _ _).1). set (vp := (tui.viewport_Update _ _).1).
  destruct (tui.thinking m) eqn:Eth.
  { rewrite settle_None. eexists _, []. cbn. rewrite app_nil_r. split_and!; auto. lia. }
  case_bool_decide as Hin.
  { rewrite settle_None. eexists _, []. cbn. rewrite app_nil_r. split_and!; auto. lia. }
  set (userInput := TrimSpace (tui.textarea_Value ta)) in *.
  set (m1 := tui.showMessages _).
  assert (Hm1 : tui.messages m1 = tui.messages m ++ [tui.textMessage "user" userInput])
    by reflexivity.
  rewrite settle_S, runCmd_sendMessage. cbn [fst snd].
  rewrite sendMessage_eq.
  pose proof (SendMessageWithTools_calls (tui.client m1) Background (tui.messages m1)
                (tools.GetAvailableTools (tui.executor m1)) r) as Hgw.
  destruct (ai.SendMessageWithTools _ _ _ _ _) as [[response|err] r1];
    cbn [snd] in Hgw.
  - destruct (ai.Response.ToolCalls response) as [|tc tcs] eqn:Etcs.
    + cbn [fst snd].
      destruct (Update_response m1
                  (tui.responseMsg.mk (ai.Response.Content response) (tui.messages m1) None))
        as (m' & HU & Hth' & Hmsgs).
      rewrite HU, settle_None. cbn [fst snd].
      exists m', [ai.GatewayCall (tui.messages m1)].
      split_and!; [reflexivity | exact Hgw | cbn; lia |].
      right. exists userInput, [], (ai.Response.Content response).
      split_and!; auto using ToolTurns_nil.
      rewrite Hmsgs. cbn [tui.responseMsg.err tui.responseMsg.messages tui.responseMsg.content].
      rewrite Hm1, length_app. cbn [length].
      replace (0 <? length (tui.messages m) + 1) with true
        by (symmetry; apply Nat.ltb_lt; lia).
      now rewrite <- app_assoc.
    + cbn zeta. cbn [fst snd].
      destruct (executeToolCalls_spec (tui.executor m1) Background (tc :: tcs)
                  (tui.messages m1) r1) as (results & _ & Hmsgs & Hcalls).
      destruct (tui.executeToolCalls _ _ _ _ _) as [msgs2 r2]. cbn [fst snd] in *.
      destruct (Update_toolExecuted m1 (tui.toolExecutedMsg.mk msgs2))
        as (m2 & HU & Hm2 & _ & _ & _).
      rewrite HU. cbn [fst snd].
      destruct (settle_final 0 m2 r2)
        as (m' & turns & final & evs & Hres & Hth' & Hm' & Hturns & Hlog & Hbound).
      cbn zeta in Hres, Hlog.
      exists m', (ai.GatewayCall (tui.messages m1)
                    :: map ai.ToolExecution (tc :: tcs) ++ evs).
      split_and!; [exact Hres | | |].
      * rewrite Hlog, Hcalls, Hgw, <- !app_assoc. reflexivity.
      * change (ai.GatewayCall (tui.messages m1) :: map ai.ToolExecution (tc :: tcs) ++ evs)
          with ([ai.GatewayCall (tui.messages m1)]
                  ++ map ai.ToolExecution (tc :: tcs) ++ evs).
        rewrite !gatewayCalls_app, gatewayCalls_executions. cbn. lia.
      * right. exists userInput, (toolTurns (tc :: tcs) results ++ turns), final.
        split_and!; auto.
        -- rewrite Hm', Hm2. cbn [tui.toolExecutedMsg.messages].
           rewrite Hmsgs, Hm1, <- !app_assoc. reflexivity.
        -- apply ToolTurns_app; [apply toolTurns_ToolTurns | exact Hturns].
  - cbn [fst snd].
    destruct (Update_response m1 (tui.responseMsg.mk EmptyString [] (Some err)))
      as (m' & HU & Hth' & Hmsgs).
    rewrite HU, settle_None. cbn [fst snd].
    exists m', [ai.GatewayCall (tui.messages m1)].
    split_and!; [reflexivity | exact Hgw | cbn; lia |].
    right. exists userInput, [], ("Error: " +:+ Error err).
    split_and!; auto using ToolTurns_nil.
    rewrite Hmsgs. cbn [tui.responseMsg.err]. rewrite Hm1, <- app_assoc. reflexivity.
Qed.

(** ** Occurrences of a marker at the end of a text *)

Lemma prefix_cons (a b : ascii) (m s : string) :
  String.prefix (String a m) (String b s)
  = bool_decide (a = b) && String.prefix m s.
Proof.
  cbn [String.prefix]. destruct (ascii_dec a b) as [->|Hne].
  - now rewrite bool_decide_eq_true_2.
  - now rewrite bool_decide_eq_false_2.
Qed.

Lemma prefix_nil (s : string) : String.prefix EmptyString s = true.
Proof. now destruct s. Qed.

Lemma prefix_app (m s t : string) :
  String.prefix m s = true -> String.prefix m (s +:+ t) = true.
Proof.
  revert s. induction m as [|a m IH]; intros s Hp; [apply prefix_nil|].
  destruct s as [|b s]; [discriminate Hp|].
  rewrite append_cons, prefix_cons in *.
  apply andb_true_iff in Hp as [Hab Hp]. now rewrite Hab, IH.
Qed.

Lemma prefix_short (m s : string) : len s < len m -> String.prefix m s = false.
Proof.
  unfold len. revert s. induction m as [|a m IH]; intros [|b s] Hlen;
    cbn [String.length] in Hlen; try lia; try reflexivity.
  rewrite prefix_cons, IH by lia. apply andb_false_r.
Qed.

Lemma occurrences_short (m s : string) : len s < len m -> occurrences m s = 0.
Proof.
  unfold len. induction s as [|b s IH]; intros Hlen; cbn [occurrences].
  - now rewrite prefix_short.
  - cbn [String.length] in Hlen. rewrite prefix_short, IH; [reflexivity | lia |].
    unfold len. cbn [String.length]. lia.
Qed.

(** When the first byte of a marker occurs nowhere else in it, a copy of
    the marker cannot begin in the text before a final copy and run into
    that copy. *)
Lemma prefix_before_marker (c : ascii) (rest t q : string) :
  (forall i, String.get i rest <> Some c) ->
  String.prefix rest (q +:+ String c t) = true ->
  String.prefix rest q = true.
Proof.
  revert q. induction rest as [|b rest IH]; intros q Hc Hp; [apply prefix_nil|].
  assert (Hb : b <> c).
  { intros ->. now apply (Hc 0). }
  assert (Hrest : forall i, String.get i rest <> Some c).
  { intros i. apply (Hc (S i)). }
  destruct q as [|a q].
  - rewrite append_nil_l, prefix_cons in Hp.
    apply andb_true_iff in Hp as [Hbc _].
    apply bool_decide_eq_true_1 in Hbc. contradiction.
  - rewrite append_cons, prefix_cons in *.
    apply andb_true_iff in Hp as [Hba Hp]. rewrite Hba. cbn [andb].
    now apply IH.
Qed.

Lemma occurrences_app_marker (c : ascii) (rest p : string) :
  (forall i, String.get i rest <> Some c) ->
  occurrences (String c rest) (p +:+ String c rest)
  = S (occurrences (String c rest) p).
Proof.
  intros Hc. induction p as [|a p IH].
  - rewrite append_nil_l. cbn [occurrences].
    rewrite prefix_cons, bool_decide_eq_true_2 by reflexivity. cbn [andb].
    assert (Hrefl : String.prefix rest rest = true).
    { clear. induction rest as [|b rest IH]; [reflexivity|].
      now rewrite prefix_cons, bool_decide_eq_true_2, IH. }
    rewrite Hrefl, occurrences_short; [reflexivity|].
    unfold len. cbn [String.length]. lia.
  - rewrite append_cons. cbn [occurrences]. rewrite IH.
    rewrite <- append_cons.
    assert (Hp : String.prefix (String c rest) (String a p +:+ String c rest)
                 = String.prefix (String c rest) (String a p)).
    { destruct (String.prefix (String c rest) (String a p)) eqn:E.
      - now apply prefix_app.
      - rewrite append_cons, prefix_cons in *.
        destruct (bool_decide (c = a)); [cbn [andb] in * | reflexivity].
        destruct (String.prefix rest (p +:+ String c rest)) eqn:E'; [|reflexivity].
        apply (prefix_before_marker c rest rest p) in E'; [congruence | exact Hc]. }
    rewrite Hp. lia.
Qed.

(** ** The cap on tool results *)

Lemma truncationMarker_eq :
  tui.truncationMarker = String "010"%char "... [output truncated, too long]".
Proof. reflexivity. Qed.

Lemma truncationMarker_head_unique (i : nat) :
  String.get i "... [output truncated, too long]" <> Some "010"%char.
Proof.
  do 32 (destruct i as [|i]; [discriminate|]). discriminate.
Qed.

Lemma truncate_long (result : string) :
  tui.maxResultLen < len result ->
  tui.truncate result = slice_to result tui.maxResultLen +:+ tui.truncationMarker.
Proof.
  intros Hlen. unfold tui.truncate.
  now replace (tui.maxResultLen <? len result) with true
    by (symmetry; apply Nat.ltb_lt; exact Hlen).
Qed.

Lemma truncate_short (result : string) :
  len result <= tui.maxResultLen -> tui.truncate result = result.
Proof.
  intros Hlen. unfold tui.truncate.
  now replace (tui.maxResultLen <? len result) with false
    by (symmetry; apply Nat.ltb_ge; exact Hlen).
Qed.

(** C2, as the code has it.  A tool result longer than 5000 bytes is stored
    as its first 5000 bytes followed by the marker [LF ++ "... [output
    truncated, too long]"] (33 bytes, not the marker of the specification):
    the stored length is exactly 5000 plus the length of the marker, and the
    marker occurs once more than in the 5000 bytes kept, hence exactly once
    when those do not contain it.  A result of at most 5000 bytes is stored
    unchanged.  What is cut is the text of the tool turn: the output of the
    tool, or the error rendered as text. *)
Theorem C2_truncation_marker (result : string) :
  (tui.maxResultLen < len result ->
     tui.truncate result = slice_to result tui.maxResultLen +:+ tui.truncationMarker /\
     len (tui.truncate result) = tui.maxResultLen + len tui.truncationMarker /\
     occurrences tui.truncationMarker (tui.truncate result)
     = S (occurrences tui.truncationMarker (slice_to result tui.maxResultLen)) /\
     (occurrences tui.truncationMarker (slice_to result tui.maxResultLen) = 0 ->
      occurrences tui.truncationMarker (tui.truncate result) = 1)) /\
  (len result <= tui.maxResultLen -> tui.truncate result = result) /\
  (forall toolCall,
     ai.Message.Content (tui.toolResultMessage toolCall (tui.resultText (result, None)))
     = tui.truncate result) /\
  (forall toolCall output err,
     Error err = result ->
     ai.Message.Content
       (tui.toolResultMessage toolCall (tui.resultText (output, Some err)))
     = tui.truncate ("Error: " +:+ result)) /\
  tui.maxResultLen = 5000 /\ len tui.truncationMarker = 33.
Proof.
  split_and!; try reflexivity.
  - intros Hlen. rewrite (truncate_long _ Hlen).
    assert (Hocc : occurrences tui.truncationMarker
                     (slice_to result tui.maxResultLen +:+ tui.truncationMarker)
                   = S (occurrences tui.truncationMarker
                          (slice_to result tui.maxResultLen))).
    { rewrite truncationMarker_eq.
      apply occurrences_app_marker, truncationMarker_head_unique. }
    split_and!; [reflexivity | | exact Hocc | intros H0'; now rewrite Hocc, H0'].
    rewrite len_app, len_slice_to by lia. reflexivity.
  - apply truncate_short.
  - intros toolCall output err <-. reflexivity.
Qed.

(** ** Tool results answer tool calls *)

Lemma sendMessage_carried m (r : ai.Run) :
  (exists results toolCalls,
     carried (tui.sendMessage m r).1 = tui.messages m ++ toolTurns toolCalls results)
  \/ carried (tui.sendMessage m r).1 = [].
Proof.
  rewrite sendMessage_eq.
  destruct (ai.SendMessageWithTools _ _ _ _ _) as [[response|err] r1];
    [|right; reflexivity].
  destruct (ai.Response.ToolCalls response) as [|tc tcs] eqn:Etcs.
  - left. exists [], []. cbn. now rewrite app_nil_r.
  - left. cbn zeta. cbn [fst carried tui.toolExecutedMsg.messages].
    destruct (executeToolCalls_spec (tui.executor m) Background (tc :: tcs)
                (tui.messages m) r1) as (results & _ & Hmsgs & _).
    now exists results, (tc :: tcs).
Qed.

Lemma Update_idle m msg :
  idle msg -> tui.messages (tui.Update m msg).1 = tui.messages m.
Proof.
  intros Hidle. unfold tui.Update.
  destruct (tui.textarea_Update _ _) as [ta tiCmd].
  destruct (tui.viewport_Update _ _) as [vp vpCmd].
  destruct msg as [Width Height|type runes|msg|msg|msg|tag]; try contradiction.
  - cbn [fst]. now destruct (tui.ready _).
  - destruct type; try reflexivity. now destruct Hidle.
  - reflexivity.
Qed.

Lemma exchange_answered m (r : ai.Run) :
  answered (tui.messages m) ->
  exists m', (tui.exchange 2 m r).1 = Some m' /\ answered (tui.messages m').
Proof.
  intros Hm.
  destruct (exchange_spec m r) as (m' & evs & Hres & _ & _ & Hshape).
  exists m'. split; [exact Hres|].
  destruct Hshape as [[-> _] | (userInput & turns & final & _ & _ & _ & -> & Hturns)];
    [exact Hm|].
  change (tui.textMessage "user" userInput :: turns ++ [tui.textMessage "assistant" final])
    with ([tui.textMessage "user" userInput] ++ turns ++ [tui.textMessage "assistant" final]).
  rewrite !app_assoc.
  apply answered_app_text; [|discriminate].
  apply answered_app_ToolTurns; [exact Hturns|].
  apply answered_app_text; [exact Hm | discriminate].
Qed.

Lemma Reachable_answered m : Reachable m -> answered (tui.messages m).
Proof.
  induction 1 as [|m msg Hm IH Hidle|m r m' Hm IH Hex].
  - apply answered_nil.
  - now rewrite Update_idle.
  - destruct (exchange_answered m r IH) as (m'' & Hex' & Hans).
    rewrite Hex in Hex'. injection Hex' as <-. exact Hans.
Qed.

(** C3.  In every transcript a session arrives at, through exchanges that
    were completed or failed, every tool result stands directly after the
    tool call it answers and carries the identifier of that call, a call
    appended before it.  An exchange keeps transcripts so, and the same
    holds of the transcript every command of the exchange carries back. The
    turns of one response are appended call by call in the order of the
    response, each call directly followed by its result. *)
Theorem C3_tool_results_answer_calls :
  (forall m, Reachable m -> answered (tui.messages m)) /\
  (forall m (r : ai.Run),
     answered (tui.messages m) ->
     (exists m', (tui.exchange 2 m r).1 = Some m' /\ answered (tui.messages m')) /\
     answered (carried (tui.sendMessage m r).1) /\
     answered (carried (tui.sendFinalMessage m r).1)) /\
  (forall e ctx toolCalls msgs (r0 : ai.Run),
     exists results,
       length results = length toolCalls /\
       (tui.executeToolCalls e ctx toolCalls msgs r0).1
       = msgs ++ toolTurns toolCalls results) /\
  (forall transcript i res,
     answered transcript ->
     transcript !! i = Some res ->
     ai.Message.Role res = "tool" ->
     exists j toolCall,
       S j = i /\
       transcript !! j = Some (tui.toolCallMessage toolCall) /\
       ai.Message.Role (tui.toolCallMessage toolCall) = "assistant" /\
       ai.Message.ToolCallID (tui.toolCallMessage toolCall) = ai.Message.ToolCallID res).
Proof.
  split_and!.
  - exact Reachable_answered.
  - intros m r Hm. split_and!.
    + now apply exchange_answered.
    + destruct (sendMessage_carried m r) as [(results & tcs & ->) | ->].
      * apply answered_app_ToolTurns; [apply toolTurns_ToolTurns | exact Hm].
      * apply answered_nil.
    + unfold tui.sendFinalMessage.
      destruct (finalLoop_spec m (WithTimeout Background 60)
                  (tools.GetAvailableTools (tui.executor m)) tui.maxIterations
                  (tui.messages m) r)
        as (rm & turns & evs & -> & Hrm & Hturns & _).
      cbn [carried]. rewrite Hrm. now apply answered_app_ToolTurns.
  - intros e ctx toolCalls msgs r0.
    destruct (executeToolCalls_spec e ctx toolCalls msgs r0)
      as (results & Hlen & Hmsgs & _).
    now exists results.
  - intros transcript i res Ht Hi Hrole.
    destruct (Ht i res Hi Hrole) as (j & tc & result & -> & Hj & ->).
    exists j, tc. split_and!; [reflexivity | exact Hj | reflexivity..].
Qed.

(** ** The passes of the loop that execute tools *)

(** A pass of the follow-up loop begins with a gateway call on the
    transcript as it stands. *)
Lemma finalLoop_calls_gateway m ctx tools k msgs (r : ai.Run) :
  exists evs,
    ai.calls (tui.finalLoop m ctx tools (S k) msgs r).2
    = ai.calls r ++ ai.GatewayCall msgs :: evs.
Proof.
  rewrite finalLoop_S.
  pose proof (SendMessageWithTools_calls (tui.client m) ctx msgs tools r) as Hgw.
  destruct (ai.SendMessageWithTools _ _ _ _ _) as [[response|err] r1];
    cbn [snd] in Hgw; [|exists []; exact Hgw].
  destruct (ai.Response.ToolCalls response) as [|tc tcs] eqn:Etcs.
  - case_bool_decide; exists []; exact Hgw.
  - destruct (executeToolCalls_spec (tui.executor m) ctx (tc :: tcs) msgs r1)
      as (results & _ & _ & Hcalls).
    destruct (finalLoop_spec m ctx tools k
                (tui.executeToolCalls (tui.executor m) ctx (tc :: tcs) msgs r1).1
                (tui.executeToolCalls (tui.executor m) ctx (tc :: tcs) msgs r1).2)
      as (rm & turns & evs & _ & _ & _ & Hlog & _).
    exists (map ai.ToolExecution (tc :: tcs) ++ evs).
    rewrite Hlog, Hcalls, Hgw, <- !app_assoc. reflexivity.
Qed.

Lemma ToolTurns_no_text turns content :
  ToolTurns turns -> content <> EmptyString ->
  tui.textMessage "assistant" content ∉ turns.
Proof.
  intros Hturns Hcontent. induction Hturns as [|tc result rest Hrest IH].
  - apply not_elem_of_nil.
  - intros Hin. apply elem_of_cons in Hin as [Hin|Hin].
    + injection Hin as Hc _ _ _. now apply Hcontent.
    + apply elem_of_cons in Hin as [Hin|Hin]; [discriminate Hin | contradiction].
Qed.

(** C9.  When a response of the gateway carries tool calls, what the loop
    appends for it are the turns of those calls and of their results and
    nothing else: the content that came with the calls is used nowhere, and
    when it is not empty no assistant turn with that content is among the
    turns appended.  The first command of the exchange hands the extended
    transcript to [Update], which takes it as it is; the follow-up loop goes
    on with it to its next pass. *)
Theorem C9_content_beside_tool_calls_is_dropped
    m ctx tools k msgs (r r1 : ai.Run) response :
  ai.SendMessageWithTools (tui.client m) ctx msgs tools r = (inl response, r1) ->
  ai.Response.ToolCalls response <> [] ->
  let run := tui.executeToolCalls (tui.executor m) ctx
               (ai.Response.ToolCalls response) msgs r1 in
  (exists results,
     length results = length (ai.Response.ToolCalls response) /\
     run.1 = msgs ++ toolTurns (ai.Response.ToolCalls response) results /\
     (ai.Response.Content response <> EmptyString ->
      tui.textMessage "assistant" (ai.Response.Content response)
        ∉ toolTurns (ai.Response.ToolCalls response) results)) /\
  tui.finalLoop m ctx tools (S k) msgs r = tui.finalLoop m ctx tools k run.1 run.2 /\
  (ctx = Background -> msgs = tui.messages m ->
   tools = tools.GetAvailableTools (tui.executor m) ->
   tui.sendMessage m r = (tui.ToolExecutedMsg (tui.toolExecutedMsg.mk run.1), run.2) /\
   tui.messages (tui.Update m (tui.ToolExecutedMsg (tui.toolExecutedMsg.mk run.1))).1
   = run.1).
Proof.
  intros Hgw Htcs run. split_and!.
  - destruct (executeToolCalls_spec (tui.executor m) ctx
                (ai.Response.ToolCalls response) msgs r1)
      as (results & Hlen & Hmsgs & _).
    exists results. split_and!; [exact Hlen | exact Hmsgs |].
    apply ToolTurns_no_text, toolTurns_ToolTurns.
  - rewrite finalLoop_S, Hgw.
    destruct (ai.Response.ToolCalls response) as [|tc tcs] eqn:Etcs;
      [contradiction | reflexivity].
  - intros -> -> ->. split.
    + rewrite sendMessage_eq, Hgw. subst run.
      destruct (ai.Response.ToolCalls response) as [|tc tcs] eqn:Etcs;
        [contradiction | reflexivity].
    + destruct (Update_toolExecuted m (tui.toolExecutedMsg.mk run.1))
        as (m' & -> & Hm' & _). exact Hm'.
Qed.

(** ** Failures of tools *)

Lemma Execute_unregistered e ctx toolCall (r : ai.Run) :
  ai.tools (tools.executor e) !! ai.ToolCall.Name toolCall = None ->
  tools.Execute e ctx toolCall r
  = ((EmptyString,
      Some (errorString ("tool not found: " +:+ ai.ToolCall.Name toolCall))),
     ai.mkRun (ai.world r) (ai.calls r ++ [ai.ToolExecution toolCall])).
Proof.
  intros Hnone.
  unfold tools.Execute, ai.Execute, bind, ai.record, ret.
  cbn beta iota zeta. now rewrite Hnone.
Qed.

Lemma Execute_registered e ctx toolCall (handler : ai.ToolHandler) (r : ai.Run) :
  ai.tools (tools.executor e) !! ai.ToolCall.Name toolCall = Some handler ->
  tools.Execute e ctx toolCall r
  = ((handler ctx (ai.ToolCall.Input toolCall) (ai.world r)).1,
     ai.mkRun (handler ctx (ai.ToolCall.Input toolCall) (ai.world r)).2
       (ai.calls r ++ [ai.ToolExecution toolCall])).
Proof.
  intros Hsome.
  unfold tools.Execute, ai.Execute, bind, ai.record, ret.
  cbn beta iota zeta. rewrite Hsome. unfold ai.outside. cbn [ai.world ai.calls].
  now destruct (handler _ _ _).
Qed.

(** The two command tools have the same body. *)
Lemma ExecuteNvidiaSmi_eq : tools.ExecuteNvidiaSmi = tools.ExecuteBash.
Proof. reflexivity. Qed.

Lemma ExecuteBash_eq ctx input (w : World) :
  tools.ExecuteBash ctx input w
  = match ai.Unmarshal input with
    | (_, Some err) =>
        ((EmptyString, Some (Errorf_w "invalid input: " err EmptyString)), w)
    | (command, None) =>
        let run := CombinedOutput (WithTimeout ctx 30) "bash" ["-c"; command] w in
        match run.1.2 with
        | Some err =>
            ((EmptyString,
              Some (Errorf_w "command failed: " err (LF +:+ "Output: " +:+ run.1.1))),
             run.2)
        | None => ((TrimSpace run.1.1, None), run.2)
        end
    end.
Proof.
  unfold tools.ExecuteBash.
  destruct (ai.Unmarshal input) as [command [err|]]; [reflexivity|].
  unfold bind, ret. cbn zeta.
  destruct (CombinedOutput _ _ _ _) as [[output [err|]] w1]; reflexivity.
Qed.

(** C4, as the code has it.  A tool call that fails never by itself ends
    the loop.  Whatever the cause (a name that no handler is registered
    under, arguments that do not decode, a command that fails) the error
    comes back from [Execute] as a value.  Its text, after [Error: ] and cut
    to the cap like any result, is the content of a turn of role tool that
    carries the identifier of the call and stands directly after the turn of
    the call; the loop over the tool calls goes on with the next call and
    keeps that turn.  What follows the loop over the tool calls does not
    depend on how the tools fared: after the first command the follow-up
    command starts with a gateway call on the extended transcript, and a
    pass of the follow-up loop is followed by the next pass, which begins
    with such a gateway call; only after the last pass, as after any tool
    call there, the loop ends with the error of exhausted iterations and
    without a further gateway call, the failure result carrying the
    transcript with the turn of the failed tool. *)
Theorem C4_tool_failures_become_results e ctx toolCall (r : ai.Run) :
  (ai.tools (tools.executor e) !! ai.ToolCall.Name toolCall = None ->
   (tools.Execute e ctx toolCall r).1
   = (EmptyString,
      Some (errorString ("tool not found: " +:+ ai.ToolCall.Name toolCall)))) /\
  (forall input err (w : World),
     (ai.Unmarshal input).2 = Some err ->
     tools.ExecuteBash ctx input w
     = ((EmptyString, Some (Errorf_w "invalid input: " err EmptyString)), w)) /\
  (forall input command output err (w w1 : World),
     ai.Unmarshal input = (command, None) ->
     CombinedOutput (WithTimeout ctx 30) "bash" ["-c"; command] w
     = ((output, Some err), w1) ->
     tools.ExecuteBash ctx input w
     = ((EmptyString,
         Some (Errorf_w "command failed: " err (LF +:+ "Output: " +:+ output))), w1)) /\
  (forall output err,
     (tools.Execute e ctx toolCall r).1 = (output, Some err) ->
     forall rest msgs,
       let run := tui.executeToolCalls e ctx (toolCall :: rest) msgs r in
       run
       = tui.executeToolCalls e ctx rest
           (msgs ++ [tui.toolCallMessage toolCall;
                     tui.toolResultMessage toolCall
                       (tui.truncate ("Error: " +:+ Error err))])
           (tools.Execute e ctx toolCall r).2 /\
       msgs `prefix_of` run.1 /\
       exists call turn,
         run.1 !! length msgs = Some call /\
         ai.Message.Role call = "assistant" /\
         ai.Message.ToolCallID call = ai.ToolCall.ID toolCall /\
         ai.Message.ToolCallName call = ai.ToolCall.Name toolCall /\
         run.1 !! S (length msgs) = Some turn /\
         ai.Message.Role turn = "tool" /\
         ai.Message.ToolCallID turn = ai.ToolCall.ID toolCall /\
         ai.Message.Content turn = tui.truncate ("Error: " +:+ Error err) /\
         (len ("Error: " +:+ Error err) <= 5000 ->
          ai.Message.Content turn = "Error: " +:+ Error err)) /\
  (forall m tools msgs (r0 : ai.Run) response rest,
     tui.executor m = e ->
     ai.SendMessageWithTools (tui.client m) ctx msgs tools r0 = (inl response, r) ->
     ai.Response.ToolCalls response = toolCall :: rest ->
     let run := tui.executeToolCalls e ctx (toolCall :: rest) msgs r in
     (forall k,
        tui.finalLoop m ctx tools (S k) msgs r0 = tui.finalLoop m ctx tools k run.1 run.2) /\
     (forall k, exists evs,
        ai.calls (tui.finalLoop m ctx tools (S (S k)) msgs r0).2
        = ai.calls run.2 ++ ai.GatewayCall run.1 :: evs) /\
     tui.finalLoop m ctx tools 1 msgs r0
     = (tui.ResponseMsg
          (tui.responseMsg.mk EmptyString run.1 (Some iterationsExhausted)),
        run.2) /\
     (ctx = Background -> msgs = tui.messages m ->
      tools = tools.GetAvailableTools (tui.executor m) ->
      exists m' evs,
        tui.sendMessage m r0 = (tui.ToolExecutedMsg (tui.toolExecutedMsg.mk run.1), run.2) /\
        tui.Update m (tui.ToolExecutedMsg (tui.toolExecutedMsg.mk run.1))
        = (m', Some (tui.sendFinalMessageCmd m')) /\
        ai.calls (tui.sendFinalMessage m' run.2).2
        = ai.calls run.2 ++ ai.GatewayCall run.1 :: evs)).
Proof.
  split_and!.
  - intros Hnone. now rewrite Execute_unregistered.
  - intros input err w Herr. rewrite ExecuteBash_eq.
    destruct (ai.Unmarshal input) as [command saved]. cbn in Herr. now subst saved.
  - intros input command output err w w1 Hin Hrun.
    now rewrite ExecuteBash_eq, Hin, Hrun.
  - intros output err Hfail rest msgs. cbn zeta.
    assert (Hstep : tui.executeToolCalls e ctx (toolCall :: rest) msgs r
                    = tui.executeToolCalls e ctx rest
                        (msgs ++ [tui.toolCallMessage toolCall;
                                  tui.toolResultMessage toolCall
                                    (tui.truncate ("Error: " +:+ Error err))])
                        (tools.Execute e ctx toolCall r).2).
    { rewrite executeToolCalls_cons, Hfail. reflexivity. }
    split; [exact Hstep|]. rewrite Hstep.
    destruct (executeToolCalls_spec e ctx rest
                (msgs ++ [tui.toolCallMessage toolCall;
                          tui.toolResultMessage toolCall
                            (tui.truncate ("Error: " +:+ Error err))])
                (tools.Execute e ctx toolCall r).2)
      as (results & _ & -> & _).
    rewrite <- !app_assoc. split; [now apply prefix_app_r|].
    exists (tui.toolCallMessage toolCall),
      (tui.toolResultMessage toolCall (tui.truncate ("Error: " +:+ Error err))).
    split_and!; try reflexivity.
    + rewrite lookup_app_r by lia. now rewrite Nat.sub_diag.
    + rewrite lookup_app_r by lia.
      now replace (S (length msgs) - length msgs) with 1 by lia.
    + intros Hshort. cbn [tui.toolResultMessage ai.Message.Content].
      now apply truncate_short.
  - intros m tools msgs r0 response rest <- Hgw Htcs run.
    assert (Hstep : forall k', tui.finalLoop m ctx tools (S k') msgs r0
                               = tui.finalLoop m ctx tools k' run.1 run.2).
    { intros k'. rewrite finalLoop_S, Hgw, Htcs. reflexivity. }
    split_and!.
    + apply Hstep.
    + intros k. rewrite Hstep. apply finalLoop_calls_gateway.
    + rewrite Hstep. apply finalLoop_0.
    + intros -> -> ->.
      destruct (Update_toolExecuted m (tui.toolExecutedMsg.mk run.1))
        as (m' & HU & Hm' & _ & _ & _).
      destruct (finalLoop_calls_gateway m' (WithTimeout Background 60)
                  (tools.GetAvailableTools (tui.executor m')) 4 (tui.messages m') run.2)
        as (evs & Hlog).
      exists m', evs. split_and!; [| exact HU |].
      * rewrite sendMessage_eq, Hgw, Htcs. reflexivity.
      * unfold tui.sendFinalMessage. change tui.maxIterations with 5.
        rewrite Hlog, Hm'. reflexivity.
Qed.

(** ** The bound on the passes of the loop *)

Lemma iterationsExhausted_text :
  Error iterationsExhausted
  = "reached maximum iterations (5) - Claude kept calling tools".
Proof. reflexivity. Qed.

(** C1, as the code has it.  The bound of five is a bound on the passes of
    the follow-up loop: the follow-up command calls the gateway at most five
    times, and an exchange, whose first command makes one more call and runs
    the tools of its response, at most six times; so an exchange has at most
    six cycles of a gateway call followed by tool executions.  On every pass
    of the follow-up loop, the last one too, the tools a response asks for
    are executed and their turns appended.  When the response of the last
    pass still asks for tools, the loop then ends, without another gateway
    call, with the error [reached maximum iterations (5) - Claude kept
    calling tools]; the failure result carries the transcript accumulated so
    far, the turns of that last pass included. *)
Theorem C1_iteration_bound m (r : ai.Run) :
  (exists rm evs,
     (tui.sendFinalMessage m r).1 = tui.ResponseMsg rm /\
     ai.calls (tui.sendFinalMessage m r).2 = ai.calls r ++ evs /\
     gatewayCalls evs <= 5 /\ cycles evs <= 5) /\
  (exists m' evs,
     (tui.exchange 2 m r).1 = Some m' /\
     ai.calls (tui.exchange 2 m r).2 = ai.calls r ++ evs /\
     gatewayCalls evs <= 6 /\ cycles evs <= 6) /\
  (forall ctx tools msgs (r0 r1 : ai.Run) response,
     ai.SendMessageWithTools (tui.client m) ctx msgs tools r0 = (inl response, r1) ->
     ai.Response.ToolCalls response <> [] ->
     let run := tui.executeToolCalls (tui.executor m) ctx
                  (ai.Response.ToolCalls response) msgs r1 in
     (forall k,
        tui.finalLoop m ctx tools (S k) msgs r0
        = tui.finalLoop m ctx tools k run.1 run.2) /\
     tui.finalLoop m ctx tools 1 msgs r0
     = (tui.ResponseMsg
          (tui.responseMsg.mk EmptyString run.1 (Some iterationsExhausted)),
        run.2) /\
     (exists results,
        length results = length (ai.Response.ToolCalls response) /\
        run.1 = msgs ++ toolTurns (ai.Response.ToolCalls response) results) /\
     ai.calls run.2
     = ai.calls r0 ++ ai.GatewayCall msgs
         :: map ai.ToolExecution (ai.Response.ToolCalls response)) /\
  Error iterationsExhausted
  = "reached maximum iterations (5) - Claude kept calling tools" /\
  tui.maxIterations = 5.
Proof.
  split_and!; [| | | reflexivity | reflexivity].
  - unfold tui.sendFinalMessage.
    destruct (finalLoop_spec m (WithTimeout Background 60)
                (tools.GetAvailableTools (tui.executor m)) tui.maxIterations
                (tui.messages m) r)
      as (rm & turns & evs & Hres & _ & _ & Hlog & Hbound & _).
    exists rm, evs. change tui.maxIterations with 5 in Hbound.
    pose proof (cycles_le_gatewayCalls evs). split_and!; auto; lia.
  - destruct (exchange_spec m r) as (m' & evs & Hres & Hlog & Hbound & _).
    exists m', evs. change tui.maxIterations with 5 in Hbound.
    pose proof (cycles_le_gatewayCalls evs). split_and!; auto; lia.
  - intros ctx tools msgs r0 r1 response Hgw Htcs run.
    assert (Hstep : forall k, tui.finalLoop m ctx tools (S k) msgs r0
                              = tui.finalLoop m ctx tools k run.1 run.2).
    { intros k. rewrite finalLoop_S, Hgw.
      destruct (ai.Response.ToolCalls response) as [|tc tcs] eqn:Etcs;
        [contradiction | reflexivity]. }
    destruct (executeToolCalls_spec (tui.executor m) ctx
                (ai.Response.ToolCalls response) msgs r1)
      as (results & Hlen & Hmsgs & Hcalls).
    split_and!.
    + exact Hstep.
    + rewrite Hstep, finalLoop_0. reflexivity.
    + now exists results.
    + subst run. rewrite Hcalls.
      pose proof (SendMessageWithTools_calls (tui.client m) ctx msgs tools r0) as Hlog.
      rewrite Hgw in Hlog. cbn [snd] in Hlog. rewrite Hlog, <- app_assoc. reflexivity.
Qed.

(** ** Errors of the gateway *)

(** C6, as the code has it.  When the gateway call of the first command
    fails, the command returns that error as it is and carries no
    transcript.  When the gateway call of a pass of the follow-up loop
    fails, the loop ends at once with the error wrapped as [final response
    error: ...] (the text of the transport error after that prefix, the
    transport error itself reachable by unwrapping) and the failure result
    carries the transcript exactly as it was handed to the failing call; in
    every case the transcript the follow-up command carries back begins with
    the transcript the command started from. *)
Theorem C6_gateway_errors m (r r1 : ai.Run) err :
  (ai.SendMessageWithTools (tui.client m) Background (tui.messages m)
     (tools.GetAvailableTools (tui.executor m)) r = (inr err, r1) ->
   tui.sendMessage m r
   = (tui.ResponseMsg (tui.responseMsg.mk EmptyString [] (Some err)), r1)) /\
  (forall ctx tools k msgs,
     ai.SendMessageWithTools (tui.client m) ctx msgs tools r = (inr err, r1) ->
     tui.finalLoop m ctx tools (S k) msgs r
     = (tui.ResponseMsg
          (tui.responseMsg.mk EmptyString msgs
             (Some (wrapError ("final response error: " +:+ Error err) err))),
        r1)) /\
  Unwrap (wrapError ("final response error: " +:+ Error err) err) = Some err /\
  (exists rm turns,
     (tui.sendFinalMessage m r).1 = tui.ResponseMsg rm /\
     tui.responseMsg.messages rm = tui.messages m ++ turns /\
     ToolTurns turns).
Proof.
  split_and!; [| | reflexivity |].
  - intros Hgw. now rewrite sendMessage_eq, Hgw.
  - intros ctx tools k msgs Hgw. rewrite finalLoop_S, Hgw.
    unfold Errorf_w. now rewrite append_nil_r.
  - unfold tui.sendFinalMessage.
    destruct (finalLoop_spec m (WithTimeout Background 60)
                (tools.GetAvailableTools (tui.executor m)) tui.maxIterations
                (tui.messages m) r)
      as (rm & turns & evs & Hres & Hrm & Hturns & _).
    now exists rm, turns.
Qed.

(** ** The registry of tools *)

(** C7, as the code has it.  Registration cannot fail: [RegisterTool]
    returns no error and writes the handler into the map.  A second
    registration under a name replaces the handler registered first (the
    last registration wins) and leaves every other name alone.  [tools.New]
    relies on it: it registers its own bash handler over the built-in one of
    package ai. *)
Theorem C7_registration_replaces te name (first second : ai.ToolHandler) :
  ai.tools (ai.RegisterTool (ai.RegisterTool te name first) name second) !! name
  = Some second /\
  ai.RegisterTool (ai.RegisterTool te name first) name second
  = ai.RegisterTool te name second /\
  (forall other,
     other <> name ->
     ai.tools (ai.RegisterTool te name second) !! other = ai.tools te !! other) /\
  ai.tools ai.NewToolExecutor !! "bash" = Some ai.executeBash /\
  ai.tools (tools.executor tools.New) !! "bash" = Some tools.ExecuteBash.
Proof.
  unfold ai.RegisterTool, ai.ToolHandler in *. cbn [ai.tools].
  split_and!.
  - apply lookup_insert_eq.
  - now rewrite insert_insert_eq.
  - intros other Hne. now apply lookup_insert_ne.
  - unfold ai.NewToolExecutor, ai.RegisterTool. cbn [ai.tools].
    rewrite lookup_insert_ne by discriminate. apply lookup_insert_eq.
  - unfold tools.New, ai.NewToolExecutor, ai.RegisterTool.
    cbn [ai.tools tools.executor].
    rewrite lookup_insert_ne by discriminate. apply lookup_insert_eq.
Qed.

(** ** The arguments of the command tools *)

Lemma member_unknown p key v :
  json.matches "command" key = false -> json.member p (key, v) = p.
Proof. intros Hk. unfold json.member. now rewrite Hk. Qed.

Lemma fold_member_unknown members : forall p,
  Forall (fun kv => json.matches "command" kv.1 = false) members ->
  fold_left json.member members p = p.
Proof.
  induction members as [|[key v] members IH]; intros p Hall; [reflexivity|].
  apply Forall_cons in Hall as [Hk Hall]. cbn [fold_left].
  rewrite member_unknown by exact Hk. now apply IH.
Qed.

Lemma member_saved p kv :
  json.saved (json.member p kv)
  = match json.saved p with
    | Some e => Some e
    | None => if mistyped kv then Some (json.typeError kv.2) else None
    end.
Proof.
  destruct kv as [key v]. unfold json.member, mistyped, json.saveError. cbn [fst snd].
  destruct (json.matches "command" key); cbn [andb];
    [|now destruct (json.saved p)].
  destruct v; cbn [json.saved]; destruct (json.saved p) eqn:E;
    cbn [json.saved]; try rewrite E; reflexivity.
Qed.

Lemma fold_member_saved members : forall p,
  is_Some (json.saved (fold_left json.member members p))
  <-> is_Some (json.saved p) \/ existsb mistyped members = true.
Proof.
  induction members as [|kv members IH]; intros p; cbn [fold_left existsb].
  - split; [now left | now intros [Hp|Hf]].
  - rewrite IH, member_saved.
    destruct (json.saved p) as [e|]; [split; intros _; left; eauto|].
    destruct (mistyped kv); cbn [orb].
    + split; intros _; [now right | left; eauto].
    + split; (intros [[e He]|Hm]; [discriminate He | now right]).
Qed.

(** C8, as the code has it.  The command tools reject a payload with an
    [invalid input] error, which becomes the text of the tool turn, exactly
    when [json.Unmarshal] into the one-field struct fails: when the payload
    is not well-formed JSON, when its value is neither an object nor null,
    or when a member that selects the field [command] holds a value that is
    neither a string nor null.  Keys that select no field are ignored.  A
    payload that omits [command] is accepted: nothing checks the required
    parameters, the field stays empty and the empty command is run. *)
Theorem C8_arguments_of_command_tools ctx input (w : World) :
  (forall err,
     (ai.Unmarshal input).2 = Some err ->
     tools.ExecuteBash ctx input w
     = ((EmptyString, Some (Errorf_w "invalid input: " err EmptyString)), w) /\
     tui.resultText (tools.ExecuteBash ctx input w).1
     = tui.truncate ("Error: invalid input: " +:+ Error err)) /\
  ((ai.Unmarshal input).2 = None ->
   tools.ExecuteBash ctx input w
   = match CombinedOutput (WithTimeout ctx 30) "bash"
             ["-c"; (ai.Unmarshal input).1] w with
     | ((output, Some err), w1) =>
         ((EmptyString,
           Some (Errorf_w "command failed: " err (LF +:+ "Output: " +:+ output))), w1)
     | ((output, None), w1) => ((TrimSpace output, None), w1)
     end) /\
  (is_Some (ai.Unmarshal input).2 <->
   (exists err, scan input = inr err) \/
   (exists members,
      scan input = inl (json.Object members) /\ existsb mistyped members = true) \/
   (exists v,
      scan input = inl v /\ v <> json.Null /\ forall members, v <> json.Object members)) /\
  (forall members,
     scan input = inl (json.Object members) ->
     Forall (fun kv => json.matches "command" kv.1 = false) members ->
     ai.Unmarshal input = (EmptyString, None) /\
     tools.ExecuteBash ctx input w
     = match CombinedOutput (WithTimeout ctx 30) "bash" ["-c"; EmptyString] w with
       | ((output, Some err), w1) =>
           ((EmptyString,
             Some (Errorf_w "command failed: " err (LF +:+ "Output: " +:+ output))), w1)
       | ((output, None), w1) => ((TrimSpace output, None), w1)
       end) /\
  (forall before after key v,
     json.matches "command" key = false ->
     json.decode (json.Object (before ++ (key, v) :: after))
     = json.decode (json.Object (before ++ after))) /\
  tools.ExecuteNvidiaSmi = tools.ExecuteBash.
Proof.
  split_and!; [| | | | | reflexivity].
  - intros err Herr. rewrite ExecuteBash_eq.
    destruct (ai.Unmarshal input) as [command saved]. cbn in Herr. subst saved.
    split; [reflexivity|]. cbn [fst tui.resultText].
    unfold Errorf_w. cbn [Error]. now rewrite append_nil_r.
  - intros Hok. rewrite ExecuteBash_eq.
    destruct (ai.Unmarshal input) as [command saved]. cbn [fst snd] in *. subst saved.
    cbn zeta. now destruct (CombinedOutput _ _ _ _) as [[output [err|]] w1].
  - unfold ai.Unmarshal. destruct (scan input) as [v|e].
    + cbn [snd]. destruct v as [|b|lit|s|elements|members];
        cbn [json.decode json.saved].
      * split; [intros [e He]; discriminate He|].
        intros [[e He]|[(ms & Hms & _)|(v & Hv & Hnull & _)]];
          [discriminate He | discriminate Hms | congruence].
      * split; [intros _; right; right; eexists; split_and!; [reflexivity | discriminate | discriminate] | eauto].
      * split; [intros _; right; right; eexists; split_and!; [reflexivity | discriminate | discriminate] | eauto].
      * split; [intros _; right; right; eexists; split_and!; [reflexivity | discriminate | discriminate] | eauto].
      * split; [intros _; right; right; eexists; split_and!; [reflexivity | discriminate | discriminate] | eauto].
      * rewrite fold_member_saved. cbn [json.saved]. split.
        -- intros [[e He]|Hm]; [discriminate He|]. right. left. now exists members.
        -- intros [[e He]|[(ms & Hms & Hm)|(v & Hv & _ & Hobj)]].
           ++ discriminate He.
           ++ injection Hms as <-. now right.
           ++ injection Hv as <-. now destruct (Hobj members).
    + cbn [snd]. split; [intros _; left; now exists e | eauto].
  - intros members Hscan Hall.
    assert (Hin : ai.Unmarshal input = (EmptyString, None)).
    { unfold ai.Unmarshal. rewrite Hscan. cbn [json.decode].
      now rewrite fold_member_unknown. }
    split; [exact Hin|]. rewrite ExecuteBash_eq, Hin. cbn zeta.
    now destruct (CombinedOutput _ _ _ _) as [[output [err|]] w1].
  - intros before after key v Hk. cbn [json.decode].
    rewrite !fold_left_app. cbn [fold_left]. now rewrite member_unknown.
Qed.

(** ** Enter on a blank input *)

(** C10, as the code has it.  [Update] first lets the text area and the
    viewport process every message, Enter included, and reads the input
    after that. When the trimmed value it reads is empty, Enter changes
    nothing but those two widgets: the transcript, the thinking flag and
    every other field stay as they were and no command is returned, so the
    exchange ends there, with no gateway call and the world untouched.  The
    transcript changes on Enter only when no exchange is in flight and the
    trimmed value is not empty, and then by exactly one user turn that holds
    the trimmed value. *)
Theorem C10_blank_input_is_not_submitted m runes :
  let msg := tui.KeyMsg tui.KeyEnter runes in
  let ta := (tui.textarea_Update (tui.input m) msg).1 in
  let vp := (tui.viewport_Update (tui.viewport_ m) msg).1 in
  (TrimSpace (tui.textarea_Value ta) = EmptyString ->
   tui.Update m msg = (tui.set_widgets m ta vp, None) /\
   tui.messages (tui.Update m msg).1 = tui.messages m /\
   tui.thinking (tui.Update m msg).1 = tui.thinking m /\
   tui.client (tui.Update m msg).1 = tui.client m /\
   tui.executor (tui.Update m msg).1 = tui.executor m /\
   tui.width (tui.Update m msg).1 = tui.width m /\
   tui.height (tui.Update m msg).1 = tui.height m /\
   tui.ready (tui.Update m msg).1 = tui.ready m /\
   (runes = EmptyString ->
    forall fuel (r : ai.Run),
      tui.exchange fuel m r = (Some (tui.set_widgets m ta vp), r))) /\
  (tui.messages (tui.Update m msg).1 <> tui.messages m ->
   TrimSpace (tui.textarea_Value ta) <> EmptyString /\
   tui.thinking m = false /\
   tui.messages (tui.Update m msg).1
   = tui.messages m ++ [tui.textMessage "user" (TrimSpace (tui.textarea_Value ta))] /\
   (tui.Update m msg).2 = Some (tui.sendMessageCmd (tui.Update m msg).1)).
Proof.
  cbn zeta. split.
  - intros Hblank.
    assert (HU : tui.Update m (tui.KeyMsg tui.KeyEnter runes)
                 = (tui.set_widgets m
                      (tui.textarea_Update (tui.input m) (tui.KeyMsg tui.KeyEnter runes)).1
                      (tui.viewport_Update (tui.viewport_ m) (tui.KeyMsg tui.KeyEnter runes)).1,
                    None)).
    { rewrite Update_enter. cbn zeta. rewrite Hblank.
      rewrite bool_decide_eq_true_2 by reflexivity. now destruct (tui.thinking m). }
    rewrite HU. split_and!; try reflexivity.
    intros -> fuel r. unfold tui.exchange. rewrite HU. apply settle_None.
  - rewrite Update_enter. cbn zeta.
    destruct (tui.thinking m); [intros Hne; now destruct Hne|].
    case_bool_decide as Hblank; [intros Hne; now destruct Hne|].
    intros _. split_and!; [exact Hblank | reflexivity..].
Qed.

(** ** Empty responses *)

(** The follow-up loop refuses an empty response. *)
Lemma finalLoop_empty_response m ctx tools k msgs (r r1 : ai.Run) :
  ai.SendMessageWithTools (tui.client m) ctx msgs tools r
  = (inl (ai.Response.mk EmptyString []), r1) ->
  tui.finalLoop m ctx tools (S k) msgs r
  = (tui.ResponseMsg (tui.responseMsg.mk EmptyString msgs (Some emptyResponse)), r1).
Proof.
  intros Hgw. rewrite finalLoop_S, Hgw. cbn [ai.Response.ToolCalls ai.Response.Content].
  now rewrite bool_decide_eq_false_2 by (intros Hne; now apply Hne).
Qed.

(** The first command does not: it reports success with an empty text,
    and [Update] appends an assistant turn with that empty text. *)
Lemma sendMessage_empty_response m (r r1 : ai.Run) :
  ai.SendMessageWithTools (tui.client m) Background (tui.messages m)
    (tools.GetAvailableTools (tui.executor m)) r
  = (inl (ai.Response.mk EmptyString []), r1) ->
  tui.sendMessage m r
  = (tui.ResponseMsg (tui.responseMsg.mk EmptyString (tui.messages m) None), r1) /\
  (tui.messages m <> [] ->
   tui.messages
     (tui.Update m (tui.ResponseMsg (tui.responseMsg.mk EmptyString (tui.messages m) None))).1
   = tui.messages m ++ [tui.textMessage "assistant" EmptyString]).
Proof.
  intros Hgw. split; [now rewrite sendMessage_eq, Hgw|].
  intros Hne.
  destruct (Update_response m (tui.responseMsg.mk EmptyString (tui.messages m) None))
    as (m' & HU & _ & Hm').
  rewrite HU. cbn [fst]. rewrite Hm'. cbn.
  destruct (tui.messages m); [contradiction | reflexivity].
Qed.

End Properties.

(** ** Runs in the laboratory *)

Section LabRuns.

#[local] Existing Instance Lab.outside.
#[local] Existing Instance Lab.widgets.

(** The provider answers with a text: one assistant turn is appended. *)
Example scenario_text_only :
  tui.messages <$>
    (tui.exchange 2 (Lab.typed "capital of France?") (Lab.start [Lab.say "Paris"])).1
  = Some [tui.textMessage "user" "capital of France?";
          tui.textMessage "assistant" "Paris"].
Proof. vm_compute. reflexivity. Qed.

(** The provider asks for the time, then answers with a text. *)
Example scenario_one_tool_call :
  let toolCall := ai.ToolCall.mk "t1" "get_time" "{}" in
  tui.messages <$>
    (tui.exchange 2 (Lab.typed "what time is it?")
       (Lab.start [Lab.useTool "t1" "get_time" "{}"; Lab.say "It is noon."])).1
  = Some [tui.textMessage "user" "what time is it?";
          tui.toolCallMessage toolCall;
          tui.toolResultMessage toolCall "Sat Oct 18 14:23:45 PDT 2025";
          tui.textMessage "assistant" "It is noon."].
Proof. vm_compute. reflexivity. Qed.

(** The provider asks for a tool that is not registered: the error is the
    result, and the exchange goes on to the next gateway call. *)
Example scenario_unregistered_tool :
  let toolCall := ai.ToolCall.mk "t1" "bogus_tool" "{}" in
  let run := tui.exchange 2 (Lab.typed "try it")
               (Lab.start [Lab.useTool "t1" "bogus_tool" "{}"; Lab.say "No such tool."]) in
  tui.messages <$> run.1
  = Some [tui.textMessage "user" "try it";
          tui.toolCallMessage toolCall;
          tui.toolResultMessage toolCall "Error: tool not found: bogus_tool";
          tui.textMessage "assistant" "No such tool."] /\
  gatewayCalls (ai.calls run.2) = 2.
Proof. cbn zeta. split; vm_compute; reflexivity. Qed.

(** C2, as the specification states it, refuted on a result of 5001 bytes:
    what is stored is not the first 5000 bytes followed by [...[output
    truncated]], it is longer than 5000 bytes plus that marker, and that
    marker is not in it at all; and on a result that begins with the marker
    of the code, the marker of the code is in the stored text twice. *)
Lemma C2_counterexample :
  let result := Lab.repeatString "a" (S tui.maxResultLen) in
  tui.maxResultLen < len result /\
  tui.truncate result <> slice_to result 5000 +:+ "...[output truncated]" /\
  ~ (len (tui.truncate result) <= 5000 + len "...[output truncated]") /\
  occurrences "...[output truncated]" (tui.truncate result) = 0 /\
  occurrences tui.truncationMarker
    (tui.truncate (tui.truncationMarker +:+ result)) = 2.
Proof.
  cbn zeta. split_and!.
  - apply Nat.ltb_lt. vm_compute. reflexivity.
  - apply String.eqb_neq. vm_compute. reflexivity.
  - apply Nat.leb_nle. vm_compute. reflexivity.
  - vm_compute. reflexivity.
  - vm_compute. reflexivity.
Qed.

Lemma C2_truncation_marker_witness :
  let result := Lab.repeatString "a" (S tui.maxResultLen) in
  tui.maxResultLen < len result /\
  tui.truncate result = slice_to result tui.maxResultLen +:+ tui.truncationMarker /\
  len (tui.truncate result) = tui.maxResultLen + len tui.truncationMarker /\
  occurrences tui.truncationMarker (tui.truncate result) = 1 /\
  tui.truncate "/home/kilo" = "/home/kilo".
Proof.
  cbn zeta.
  assert (Hlong : tui.maxResultLen < len (Lab.repeatString "a" (S tui.maxResultLen))).
  { apply Nat.ltb_lt. vm_compute. reflexivity. }
  destruct (C2_truncation_marker (Lab.repeatString "a" (S tui.maxResultLen)))
    as (Hcut & _).
  destruct (Hcut Hlong) as (Heq & Hlen & _ & Honce).
  destruct (C2_truncation_marker "/home/kilo") as (_ & Hkeep & _).
  split_and!; [exact Hlong | exact Heq | exact Hlen | | ].
  - apply Honce. vm_compute. reflexivity.
  - apply Hkeep. apply Nat.leb_le. vm_compute. reflexivity.
Defined.

(** C1, as the specification states it, refuted on a provider that answers
    every call with a tool request: the exchange runs six cycles, not five;
    the tool of the sixth response, the response after the fifth cycle, is
    executed too; and then the exchange fails without asking the provider
    again (its seventh reply is still unused). *)
Lemma C1_counterexample :
  let run := tui.exchange 2 (Lab.typed "where am I?")
               (Lab.start (replicate 7 (Lab.useBash "toolu_1" "pwd"))) in
  cycles (ai.calls run.2) = 6 /\
  toolExecutions (ai.calls run.2) = 6 /\
  gatewayCalls (ai.calls run.2) = 6 /\
  ~ (cycles (ai.calls run.2) <= 5) /\
  Lab.replies (ai.world run.2) = [Lab.useBash "toolu_1" "pwd"] /\
  (fun m' => last (tui.messages m')) <$> run.1
  = Some (Some (tui.textMessage "assistant"
                  "Error: reached maximum iterations (5) - Claude kept calling tools")).
Proof.
  cbn zeta. split_and!; try (vm_compute; reflexivity).
  apply Nat.leb_nle. vm_compute. reflexivity.
Qed.

Lemma C1_iteration_bound_witness :
  let m := Lab.typed "where am I?" in
  let ctx := WithTimeout Background 60 in
  let tls := tools.GetAvailableTools (tui.executor m) in
  let msgs := [tui.textMessage "user" "where am I?"] in
  let r := Lab.start [Lab.useBash "toolu_1" "pwd"; Lab.say "never asked for"] in
  let toolCall := ai.ToolCall.mk "toolu_1" "bash" (Lab.payload "pwd") in
  let response := ai.Response.mk "Let me check." [toolCall] in
  let r1 := (ai.SendMessageWithTools (tui.client m) ctx msgs tls r).2 in
  let run := tui.executeToolCalls (tui.executor m) ctx [toolCall] msgs r1 in
  ai.SendMessageWithTools (tui.client m) ctx msgs tls r = (inl response, r1) /\
  tui.finalLoop m ctx tls 1 msgs r
  = (tui.ResponseMsg (tui.responseMsg.mk EmptyString run.1 (Some iterationsExhausted)),
     run.2) /\
  run.1 = msgs ++ [tui.toolCallMessage toolCall;
                   tui.toolResultMessage toolCall "/home/kilo"] /\
  Lab.replies (ai.world run.2) = [Lab.say "never asked for"].
Proof.
  cbn zeta.
  set (m := Lab.typed "where am I?").
  set (r := Lab.start _).
  set (toolCall := ai.ToolCall.mk _ _ _).
  set (msgs := [tui.textMessage "user" "where am I?"]).
  assert (Hgw : ai.SendMessageWithTools (tui.client m) (WithTimeout Background 60) msgs
                  (tools.GetAvailableTools (tui.executor m)) r
                = (inl (ai.Response.mk "Let me check." [toolCall]),
                   (ai.SendMessageWithTools (tui.client m) (WithTimeout Background 60) msgs
                      (tools.GetAvailableTools (tui.executor m)) r).2))
    by reflexivity.
  destruct (C1_iteration_bound m r) as (_ & _ & Hlast & _).
  destruct (Hlast _ _ _ _ _ _ Hgw) as (_ & Hend & _); [discriminate|].
  split_and!; [exact Hgw | exact Hend | vm_compute; reflexivity..].
Defined.

Lemma C3_tool_results_answer_calls_witness :
  let m := Lab.typed "where am I?" in
  let r := Lab.start [Lab.useBash "toolu_1" "pwd"; Lab.say "In /home/kilo."] in
  Reachable m /\
  answered (tui.messages m) /\
  (exists m', (tui.exchange 2 m r).1 = Some m' /\ answered (tui.messages m')) /\
  tui.messages <$> (tui.exchange 2 m r).1
  = Some [tui.textMessage "user" "where am I?";
          tui.toolCallMessage (ai.ToolCall.mk "toolu_1" "bash" (Lab.payload "pwd"));
          tui.toolResultMessage (ai.ToolCall.mk "toolu_1" "bash" (Lab.payload "pwd"))
            "/home/kilo";
          tui.textMessage "assistant" "In /home/kilo."].
Proof.
  cbn zeta.
  assert (Hreach : Reachable (Lab.typed "where am I?")).
  { change (Lab.typed "where am I?")
      with (tui.Update tui.New (tui.KeyMsg tui.KeyRunes "where am I?")).1.
    apply Reachable_idle; [apply Reachable_New | discriminate]. }
  destruct C3_tool_results_answer_calls as (Hinv & Hkeep & _).
  split_and!; [exact Hreach | exact (Hinv _ Hreach) | | vm_compute; reflexivity].
  exact (proj1 (Hkeep _ _ (Hinv _ Hreach))).
Defined.

(** C4, as the specification states it, refuted on a provider that asks
    for a tool no handler is registered under in every reply: the failure
    of the sixth call is not followed by a gateway call.  The exchange makes
    six gateway calls and six tool executions, the last entry of its log is
    the execution of the sixth call, the seventh reply of the provider is
    never asked for, and the exchange ends with the error of exhausted
    iterations. *)
Lemma C4_counterexample :
  let bogus := ai.ToolCall.mk "toolu_1" "bogus_tool" "{}" in
  let run := tui.exchange 2 (Lab.typed "try it")
               (Lab.start (replicate 6 (Lab.useTool "toolu_1" "bogus_tool" "{}")
                             ++ [Lab.say "There is no such tool."])) in
  ai.tools (tools.executor tools.New) !! "bogus_tool" = None /\
  gatewayCalls (ai.calls run.2) = 6 /\
  toolExecutions (ai.calls run.2) = 6 /\
  last (ai.calls run.2) = Some (ai.ToolExecution bogus) /\
  Lab.replies (ai.world run.2) = [Lab.say "There is no such tool."] /\
  tui.messages <$> run.1
  = Some [tui.textMessage "user" "try it";
          ai.Message.mk "assistant" EmptyString "toolu_1" "bogus_tool" "{}";
          ai.Message.mk "tool" "Error: tool not found: bogus_tool" "toolu_1"
            EmptyString EmptyString;
          tui.textMessage "assistant"
            "Error: reached maximum iterations (5) - Claude kept calling tools"].
Proof. cbn zeta. split_and!; vm_compute; reflexivity. Qed.

Lemma C4_tool_failures_become_results_witness :
  let e := tools.New in
  let bogus := ai.ToolCall.mk "toolu_1" "bogus_tool" "{}" in
  let failing := ai.ToolCall.mk "toolu_2" "bash" (Lab.payload "false") in
  let r := Lab.start [Lab.say "I could not run the tool."] in
  ai.tools (tools.executor e) !! "bogus_tool" = None /\
  (tools.Execute e Background bogus r).1
  = (EmptyString, Some (errorString "tool not found: bogus_tool")) /\
  (tui.executeToolCalls e Background [bogus; failing] [] r).1
  = [ai.Message.mk "assistant" EmptyString "toolu_1" "bogus_tool" "{}";
     ai.Message.mk "tool" "Error: tool not found: bogus_tool" "toolu_1"
       EmptyString EmptyString;
     ai.Message.mk "assistant" EmptyString "toolu_2" "bash" (Lab.payload "false");
     ai.Message.mk "tool"
       ("Error: command failed: exit status 1" +:+ LF +:+ "Output: ") "toolu_2"
       EmptyString EmptyString] /\
  exists turn,
    (tui.executeToolCalls e Background [bogus; failing] [] r).1 !! 1 = Some turn /\
    ai.Message.Role turn = "tool" /\
    ai.Message.ToolCallID turn = "toolu_1" /\
    ai.Message.Content turn = "Error: tool not found: bogus_tool".
Proof.
  cbn zeta.
  assert (Hnone : ai.tools (tools.executor tools.New) !! "bogus_tool" = None)
    by (vm_compute; reflexivity).
  destruct (C4_tool_failures_become_results tools.New Background
              (ai.ToolCall.mk "toolu_1" "bogus_tool" "{}")
              (Lab.start [Lab.say "I could not run the tool."]))
    as (Hbogus & _ & _ & Hgoes & _).
  destruct (Hgoes _ _ (Hbogus Hnone)
              [ai.ToolCall.mk "toolu_2" "bash" (Lab.payload "false")] [])
    as (Hstep & _ & call & turn & _ & _ & _ & _ & Hturn & Hrole & Hid & _ & Hcontent).
  split_and!; [exact Hnone | exact (Hbogus Hnone) | |].
  - rewrite Hstep. vm_compute. reflexivity.
  - exists turn. split_and!; [exact Hturn | exact Hrole | exact Hid |].
    apply Hcontent. apply Nat.leb_le. vm_compute. reflexivity.
Defined.

(** C5, the code at the failing input.  The first response of an exchange
    has no tool calls and empty content: the first command reports success
    with the empty text, and the exchange ends done with an assistant turn
    whose content is empty appended to the transcript.  On every later
    response of the exchange the same condition ends the exchange with the
    empty-response error. *)
Theorem C5_first_empty_response_is_accepted :
  let m := Lab.typed "hello" in
  let first := tui.exchange 2 m (Lab.start [Lab.say EmptyString]) in
  let later := tui.exchange 2 m (Lab.start [Lab.useBash "toolu_1" "pwd";
                                            Lab.say EmptyString]) in
  tui.messages <$> first.1
  = Some [tui.textMessage "user" "hello"; tui.textMessage "assistant" EmptyString] /\
  tui.thinking <$> first.1 = Some false /\
  (tui.sendMessage (tui.Update m (tui.KeyMsg tui.KeyEnter EmptyString)).1
     (Lab.start [Lab.say EmptyString])).1
  = tui.ResponseMsg
      (tui.responseMsg.mk EmptyString [tui.textMessage "user" "hello"] None) /\
  ai.calls first.2 = [ai.GatewayCall [tui.textMessage "user" "hello"]] /\
  (fun m' => last (tui.messages m')) <$> later.1
  = Some (Some (tui.textMessage "assistant"
                  "Error: empty response from Claude (no error, just empty content)")).
Proof. cbn zeta. split_and!; vm_compute; reflexivity. Qed.

(** C6, as the specification states it, refuted on a follow-up call that the
    transport refuses: the error of the failure result is not the error the
    gateway call returned, it is a new error that wraps it and whose text
    begins with [final response error: ]. *)
Lemma C6_counterexample :
  let m := tui.set_messages (Lab.typed EmptyString)
             [tui.textMessage "user" "where am I?"] in
  let r := Lab.start [Lab.refuse "connection reset by peer"] in
  let transport :=
    wrapError "failed to send message: connection reset by peer"
      (errorString "connection reset by peer") in
  let reported :=
    wrapError "final response error: failed to send message: connection reset by peer"
      transport in
  (ai.SendMessageWithTools (tui.client m) (WithTimeout Background 60) (tui.messages m)
     (tools.GetAvailableTools (tui.executor m)) r).1 = inr transport /\
  (tui.sendFinalMessage m r).1
  = tui.ResponseMsg (tui.responseMsg.mk EmptyString (tui.messages m) (Some reported)) /\
  reported <> transport /\
  Error reported <> Error transport.
Proof.
  cbn zeta. split_and!; [vm_compute; reflexivity | vm_compute; reflexivity | | ];
    discriminate.
Qed.

Lemma C6_gateway_errors_witness :
  let m := tui.set_messages (Lab.typed EmptyString)
             [tui.textMessage "user" "where am I?"] in
  let ctx := WithTimeout Background 60 in
  let tls := tools.GetAvailableTools (tui.executor m) in
  let r := Lab.start [Lab.refuse "connection reset by peer"] in
  let transport :=
    wrapError "failed to send message: connection reset by peer"
      (errorString "connection reset by peer") in
  ai.SendMessageWithTools (tui.client m) Background (tui.messages m) tls r
  = (inr transport, ai.mkRun (Lab.mkWorld []) [ai.GatewayCall (tui.messages m)]) /\
  tui.sendMessage m r
  = (tui.ResponseMsg (tui.responseMsg.mk EmptyString [] (Some transport)),
     ai.mkRun (Lab.mkWorld []) [ai.GatewayCall (tui.messages m)]) /\
  tui.finalLoop m ctx tls 5 (tui.messages m) r
  = (tui.ResponseMsg
       (tui.responseMsg.mk EmptyString (tui.messages m)
          (Some (wrapError ("final response error: " +:+ Error transport) transport))),
     ai.mkRun (Lab.mkWorld []) [ai.GatewayCall (tui.messages m)]).
Proof.
  cbn zeta.
  set (m := tui.set_messages _ _). set (r := Lab.start _). set (transport := wrapError _ _).
  assert (Hfirst :
            ai.SendMessageWithTools (tui.client m) Background (tui.messages m)
              (tools.GetAvailableTools (tui.executor m)) r
            = (inr transport, ai.mkRun (Lab.mkWorld []) [ai.GatewayCall (tui.messages m)]))
    by reflexivity.
  assert (Hlater :
            ai.SendMessageWithTools (tui.client m) (WithTimeout Background 60)
              (tui.messages m) (tools.GetAvailableTools (tui.executor m)) r
            = (inr transport, ai.mkRun (Lab.mkWorld []) [ai.GatewayCall (tui.messages m)]))
    by reflexivity.
  destruct (C6_gateway_errors m r
              (ai.mkRun (H := Lab.outside) (Lab.mkWorld [])
                 [ai.GatewayCall (tui.messages m)]) transport)
    as (Hsend & Hloop & _).
  split_and!; [exact Hfirst | exact (Hsend Hfirst) | exact (Hloop _ _ 4 _ Hlater)].
Defined.

(** C7, as the specification states it, refuted: a second registration under
    the name [echo] is accepted, and afterwards the name runs the second
    handler, not the one registered first. *)
Lemma C7_counterexample :
  let once := ai.RegisterTool (ai.mkToolExecutor ∅) "echo" (Lab.constant "first") in
  let twice := ai.RegisterTool once "echo" (Lab.constant "second") in
  let toolCall := ai.ToolCall.mk "toolu_1" "echo" "{}" in
  (ai.Execute once Background toolCall (Lab.start [])).1 = ("first", None) /\
  (ai.Execute twice Background toolCall (Lab.start [])).1 = ("second", None) /\
  (fun handler => (handler Background "{}" (Lab.mkWorld [])).1)
    <$> (ai.tools twice !! "echo")
  = Some ("second", None).
Proof. cbn zeta. split_and!; vm_compute; reflexivity. Qed.

(** C8, as the specification states it, refuted on two payloads.  The object
    without members omits the required key and yet is accepted by both
    command tools, which run the empty command and return its empty output;
    the object whose [command] is a number is well-formed JSON and has the
    required key and yet is rejected as invalid input. *)
Lemma C8_counterexample :
  let w := Lab.mkWorld [] in
  let number := "{" +:+ dq +:+ "command" +:+ dq +:+ ": 5}" in
  Lab.scan "{}" = inl (json.Object []) /\
  tools.ExecuteBash Background "{}" w = ((EmptyString, None), w) /\
  tools.ExecuteNvidiaSmi Background "{}" w = ((EmptyString, None), w) /\
  Lab.scan number = inl (json.Object [("command", json.Number "5")]) /\
  tools.ExecuteBash Background number w
  = ((EmptyString,
      Some (wrapError
              "invalid input: json: cannot unmarshal number into Go struct field .command of type string"
              (errorString
                 "json: cannot unmarshal number into Go struct field .command of type string"))),
     w).
Proof. cbn zeta. split_and!; vm_compute; reflexivity. Qed.

Lemma C8_arguments_of_command_tools_witness :
  let w := Lab.mkWorld [] in
  let extra := "{" +:+ dq +:+ "cwd" +:+ dq +:+ ": " +:+ dq +:+ "/tmp" +:+ dq +:+ "}" in
  scan extra = inl (json.Object [("cwd", json.Str "/tmp")]) /\
  ai.Unmarshal extra = (EmptyString, None) /\
  tools.ExecuteBash Background extra w = ((EmptyString, None), w) /\
  (ai.Unmarshal "{").2 = Some (errorString "invalid character in JSON input") /\
  tools.ExecuteBash Background "{" w
  = ((EmptyString,
      Some (Errorf_w "invalid input: " (errorString "invalid character in JSON input")
              EmptyString)), w).
Proof.
  cbn zeta.
  set (extra := "{" +:+ _).
  assert (Hscan : scan extra = inl (json.Object [("cwd", json.Str "/tmp")]))
    by (vm_compute; reflexivity).
  assert (Hbad : (ai.Unmarshal "{").2
                 = Some (errorString "invalid character in JSON input"))
    by (vm_compute; reflexivity).
  destruct (C8_arguments_of_command_tools (H := Lab.outside) Background extra
              (Lab.mkWorld []))
    as (_ & _ & _ & Homit & _).
  destruct (Homit _ Hscan) as (Hin & Hrun).
  { repeat constructor. }
  destruct (C8_arguments_of_command_tools (H := Lab.outside) Background "{"
              (Lab.mkWorld []))
    as (Hreject & _).
  split_and!; [exact Hscan | exact Hin | | exact Hbad | exact (proj1 (Hreject _ Hbad))].
  rewrite Hrun. vm_compute. reflexivity.
Defined.

Lemma C9_content_beside_tool_calls_is_dropped_witness :
  let m := tui.set_thinking
             (tui.set_messages (Lab.typed EmptyString)
                [tui.textMessage "user" "where am I?"]) true in
  let tls := tools.GetAvailableTools (tui.executor m) in
  let r := Lab.start [Lab.useBash "toolu_1" "pwd"] in
  let toolCall := ai.ToolCall.mk "toolu_1" "bash" (Lab.payload "pwd") in
  let response := ai.Response.mk "Let me check." [toolCall] in
  let r1 := ai.mkRun (Lab.mkWorld []) [ai.GatewayCall (tui.messages m)] in
  let run := tui.executeToolCalls (tui.executor m) Background [toolCall]
               (tui.messages m) r1 in
  ai.SendMessageWithTools (tui.client m) Background (tui.messages m) tls r
  = (inl response, r1) /\
  tui.sendMessage m r = (tui.ToolExecutedMsg (tui.toolExecutedMsg.mk run.1), run.2) /\
  tui.messages (tui.Update m (tui.ToolExecutedMsg (tui.toolExecutedMsg.mk run.1))).1
  = run.1 /\
  run.1 = [tui.textMessage "user" "where am I?";
           tui.toolCallMessage toolCall;
           tui.toolResultMessage toolCall "/home/kilo"].
Proof.
  cbn zeta.
  set (m := tui.set_thinking _ _). set (r := Lab.start _).
  set (toolCall := ai.ToolCall.mk _ _ _).
  set (r1 := ai.mkRun _ _).
  assert (Hgw : ai.SendMessageWithTools (tui.client m) Background (tui.messages m)
                  (tools.GetAvailableTools (tui.executor m)) r
                = (inl (ai.Response.mk "Let me check." [toolCall]), r1))
    by reflexivity.
  destruct (C9_content_beside_tool_calls_is_dropped m Background
              (tools.GetAvailableTools (tui.executor m)) 0 (tui.messages m) r r1
              (ai.Response.mk "Let me check." [toolCall]) Hgw)
    as (_ & _ & Hfirst); [discriminate|].
  destruct Hfirst as (Hsend & Hupdate); try reflexivity.
  split_and!; [exact Hgw | exact Hsend | exact Hupdate | vm_compute; reflexivity].
Defined.

(** C10, as the specification states it, refuted at start-up: Enter on the
    empty input appends no turn and returns no command, but it does not
    leave the model unchanged, because the text area has taken the key and
    now holds a line break. *)
Lemma C10_counterexample :
  let m := tui.New in
  let after := tui.Update m (tui.KeyMsg tui.KeyEnter EmptyString) in
  TrimSpace (tui.textarea_Value (tui.input m)) = EmptyString /\
  TrimSpace (tui.textarea_Value (tui.input after.1)) = EmptyString /\
  tui.textarea_Value (tui.input m) = EmptyString /\
  tui.textarea_Value (tui.input after.1) = LF /\
  tui.messages after.1 = [] /\
  after.1 <> m.
Proof.
  cbn zeta. split_and!; [vm_compute; reflexivity.. |].
  intros Heq. apply (f_equal (fun m => tui.textarea_Value (tui.input m))) in Heq.
  vm_compute in Heq. discriminate Heq.
Qed.

Lemma C10_blank_input_is_not_submitted_witness :
  let m := Lab.typed ("  " +:+ LF) in
  let msg := tui.KeyMsg tui.KeyEnter EmptyString in
  let r := Lab.start [Lab.say "never asked for"] in
  TrimSpace (tui.textarea_Value (tui.textarea_Update (tui.input m) msg).1) = EmptyString /\
  (tui.Update m msg).2 = None /\
  tui.messages (tui.Update m msg).1 = tui.messages m /\
  (tui.exchange 2 m r).2 = r.
Proof.
  cbn zeta.
  set (m := Lab.typed _). set (r := Lab.start _).
  assert (Hblank :
            TrimSpace (tui.textarea_Value
                         (tui.textarea_Update (tui.input m)
                            (tui.KeyMsg tui.KeyEnter EmptyString)).1) = EmptyString)
    by (vm_compute; reflexivity).
  destruct (C10_blank_input_is_not_submitted m EmptyString) as (Hidle & _).
  destruct (Hidle Hblank) as (HU & Hmsgs & _ & _ & _ & _ & _ & _ & Hex).
  split_and!; [exact Hblank | now rewrite HU | exact Hmsgs |].
  now rewrite (Hex eq_refl 2 r).
Defined.

End LabRuns.

(** ** Further properties: texts and tool turns *)

Section MoreProperties.
Context `{Outside} `{tui.Widgets}.

Lemma slice_to_app (a b : string) (n : nat) :
  len a = n -> slice_to (a +:+ b) n = a.
Proof.
  unfold len, slice_to. revert n.
  induction a as [|c a IH]; intros n Hn; cbn [String.length] in Hn; subst n.
  - rewrite append_nil_l. now destruct b.
  - rewrite append_cons. cbn [String.length String.substring]. now rewrite IH.
Qed.

Lemma len_truncate_le (s : string) :
  len (tui.truncate s) <= tui.maxResultLen + len tui.truncationMarker.
Proof.
  destruct (Nat.lt_ge_cases tui.maxResultLen (len s)) as [Hlong|Hshort].
  - rewrite truncate_long, len_app, len_slice_to by lia. lia.
  - rewrite truncate_short by exact Hshort. lia.
Qed.

(** The cut is idempotent and bounds every text: cutting a text that was
    already cut changes nothing, no cut text is longer than 5000 bytes plus
    the marker, and the first 5000 bytes of a text survive the cut. *)
Theorem truncate_idempotent_bounded (s : string) :
  tui.truncate (tui.truncate s) = tui.truncate s /\
  len (tui.truncate s) <= tui.maxResultLen + len tui.truncationMarker /\
  slice_to (tui.truncate s) tui.maxResultLen = slice_to s tui.maxResultLen.
Proof.
  split_and!; [| apply len_truncate_le |].
  - destruct (Nat.lt_ge_cases tui.maxResultLen (len s)) as [Hlong|Hshort].
    + rewrite (truncate_long s Hlong).
      rewrite truncate_long.
      * rewrite slice_to_app; [reflexivity | apply len_slice_to; lia].
      * rewrite len_app, len_slice_to by lia.
        change (len tui.truncationMarker) with 33. lia.
    + rewrite (truncate_short s Hshort). exact (truncate_short s Hshort).
  - destruct (Nat.lt_ge_cases tui.maxResultLen (len s)) as [Hlong|Hshort].
    + rewrite (truncate_long s Hlong).
      rewrite slice_to_app; [reflexivity | apply len_slice_to; lia].
    + now rewrite (truncate_short s Hshort).
Qed.

Lemma resultText_bounded (outcome : string * option error) :
  len (tui.resultText outcome) <= tui.maxResultLen + len tui.truncationMarker.
Proof. destruct outcome as [result [err|]]; apply len_truncate_le. Qed.

(** The loop over the tool calls of a response composes: running the calls
    of [a ++ b] is running those of [a] and then those of [b] on the
    transcript and the world the first run left.  The tools are executed
    one after the other, each once, in the order of the response. *)
Theorem executeToolCalls_app e ctx a b msgs (r : ai.Run) :
  tui.executeToolCalls e ctx (a ++ b) msgs r
  = tui.executeToolCalls e ctx b
      (tui.executeToolCalls e ctx a msgs r).1
      (tui.executeToolCalls e ctx a msgs r).2 /\
  ai.calls (tui.executeToolCalls e ctx (a ++ b) msgs r).2
  = ai.calls r ++ map ai.ToolExecution a ++ map ai.ToolExecution b /\
  toolExecutions (map ai.ToolExecution a ++ map ai.ToolExecution b)
  = length a + length b /\
  gatewayCalls (map ai.ToolExecution a ++ map ai.ToolExecution b) = 0.
Proof.
  split_and!.
  - revert msgs r. induction a as [|tc a IH]; intros msgs r; [reflexivity|].
    cbn [app]. rewrite !executeToolCalls_cons. apply IH.
  - destruct (executeToolCalls_spec e ctx (a ++ b) msgs r) as (_ & _ & _ & ->).
    now rewrite map_app.
  - now rewrite toolExecutions_app, !toolExecutions_executions.
  - now rewrite gatewayCalls_app, !gatewayCalls_executions.
Qed.

(** ** Further properties: the gateway *)

Lemma append_assoc (s t u : string) : (s +:+ t) +:+ u = s +:+ (t +:+ u).
Proof.
  induction s as [|c s IH]; [reflexivity|]. now rewrite !append_cons, IH.
Qed.

Lemma textOf_acc blocks : forall content,
  ai.textOf blocks content = content +:+ ai.textOf blocks EmptyString.
Proof.
  induction blocks as [|[text|id name input|] blocks IH]; intros content;
    cbn [ai.textOf].
  - now rewrite append_nil_r.
  - rewrite (IH (content +:+ text)), (IH (EmptyString +:+ text)).
    now rewrite append_nil_l, append_assoc.
  - apply IH.
  - apply IH.
Qed.

Lemma extract_spec blocks : forall content calls,
  ai.extract blocks content calls
  = ai.Response.mk (ai.textOf blocks content) (calls ++ toolUses blocks).
Proof.
  induction blocks as [|[text|id name input|] blocks IH]; intros content calls;
    cbn [ai.extract ai.textOf].
  - now rewrite app_nil_r.
  - apply IH.
  - rewrite IH, <- app_assoc. reflexivity.
  - apply IH.
Qed.

(** What is read off a reply of the provider: the content is the text
    blocks joined in order with nothing between them, the same text
    [SendMessage] returns for that reply; the tool calls are the tool-use
    blocks in the order of the reply; blocks of any other kind are
    ignored, and so is the way text and tool uses are interleaved. *)
Theorem reply_text_and_tool_calls (before after : list anthropic.ContentBlock) :
  ai.extract (before ++ after) EmptyString []
  = ai.Response.mk
      (ai.textOf before EmptyString +:+ ai.textOf after EmptyString)
      (toolUses before ++ toolUses after) /\
  ai.extract (before ++ anthropic.OtherBlock :: after) EmptyString []
  = ai.extract (before ++ after) EmptyString [] /\
  (forall text id name input,
     ai.extract (before ++ anthropic.TextBlock text
                   :: anthropic.ToolUseBlock id name input :: after) EmptyString []
     = ai.extract (before ++ anthropic.ToolUseBlock id name input
                     :: anthropic.TextBlock text :: after) EmptyString []) /\
  length (ai.Response.ToolCalls (ai.extract before EmptyString [])) <= length before.
Proof.
  assert (Htext : forall a b, ai.textOf (a ++ b) EmptyString
                              = ai.textOf a EmptyString +:+ ai.textOf b EmptyString).
  { induction a as [|[text|id name input|] a IH]; intros b; cbn [app ai.textOf].
    - reflexivity.
    - rewrite textOf_acc, (textOf_acc a (EmptyString +:+ text)), IH.
      now rewrite !append_assoc.
    - apply IH.
    - apply IH. }
  assert (Huses : forall a b, toolUses (a ++ b) = toolUses a ++ toolUses b).
  { intros a b. unfold toolUses. apply flat_map_app. }
  split_and!.
  - rewrite extract_spec, Htext, Huses. reflexivity.
  - rewrite !extract_spec, !Htext, !Huses. reflexivity.
  - intros text id name input. rewrite !extract_spec, !Htext, !Huses.
    cbn [ai.textOf toolUses flat_map app].
    rewrite !(textOf_acc after (EmptyString +:+ text)). reflexivity.
  - rewrite extract_spec. cbn [ai.Response.ToolCalls app].
    unfold toolUses. clear. induction before as [|b before IH]; [reflexivity|].
    cbn [flat_map]. rewrite length_app. destruct b; cbn [length]; lia.
Qed.

Lemma SendMessageWithTools_eq c ctx msgs tools (r : ai.Run) :
  ai.SendMessageWithTools c ctx msgs tools r
  = (match (MessagesNew ctx (ai.Client.apiKey c) (request c msgs tools) (ai.world r)).1 with
     | inr err => inr (Errorf_w "failed to send message: " err EmptyString)
     | inl response => inl (ai.extract (anthropic.Content response) EmptyString [])
     end,
     ai.mkRun (MessagesNew ctx (ai.Client.apiKey c) (request c msgs tools) (ai.world r)).2
       (ai.calls r ++ [ai.GatewayCall msgs])).
Proof.
  unfold ai.SendMessageWithTools, request, bind, ai.record, ai.outside, ret. cbn.
  destruct (MessagesNew _ _ _ _) as [[reply|err] w]; reflexivity.
Qed.

(** How the turns the loop appends go out to the provider.  The result of
    a tool call is always sent, as a tool result with the identifier of
    the call.  The call itself is sent, as a tool use, only when its
    identifier, its name and its input are all present; when one of them is
    empty the turn of the call is left out of the request, and its result
    goes out with no tool use before it. *)
Theorem tool_turns_on_the_wire toolCall result :
  ai.toParam (tui.toolResultMessage toolCall result)
  = [anthropic.NewUserMessage
       [anthropic.NewToolResultBlock (ai.ToolCall.ID toolCall) result false]] /\
  (ai.ToolCall.ID toolCall <> EmptyString ->
   ai.ToolCall.Name toolCall <> EmptyString ->
   ai.ToolCall.Input toolCall <> EmptyString ->
   ai.toParam (tui.toolCallMessage toolCall)
   = [anthropic.NewAssistantMessage
        [anthropic.NewToolUseBlock (ai.ToolCall.ID toolCall)
           (ai.UnmarshalMap (ai.ToolCall.Input toolCall))
           (ai.ToolCall.Name toolCall)]]) /\
  (ai.ToolCall.ID toolCall = EmptyString \/
   ai.ToolCall.Name toolCall = EmptyString \/
   ai.ToolCall.Input toolCall = EmptyString ->
   ai.toParam (tui.toolCallMessage toolCall) = [] /\
   flat_map ai.toParam (toolTurns [toolCall] [result])
   = [anthropic.NewUserMessage
        [anthropic.NewToolResultBlock (ai.ToolCall.ID toolCall) result false]]).
Proof.
  assert (Hcall : ai.toParam (tui.toolCallMessage toolCall)
                  = if bool_decide (ai.ToolCall.ID toolCall <> EmptyString)
                       && bool_decide (ai.ToolCall.Name toolCall <> EmptyString)
                       && bool_decide (ai.ToolCall.Input toolCall <> EmptyString)
                    then [anthropic.NewAssistantMessage
                            [anthropic.NewToolUseBlock (ai.ToolCall.ID toolCall)
                               (ai.UnmarshalMap (ai.ToolCall.Input toolCall))
                               (ai.ToolCall.Name toolCall)]]
                    else []) by reflexivity.
  split_and!.
  - reflexivity.
  - intros Hid Hname Hinput. rewrite Hcall.
    now rewrite !bool_decide_eq_true_2.
  - intros Hempty.
    assert (Hnone : ai.toParam (tui.toolCallMessage toolCall) = []).
    { rewrite Hcall. destruct Hempty as [He|[He|He]]; rewrite He.
      - now rewrite (bool_decide_eq_false_2 (EmptyString <> EmptyString)) by auto.
      - rewrite (bool_decide_eq_false_2 (EmptyString <> EmptyString)) by auto.
        now rewrite andb_false_r.
      - rewrite (bool_decide_eq_false_2 (EmptyString <> EmptyString)) by auto.
        now rewrite andb_false_r. }
    split; [exact Hnone|].
    cbn [toolTurns zip zip_with flat_map fst snd app]. rewrite Hnone. reflexivity.
Qed.

Lemma SendMessage_eq c ctx msgs (r : ai.Run) :
  ai.SendMessage c ctx msgs r
  = (match (MessagesNew ctx (ai.Client.apiKey c) (textRequest c msgs) (ai.world r)).1 with
     | inr err =>
         (EmptyString, Some (Errorf_w "failed to send message: " err EmptyString))
     | inl response => (ai.textOf (anthropic.Content response) EmptyString, None)
     end,
     ai.mkRun (MessagesNew ctx (ai.Client.apiKey c) (textRequest c msgs) (ai.world r)).2
       (ai.calls r ++ [ai.GatewayCall msgs])).
Proof.
  unfold ai.SendMessage, textRequest, bind, ai.record, ai.outside, ret. cbn.
  destruct (MessagesNew _ _ _ _) as [[reply|err] w]; reflexivity.
Qed.

(** What [SendMessage] sends, beside what [SendMessageWithTools] sends
    when it is given no tools.  [SendMessage] makes one call of the SDK,
    with the model of the client, 1024 tokens, no tools and no system
    instruction, and with the user and assistant turns of the transcript as
    texts; [SendMessageWithTools] makes one call with the same model and
    limit and with the system instruction.  On a transcript of plain text
    turns the two send the same messages.  They part on the turns of the tool
    loop: [SendMessage] leaves the result of a tool call out and sends the
    turn of the call as an assistant text that is empty.  When the provider
    answers the two requests alike, [SendMessage] returns the content
    [SendMessageWithTools] returns, or fails with the same error. *)
Theorem text_requests_agree c ctx (msgs : list ai.Message.t) (r : ai.Run) :
  ai.SendMessage c ctx msgs r
  = (match (MessagesNew ctx (ai.Client.apiKey c)
              (anthropic.mkMessageNewParams (ai.Client.model c) 1024
                 (flat_map ai.toTextParam msgs) [] [])
              (ai.world r)).1 with
     | inr err =>
         (EmptyString, Some (Errorf_w "failed to send message: " err EmptyString))
     | inl response => (ai.textOf (anthropic.Content response) EmptyString, None)
     end,
     ai.mkRun
       (MessagesNew ctx (ai.Client.apiKey c)
          (anthropic.mkMessageNewParams (ai.Client.model c) 1024
             (flat_map ai.toTextParam msgs) [] [])
          (ai.world r)).2
       (ai.calls r ++ [ai.GatewayCall msgs])) /\
  ai.SendMessageWithTools c ctx msgs [] r
  = (match (MessagesNew ctx (ai.Client.apiKey c)
              (anthropic.mkMessageNewParams (ai.Client.model c) 1024
                 (flat_map ai.toParam msgs) [] [ai.systemPrompt])
              (ai.world r)).1 with
     | inr err => inr (Errorf_w "failed to send message: " err EmptyString)
     | inl response => inl (ai.extract (anthropic.Content response) EmptyString [])
     end,
     ai.mkRun
       (MessagesNew ctx (ai.Client.apiKey c)
          (anthropic.mkMessageNewParams (ai.Client.model c) 1024
             (flat_map ai.toParam msgs) [] [ai.systemPrompt])
          (ai.world r)).2
       (ai.calls r ++ [ai.GatewayCall msgs])) /\
  (Forall plainText msgs -> flat_map ai.toTextParam msgs = flat_map ai.toParam msgs) /\
  (forall toolCall result,
     ai.toTextParam (tui.toolResultMessage toolCall result) = [] /\
     ai.toTextParam (tui.toolCallMessage toolCall)
     = [anthropic.NewAssistantMessage [anthropic.NewTextBlock EmptyString]]) /\
  (MessagesNew ctx (ai.Client.apiKey c) (textRequest c msgs) (ai.world r)
   = MessagesNew ctx (ai.Client.apiKey c) (request c msgs []) (ai.world r) ->
   ai.SendMessage c ctx msgs r
   = match ai.SendMessageWithTools c ctx msgs [] r with
     | (inl response, r1) => ((ai.Response.Content response, None), r1)
     | (inr err, r1) => ((EmptyString, Some err), r1)
     end).
Proof.
  assert (Hplain : Forall plainText msgs ->
            flat_map ai.toTextParam msgs = flat_map ai.toParam msgs).
  { intros Hplain.
    induction Hplain as [|msg msgs' Hmsg Hmsgs IH]; [reflexivity|].
    cbn [flat_map]. rewrite IH. f_equal.
    unfold ai.toParam, ai.toTextParam.
    destruct Hmsg as [Huser | (Hrole & Hcontent & Hfields)].
    - now rewrite !(bool_decide_eq_true_2 _ Huser).
    - rewrite Hrole.
      rewrite (bool_decide_eq_false_2 ("assistant" = "user")) by discriminate.
      rewrite (bool_decide_eq_true_2 ("assistant" = "assistant")) by reflexivity.
      rewrite (bool_decide_eq_true_2 _ Hcontent).
      destruct Hfields as [He|[He|He]]; rewrite He;
        rewrite (bool_decide_eq_false_2 (EmptyString <> EmptyString)) by auto;
        rewrite ?andb_false_r; reflexivity. }
  split_and!.
  - apply SendMessage_eq.
  - apply SendMessageWithTools_eq.
  - exact Hplain.
  - intros toolCall result. split; reflexivity.
  - intros Halike. rewrite SendMessage_eq, SendMessageWithTools_eq, Halike.
    clear Halike.
    destruct (MessagesNew _ _ _ _) as [[response|err] w]; cbn [fst snd];
      [|reflexivity].
    now rewrite extract_spec.
Qed.

(** ** Further properties: the follow-up loop *)

Lemma growing_mono (cs : list ai.Call) : forall prev prev',
  prev' `prefix_of` prev -> growing prev cs -> growing prev' cs.
Proof.
  induction cs as [|[transcript|tc] cs IH]; intros prev prev' Hp Hg; cbn [growing] in *.
  - exact I.
  - destruct Hg as [Hpt Hrest]. split; [now transitivity prev | exact Hrest].
  - now apply (IH prev).
Qed.

Lemma growing_executions toolCalls (cs : list ai.Call) prev :
  growing prev cs -> growing prev (map ai.ToolExecution toolCalls ++ cs).
Proof. intros Hg. induction toolCalls as [|tc tcs IH]; [exact Hg | exact IH]. Qed.

Lemma length_toolTurns toolCalls : forall results,
  length results = length toolCalls ->
  length (toolTurns toolCalls results) = 2 * length toolCalls.
Proof.
  induction toolCalls as [|tc tcs IH]; intros [|res results] Hlen;
    cbn [length] in *; try lia; [reflexivity|].
  rewrite toolTurns_cons. cbn [length]. rewrite IH by lia. lia.
Qed.

(** The log and the outcome of the follow-up loop, pass by pass. *)
Lemma finalLoop_log m ctx tools remaining : forall msgs (r : ai.Run),
  exists rm turns evs,
    (tui.finalLoop m ctx tools remaining msgs r).1 = tui.ResponseMsg rm /\
    tui.responseMsg.messages rm = msgs ++ turns /\
    ai.calls (tui.finalLoop m ctx tools remaining msgs r).2 = ai.calls r ++ evs /\
    growing msgs evs /\
    length turns = 2 * toolExecutions evs /\
    ((tui.responseMsg.err rm = None /\ tui.responseMsg.content rm <> EmptyString) \/
     tui.responseMsg.err rm = Some emptyResponse \/
     (exists cause,
        tui.responseMsg.err rm
        = Some (Errorf_w "final response error: " cause EmptyString)) \/
     (tui.responseMsg.err rm = Some iterationsExhausted /\
      gatewayCalls evs = remaining /\ cycles evs = remaining /\
      remaining <= toolExecutions evs)).
Proof.
  induction remaining as [|k IH]; intros msgs r.
  - rewrite finalLoop_0. eexists _, [], []. cbn [fst snd].
    split; [reflexivity|]. cbn. rewrite !app_nil_r.
    split_and!; auto. right. right. right. split_and!; auto.
  - rewrite finalLoop_S.
    pose proof (SendMessageWithTools_calls (tui.client m) ctx msgs tools r) as Hgw.
    destruct (ai.SendMessageWithTools _ _ _ _ _) as [[response|err] r1];
      cbn [snd] in Hgw.
    + destruct (ai.Response.ToolCalls response) as [|tc tcs] eqn:Etcs.
      * case_bool_decide as Hc.
        -- eexists _, [], [ai.GatewayCall msgs]. cbn [fst snd].
           split; [reflexivity|]. cbn. rewrite app_nil_r.
           split_and!; auto.
        -- eexists _, [], [ai.GatewayCall msgs]. cbn [fst snd].
           split; [reflexivity|]. cbn. rewrite app_nil_r.
           split_and!; auto.
      * destruct (executeToolCalls_spec (tui.executor m) ctx (tc :: tcs) msgs r1)
          as (results & Hlen & Hmsgs & Hcalls).
        destruct (IH (tui.executeToolCalls (tui.executor m) ctx (tc :: tcs) msgs r1).1
                     (tui.executeToolCalls (tui.executor m) ctx (tc :: tcs) msgs r1).2)
          as (rm & turns & evs & Hres & Hrm & Hlog & Hgrow & Hturns & Hout).
        exists rm, (toolTurns (tc :: tcs) results ++ turns),
          ([ai.GatewayCall msgs] ++ map ai.ToolExecution (tc :: tcs) ++ evs).
        split; [exact Hres|]. split; [now rewrite Hrm, Hmsgs, <- app_assoc|].
        split; [rewrite Hlog, Hcalls, Hgw, <- !app_assoc; reflexivity|].
        split.
        { cbn [app growing]. split; [reflexivity|].
          apply (growing_executions (tc :: tcs)).
          apply (growing_mono evs _ msgs) in Hgrow; [exact Hgrow|].
          rewrite Hmsgs. now apply prefix_app_r. }
        split.
        { rewrite length_app, length_toolTurns by exact Hlen.
          rewrite !toolExecutions_app, toolExecutions_executions, Hturns.
          cbn [toolExecutions]. lia. }
        destruct Hout as [Hdone|[Hempty|[Hcause|(Hmax & Hcalls' & Hcycles & Hexec)]]];
          [now left | now right; left | now right; right; left |].
        right. right. right. split; [exact Hmax|].
        rewrite !gatewayCalls_app, gatewayCalls_executions,
          !toolExecutions_app, toolExecutions_executions.
        cbn [gatewayCalls toolExecutions length app cycles map].
        split_and!; try lia.
        f_equal.
        assert (Hskip : forall tcs0 cs, cycles (map ai.ToolExecution tcs0 ++ cs) = cycles cs).
        { induction tcs0 as [|t ts IHt]; intros cs; [reflexivity | exact (IHt cs)]. }
        rewrite (Hskip tcs evs). exact Hcycles.
    + eexists _, [], [ai.GatewayCall msgs]. cbn [fst snd].
      split; [reflexivity|]. cbn. rewrite app_nil_r.
      split_and!; auto. right. right. left. now exists err.
Qed.

(** The outcome of the follow-up command is one of four.  It reports
    success only with a text that is not empty; otherwise its error is the
    empty-response error, a gateway error wrapped as [final response
    error: ...], or the error of exhausted iterations.  That last error is
    reported only after every one of the five passes has called the
    gateway and been answered with tool calls: exactly five gateway calls,
    five cycles and at least five tool executions are in the log then.  The
    texts of the three kinds of error begin differently, so they can be
    told apart. *)
Theorem follow_up_outcomes m (r : ai.Run) :
  (exists rm evs,
     (tui.sendFinalMessage m r).1 = tui.ResponseMsg rm /\
     ai.calls (tui.sendFinalMessage m r).2 = ai.calls r ++ evs /\
     ((tui.responseMsg.err rm = None /\ tui.responseMsg.content rm <> EmptyString) \/
      tui.responseMsg.err rm = Some emptyResponse \/
      (exists cause,
         tui.responseMsg.err rm
         = Some (Errorf_w "final response error: " cause EmptyString)) \/
      (tui.responseMsg.err rm = Some iterationsExhausted /\
       gatewayCalls evs = 5 /\ cycles evs = 5 /\ 5 <= toolExecutions evs))) /\
  (forall cause,
     String.get 0 (Error emptyResponse) = Some "e"%char /\
     String.get 0 (Error iterationsExhausted) = Some "r"%char /\
     String.get 0 (Error (Errorf_w "final response error: " cause EmptyString))
     = Some "f"%char).
Proof.
  split.
  - unfold tui.sendFinalMessage.
    destruct (finalLoop_log m (WithTimeout Background 60)
                (tools.GetAvailableTools (tui.executor m)) tui.maxIterations
                (tui.messages m) r)
      as (rm & turns & evs & Hres & _ & Hlog & _ & _ & Hout).
    exists rm, evs. split_and!; [exact Hres | exact Hlog | exact Hout].
  - intros cause. split_and!; reflexivity.
Qed.

(** Every tool execution of the follow-up command leaves exactly one call
    turn and one result turn in the transcript the command carries back:
    that transcript is the one the command started from, longer by twice
    the number of tool executions in the log. *)
Theorem follow_up_turns_match_executions m (r : ai.Run) :
  exists rm evs,
    (tui.sendFinalMessage m r).1 = tui.ResponseMsg rm /\
    ai.calls (tui.sendFinalMessage m r).2 = ai.calls r ++ evs /\
    tui.messages m `prefix_of` tui.responseMsg.messages rm /\
    length (tui.responseMsg.messages rm)
    = length (tui.messages m) + 2 * toolExecutions evs.
Proof.
  unfold tui.sendFinalMessage.
  destruct (finalLoop_log m (WithTimeout Background 60)
              (tools.GetAvailableTools (tui.executor m)) tui.maxIterations
              (tui.messages m) r)
    as (rm & turns & evs & Hres & Hrm & Hlog & _ & Hturns & _).
  exists rm, evs. split_and!; [exact Hres | exact Hlog | |].
  - rewrite Hrm. now apply prefix_app_r.
  - rewrite Hrm, length_app, Hturns. reflexivity.
Qed.

(** The commands of this program return a response message or a
    tools-executed message and nothing else; no command ever returns a
    tool-response message.  The follow-up command always returns a response
    message.  The first command returns a tools-executed message exactly
    when the gateway answered with tool calls. *)
Theorem commands_return_two_kinds m (r : ai.Run) :
  (exists rm, (tui.sendFinalMessage m r).1 = tui.ResponseMsg rm) /\
  ((exists em, (tui.sendMessage m r).1 = tui.ToolExecutedMsg em) <->
   (exists response r1,
      ai.SendMessageWithTools (tui.client m) Background (tui.messages m)
        (tools.GetAvailableTools (tui.executor m)) r = (inl response, r1) /\
      ai.Response.ToolCalls response <> [])) /\
  (forall c msg,
     (tui.runCmd c r).1 = Some msg ->
     (exists rm, msg = tui.ResponseMsg rm) \/ (exists em, msg = tui.ToolExecutedMsg em)).
Proof.
  assert (Hfinal : forall m0 (r0 : ai.Run),
            exists rm, (tui.sendFinalMessage m0 r0).1 = tui.ResponseMsg rm).
  { intros m0 r0. unfold tui.sendFinalMessage.
    destruct (finalLoop_spec m0 (WithTimeout Background 60)
                (tools.GetAvailableTools (tui.executor m0)) tui.maxIterations
                (tui.messages m0) r0) as (rm & _ & _ & Hres & _).
    now exists rm. }
  assert (Hfirst : forall m0 (r0 : ai.Run),
            (exists rm, (tui.sendMessage m0 r0).1 = tui.ResponseMsg rm) \/
            (exists em, (tui.sendMessage m0 r0).1 = tui.ToolExecutedMsg em)).
  { intros m0 r0. rewrite sendMessage_eq.
    destruct (ai.SendMessageWithTools _ _ _ _ _) as [[response|err] r1];
      [|left; eauto].
    destruct (ai.Response.ToolCalls response); [left | right]; eauto. }
  split_and!.
  - apply Hfinal.
  - rewrite sendMessage_eq.
    destruct (ai.SendMessageWithTools _ _ _ _ _) as [[response|err] r1].
    + destruct (ai.Response.ToolCalls response) as [|tc tcs] eqn:Etcs.
      * split; [intros [em Hem]; discriminate Hem|].
        intros (response' & r1' & Heq & Hne). injection Heq as <- <-. congruence.
      * split; [intros _ | intros _; eauto].
        exists response, r1. split; [reflexivity | rewrite Etcs; discriminate].
    + split; [intros [em Hem]; discriminate Hem|].
      intros (response' & r1' & Heq & _). discriminate Heq.
  - intros c msg Hmsg. destruct c as [|cmds|m0|m0].
    + discriminate Hmsg.
    + discriminate Hmsg.
    + rewrite runCmd_sendMessage in Hmsg. injection Hmsg as <-. apply Hfirst.
    + rewrite runCmd_sendFinalMessage in Hmsg. injection Hmsg as <-.
      left. apply Hfinal.
Qed.

(** What the model keeps of a follow-up command.  When the command
    succeeds, the model takes over the transcript the command carries back
    and appends the closing assistant turn.  When the command fails, the
    model does not read the carried transcript: it keeps the transcript it
    had when the command started and appends the error as an assistant
    turn, so the turns of the tool calls the command ran are not in it. *)
Theorem follow_up_result_in_the_model fuel m (r : ai.Run) rm :
  (tui.sendFinalMessage m r).1 = tui.ResponseMsg rm ->
  exists m',
    (tui.settle (S fuel) m (Some (tui.sendFinalMessageCmd m)) r).1 = Some m' /\
    tui.thinking m' = false /\
    tui.messages m' =
      match tui.responseMsg.err rm with
      | Some err =>
          tui.messages m ++ [tui.textMessage "assistant" ("Error: " +:+ Error err)]
      | None =>
          tui.responseMsg.messages rm
            ++ [tui.textMessage "assistant" (tui.responseMsg.content rm)]
      end.
Proof.
  intros Hres. rewrite settle_S, runCmd_sendFinalMessage. cbn [fst snd].
  rewrite Hres.
  destruct (Update_response m rm) as (m' & HU & Hth & Hmsgs).
  rewrite HU. cbn [fst snd]. rewrite settle_None. cbn [fst snd].
  exists m'. split_and!; [reflexivity | exact Hth |].
  rewrite Hmsgs. destruct (tui.responseMsg.err rm) as [err|]; [reflexivity|].
  unfold tui.sendFinalMessage in Hres.
  destruct (finalLoop_spec m (WithTimeout Background 60)
              (tools.GetAvailableTools (tui.executor m)) tui.maxIterations
              (tui.messages m) r)
    as (rm' & turns & evs & Hres' & Hrm & _).
  rewrite Hres in Hres'. injection Hres' as <-.
  destruct (tui.responseMsg.messages rm) as [|x l] eqn:El; [|reflexivity].
  cbn [length Nat.ltb Nat.leb]. symmetry in Hrm.
  apply app_eq_nil in Hrm as [-> _]. reflexivity.
Qed.

(** ** Further properties: the model between messages *)

Lemma Update_client_executor m msg :
  tui.client (tui.Update m msg).1 = tui.client m /\
  tui.executor (tui.Update m msg).1 = tui.executor m.
Proof.
  unfold tui.Update.
  destruct (tui.textarea_Update _ _) as [ta tiCmd].
  destruct (tui.viewport_Update _ _) as [vp vpCmd].
  destruct msg as [Width Height|type runes|msg|msg|msg|tag].
  - cbn [fst]. destruct (tui.ready _); split; reflexivity.
  - destruct type; try (split; reflexivity).
    cbn [tui.thinking tui.set_input tui.set_viewport tui.set_widgets].
    destruct (tui.thinking m); [split; reflexivity|].
    case_bool_decide; split; reflexivity.
  - destruct (tui.responseMsg.err msg); [split; reflexivity|].
    destruct (0 <? length (tui.responseMsg.messages msg)); split; reflexivity.
  - destruct (tui.toolResponseMsg.err msg); split; reflexivity.
  - split; reflexivity.
  - split; reflexivity.
Qed.

(** [Update] never changes the client or the tool executor of the model,
    whatever the message.  The size of the window changes on a message of
    the window size only, which also marks the model ready, returns no
    command and leaves the transcript and the thinking flag alone; no other
    message changes the size or the ready flag. *)
Theorem update_keeps_client_and_tools m msg :
  tui.client (tui.Update m msg).1 = tui.client m /\
  tui.executor (tui.Update m msg).1 = tui.executor m /\
  match msg with
  | tui.WindowSizeMsg Width Height =>
      tui.width (tui.Update m msg).1 = Width /\
      tui.height (tui.Update m msg).1 = Height /\
      tui.ready (tui.Update m msg).1 = true /\
      tui.messages (tui.Update m msg).1 = tui.messages m /\
      tui.thinking (tui.Update m msg).1 = tui.thinking m /\
      (tui.Update m msg).2 = None
  | _ =>
      tui.width (tui.Update m msg).1 = tui.width m /\
      tui.height (tui.Update m msg).1 = tui.height m /\
      tui.ready (tui.Update m msg).1 = tui.ready m
  end.
Proof.
  unfold tui.Update.
  destruct (tui.textarea_Update _ _) as [ta tiCmd].
  destruct (tui.viewport_Update _ _) as [vp vpCmd].
  destruct msg as [Width Height|type runes|msg|msg|msg|tag].
  - cbn [fst snd]. destruct (tui.ready _) eqn:Eready;
      split_and!; try reflexivity; exact Eready.
  - destruct type; try (split_and!; reflexivity).
    cbn [tui.thinking tui.set_input tui.set_viewport tui.set_widgets].
    destruct (tui.thinking m); [split_and!; reflexivity|].
    case_bool_decide; split_and!; reflexivity.
  - destruct (tui.responseMsg.err msg); [split_and!; reflexivity|].
    destruct (0 <? length (tui.responseMsg.messages msg)); split_and!; reflexivity.
  - destruct (tui.toolResponseMsg.err msg); split_and!; reflexivity.
  - split_and!; reflexivity.
  - split_and!; reflexivity.
Qed.

Lemma Update_cmd m msg :
  match (tui.Update m msg).2 with
  | Some (tui.sendMessageCmd m0) | Some (tui.sendFinalMessageCmd m0) =>
      m0 = (tui.Update m msg).1
  | _ => True
  end.
Proof.
  unfold tui.Update.
  destruct (tui.textarea_Update _ _) as [ta tiCmd].
  destruct (tui.viewport_Update _ _) as [vp vpCmd].
  destruct msg as [Width Height|type runes|msg|msg|msg|tag]; try exact I.
  - destruct type; try exact I.
    cbn [tui.thinking tui.set_input tui.set_viewport tui.set_widgets].
    destruct (tui.thinking m); [exact I|].
    case_bool_decide; [exact I | reflexivity].
  - reflexivity.
Qed.

Lemma settle_Live fuel : forall m c (r : ai.Run) m',
  Live m -> (tui.settle fuel m c r).1 = Some m' -> Live m'.
Proof.
  induction fuel as [|fuel IH]; intros m c r m' Hm Hres.
  - destruct c as [c|]; [discriminate Hres|]. now injection Hres as <-.
  - destruct c as [c|]; [|now injection Hres as <-].
    rewrite settle_S in Hres.
    destruct (tui.runCmd c r).1 as [msg|]; [|now injection Hres as <-].
    apply IH in Hres; [exact Hres|]. now apply Live_Update.
Qed.

Lemma exchange_Live fuel m (r : ai.Run) m' :
  Live m -> (tui.exchange fuel m r).1 = Some m' -> Live m'.
Proof.
  unfold tui.exchange. intros Hm Hres.
  pose proof (Live_Update m (tui.KeyMsg tui.KeyEnter EmptyString) Hm) as Hm1.
  destruct (tui.Update m _) as [m1 c]. cbn [fst] in Hm1.
  exact (settle_Live fuel m1 c r m' Hm1 Hres).
Qed.

Lemma Live_client_executor m :
  Live m -> tui.client m = tui.client tui.New /\ tui.executor m = tui.executor tui.New.
Proof.
  induction 1 as [|m msg Hm [IHc IHe]]; [now split|].
  destruct (Update_client_executor m msg) as [Hc He]. split; congruence.
Qed.

(** Every model a session passes through, between exchanges and within
    them, has the client and the executor [New] made, and every command
    [Update] returns is closed over the model it returns with it, which is
    such a model again.  So every gateway call of a session (the one of the
    first command and the one of each pass of the follow-up loop) is a call
    of [SendMessageWithTools] that hands the SDK the key of the environment
    and a request for the model [claude-sonnet-4-20250514] with 1024
    tokens, the tools bash and nvidia_smi, the system instruction and the
    transcript of that call; and the tools the commands run are those of
    [tools.New]. *)
Theorem session_keeps_client_and_tools :
  (forall m, Reachable m -> Live m) /\
  (forall fuel m (r : ai.Run) m',
     Live m -> (tui.exchange fuel m r).1 = Some m' -> Live m') /\
  (forall m,
     Live m ->
     let key := Getenv "ANTHROPIC_API_KEY" in
     let params := fun msgs =>
       anthropic.mkMessageNewParams "claude-sonnet-4-20250514" 1024
         (flat_map ai.toParam msgs)
         [ai.toToolParam tools.BashTool; ai.toToolParam tools.NvidiaSmiTool]
         [ai.systemPrompt] in
     let later := WithTimeout Background 60 in
     tui.client m = ai.Client.mk key "claude-sonnet-4-20250514" /\
     tui.executor m = tools.New /\
     (forall msg m0,
        (tui.Update m msg).2 = Some (tui.sendMessageCmd m0) \/
        (tui.Update m msg).2 = Some (tui.sendFinalMessageCmd m0) ->
        m0 = (tui.Update m msg).1 /\ Live m0) /\
     (forall ctx msgs (r : ai.Run),
        ai.SendMessageWithTools (tui.client m) ctx msgs
          (tools.GetAvailableTools (tui.executor m)) r
        = (match (MessagesNew ctx key (params msgs) (ai.world r)).1 with
           | inr err => inr (Errorf_w "failed to send message: " err EmptyString)
           | inl reply => inl (ai.extract (anthropic.Content reply) EmptyString [])
           end,
           ai.mkRun (MessagesNew ctx key (params msgs) (ai.world r)).2
             (ai.calls r ++ [ai.GatewayCall msgs]))) /\
     (forall r : ai.Run,
        tui.sendMessage m r
        = match MessagesNew Background key (params (tui.messages m)) (ai.world r) with
          | (inr err, w) =>
              (tui.ResponseMsg
                 (tui.responseMsg.mk EmptyString []
                    (Some (Errorf_w "failed to send message: " err EmptyString))),
               ai.mkRun w (ai.calls r ++ [ai.GatewayCall (tui.messages m)]))
          | (inl reply, w) =>
              let response := ai.extract (anthropic.Content reply) EmptyString [] in
              let r1 := ai.mkRun w (ai.calls r ++ [ai.GatewayCall (tui.messages m)]) in
              match ai.Response.ToolCalls response with
              | [] =>
                  (tui.ResponseMsg
                     (tui.responseMsg.mk (ai.Response.Content response)
                        (tui.messages m) None), r1)
              | _ :: _ =>
                  let run := tui.executeToolCalls tools.New Background
                               (ai.Response.ToolCalls response) (tui.messages m) r1 in
                  (tui.ToolExecutedMsg (tui.toolExecutedMsg.mk run.1), run.2)
              end
          end) /\
     (forall r : ai.Run,
        tui.sendFinalMessage m r
        = tui.finalLoop m later (tools.GetAvailableTools (tui.executor m)) 5
            (tui.messages m) r) /\
     (forall k msgs (r : ai.Run),
        tui.finalLoop m later (tools.GetAvailableTools (tui.executor m)) (S k) msgs r
        = match MessagesNew later key (params msgs) (ai.world r) with
          | (inr err, w) =>
              (tui.ResponseMsg
                 (tui.responseMsg.mk EmptyString msgs
                    (Some (Errorf_w "final response error: "
                             (Errorf_w "failed to send message: " err EmptyString)
                             EmptyString))),
               ai.mkRun w (ai.calls r ++ [ai.GatewayCall msgs]))
          | (inl reply, w) =>
              let response := ai.extract (anthropic.Content reply) EmptyString [] in
              let r1 := ai.mkRun w (ai.calls r ++ [ai.GatewayCall msgs]) in
              match ai.Response.ToolCalls response with
              | [] =>
                  if bool_decide (ai.Response.Content response <> EmptyString)
                  then (tui.ResponseMsg
                          (tui.responseMsg.mk (ai.Response.Content response) msgs None),
                        r1)
                  else (tui.ResponseMsg
                          (tui.responseMsg.mk EmptyString msgs (Some emptyResponse)),
                        r1)
              | _ :: _ =>
                  let run := tui.executeToolCalls tools.New later
                               (ai.Response.ToolCalls response) msgs r1 in
                  tui.finalLoop m later (tools.GetAvailableTools (tui.executor m)) k
                    run.1 run.2
              end
          end)).
Proof.
  split_and!.
  - intros m Hm. induction Hm as [|m msg Hm IH Hidle|m r m' Hm IH Hres].
    + apply Live_New.
    + now apply Live_Update.
    + exact (exchange_Live 2 m r m' IH Hres).
  - intros fuel m r m'. apply exchange_Live.
  - intros m Hm. cbn zeta.
    destruct (Live_client_executor m Hm) as [Hc He].
    change (tui.client tui.New)
      with (ai.Client.mk (Getenv "ANTHROPIC_API_KEY") "claude-sonnet-4-20250514") in Hc.
    change (tui.executor tui.New) with tools.New in He.
    assert (Hgw : forall ctx msgs (r : ai.Run),
              ai.SendMessageWithTools (tui.client m) ctx msgs
                (tools.GetAvailableTools (tui.executor m)) r
              = (match (MessagesNew ctx (Getenv "ANTHROPIC_API_KEY")
                          (anthropic.mkMessageNewParams "claude-sonnet-4-20250514" 1024
                             (flat_map ai.toParam msgs)
                             [ai.toToolParam tools.BashTool;
                              ai.toToolParam tools.NvidiaSmiTool]
                             [ai.systemPrompt]) (ai.world r)).1 with
                 | inr err => inr (Errorf_w "failed to send message: " err EmptyString)
                 | inl reply => inl (ai.extract (anthropic.Content reply) EmptyString [])
                 end,
                 ai.mkRun
                   (MessagesNew ctx (Getenv "ANTHROPIC_API_KEY")
                      (anthropic.mkMessageNewParams "claude-sonnet-4-20250514" 1024
                         (flat_map ai.toParam msgs)
                         [ai.toToolParam tools.BashTool;
                          ai.toToolParam tools.NvidiaSmiTool]
                         [ai.systemPrompt]) (ai.world r)).2
                   (ai.calls r ++ [ai.GatewayCall msgs]))).
    { intros ctx msgs r. rewrite SendMessageWithTools_eq, Hc. reflexivity. }
    split_and!.
    + exact Hc.
    + exact He.
    + intros msg m0 Hcmd. pose proof (Update_cmd m msg) as Hclosed.
      assert (Hm0 : m0 = (tui.Update m msg).1)
        by (destruct Hcmd as [Hcmd|Hcmd]; rewrite Hcmd in Hclosed; exact Hclosed).
      split; [exact Hm0|]. rewrite Hm0. now apply Live_Update.
    + exact Hgw.
    + intros r. rewrite sendMessage_eq, Hgw, He.
      destruct (MessagesNew _ _ _ _) as [[reply|err] w]; cbn [fst snd]; [|reflexivity].
      destruct (ai.Response.ToolCalls _); reflexivity.
    + intros r. reflexivity.
    + intros k msgs r. rewrite finalLoop_S, Hgw, He.
      destruct (MessagesNew _ _ _ _) as [[reply|err] w]; cbn [fst snd]; [|reflexivity].
      destruct (ai.Response.ToolCalls _); reflexivity.
Qed.

(** ** Further properties: one exchange *)

Lemma settle_final_log fuel m (r : ai.Run) :
  exists evs,
    ai.calls (tui.settle (S fuel) m (Some (tui.sendFinalMessageCmd m)) r).2
    = ai.calls r ++ evs /\
    growing (tui.messages m) evs.
Proof.
  rewrite settle_S, runCmd_sendFinalMessage. cbn [fst snd].
  unfold tui.sendFinalMessage.
  destruct (finalLoop_log m (WithTimeout Background 60)
              (tools.GetAvailableTools (tui.executor m)) tui.maxIterations
              (tui.messages m) r)
    as (rm & turns & evs & Hres & _ & Hlog & Hgrow & _).
  rewrite Hres.
  destruct (Update_response m rm) as (m' & HU & _).
  rewrite HU. cbn [fst snd]. rewrite settle_None. cbn [fst snd].
  exists evs. now split.
Qed.

(** The transcripts the gateway sees in one exchange.  When the exchange
    submits (no exchange in flight, input not blank), its first gateway
    call is made on the transcript of the model with the user turn of the
    trimmed input appended; every later gateway call of the exchange is made
    on a transcript that extends the one of the call before it, so nothing
    the gateway has been sent is taken back or reordered within the
    exchange.  When the exchange does not submit, nothing is called. *)
Theorem exchange_gateway_transcripts m (r : ai.Run) :
  exists evs,
    ai.calls (tui.exchange 2 m r).2 = ai.calls r ++ evs /\
    growing (tui.messages m) evs /\
    (((tui.thinking m = true \/ submitted m EmptyString = EmptyString) /\ evs = []) \/
     (tui.thinking m = false /\ submitted m EmptyString <> EmptyString /\
      exists rest,
        evs = ai.GatewayCall
                (tui.messages m ++ [tui.textMessage "user" (submitted m EmptyString)])
              :: rest)).
Proof.
  unfold tui.exchange, submitted. rewrite Update_enter. cbn zeta.
  set (ta := (tui.textarea_Update _ _).1). set (vp := (tui.viewport_Update _ _).1).
  destruct (tui.thinking m) eqn:Eth.
  { rewrite settle_None. exists []. cbn [snd]. rewrite app_nil_r.
    split_and!; [reflexivity | exact I | left; auto]. }
  case_bool_decide as Hin.
  { rewrite settle_None. exists []. cbn [snd]. rewrite app_nil_r.
    split_and!; [reflexivity | exact I | left; auto]. }
  set (userInput := TrimSpace (tui.textarea_Value ta)) in *.
  set (m1 := tui.showMessages _).
  assert (Hm1 : tui.messages m1 = tui.messages m ++ [tui.textMessage "user" userInput])
    by reflexivity.
  assert (Hpre : tui.messages m `prefix_of` tui.messages m1)
    by (rewrite Hm1; now apply prefix_app_r).
  rewrite settle_S, runCmd_sendMessage. cbn [fst snd].
  rewrite sendMessage_eq.
  pose proof (SendMessageWithTools_calls (tui.client m1) Background (tui.messages m1)
                (tools.GetAvailableTools (tui.executor m1)) r) as Hgw.
  destruct (ai.SendMessageWithTools _ _ _ _ _) as [[response|err] r1];
    cbn [snd] in Hgw.
  - destruct (ai.Response.ToolCalls response) as [|tc tcs] eqn:Etcs.
    + cbn [fst snd].
      destruct (Update_response m1
                  (tui.responseMsg.mk (ai.Response.Content response) (tui.messages m1) None))
        as (m' & HU & _).
      rewrite HU. cbn [fst snd]. rewrite settle_None. cbn [fst snd].
      exists [ai.GatewayCall (tui.messages m1)].
      split_and!; [exact Hgw | cbn; auto |].
      right. split_and!; auto. exists []. now rewrite Hm1.
    + cbn zeta. cbn [fst snd].
      destruct (executeToolCalls_spec (tui.executor m1) Background (tc :: tcs)
                  (tui.messages m1) r1) as (results & _ & Hmsgs & Hcalls).
      destruct (tui.executeToolCalls _ _ _ _ _) as [msgs2 r2]. cbn [fst snd] in *.
      destruct (Update_toolExecuted m1 (tui.toolExecutedMsg.mk msgs2))
        as (m2 & HU & Hm2 & _ & _ & _).
      rewrite HU. cbn [fst snd].
      destruct (settle_final_log 0 m2 r2) as (evs & Hlog & Hgrow).
      exists (ai.GatewayCall (tui.messages m1)
                :: map ai.ToolExecution (tc :: tcs) ++ evs).
      split_and!.
      * rewrite Hlog, Hcalls, Hgw, <- !app_assoc. reflexivity.
      * cbn [growing]. split; [exact Hpre|].
        apply (growing_executions (tc :: tcs)).
        apply (growing_mono evs (tui.messages m2)); [|exact Hgrow].
        rewrite Hm2. cbn [tui.toolExecutedMsg.messages]. rewrite Hmsgs.
        now apply prefix_app_r.
      * right. split_and!; auto. eexists. now rewrite Hm1.
  - cbn [fst snd].
    destruct (Update_response m1 (tui.responseMsg.mk EmptyString [] (Some err)))
      as (m' & HU & _).
    rewrite HU. cbn [fst snd]. rewrite settle_None. cbn [fst snd].
    exists [ai.GatewayCall (tui.messages m1)].
    split_and!; [exact Hgw | cbn; auto |].
    right. split_and!; auto. exists []. now rewrite Hm1.
Qed.

Lemma ToolTurns_even turns : ToolTurns turns -> Nat.Even (length turns).
Proof.
  induction 1 as [|toolCall result rest Hrest [k Hk]].
  - now exists 0.
  - exists (S k). cbn [length]. lia.
Qed.

(** One exchange always comes to an end, and it only ever appends to the
    transcript: the transcript of the model after the exchange begins with
    the transcript before it.  What is appended is nothing, or a user turn,
    then pairs of a tool call and its result, then one assistant text; so
    an exchange appends an even number of turns, and when it appends
    anything the first turn is of the user and the last one is an assistant
    text that names no tool. *)
Theorem exchange_appends_whole_rounds m (r : ai.Run) :
  exists m' appended,
    (tui.exchange 2 m r).1 = Some m' /\
    tui.messages m' = tui.messages m ++ appended /\
    Nat.Even (length appended) /\
    (appended = [] \/
     exists userInput final,
       head appended = Some (tui.textMessage "user" userInput) /\
       last appended = Some (tui.textMessage "assistant" final) /\
       2 <= length appended).
Proof.
  destruct (exchange_spec m r) as (m' & evs & Hres & _ & _ & Hshape).
  cbn zeta in Hres.
  destruct Hshape as [[Hsame _] | (userInput & turns & final & _ & _ & _ & Hmsgs & Hturns)].
  - exists m', []. rewrite app_nil_r. split_and!; auto. now exists 0.
  - exists m', (tui.textMessage "user" userInput
                  :: turns ++ [tui.textMessage "assistant" final]).
    split_and!; [exact Hres | exact Hmsgs | |].
    + destruct (ToolTurns_even turns Hturns) as [k Hk].
      exists (S k). cbn [length]. rewrite length_app. cbn [length]. lia.
    + right. exists userInput, final. split_and!.
      * reflexivity.
      * change (tui.textMessage "user" userInput
                  :: turns ++ [tui.textMessage "assistant" final])
          with ((tui.textMessage "user" userInput :: turns)
                  ++ [tui.textMessage "assistant" final]).
        apply last_snoc.
      * cbn [length]. rewrite length_app. cbn [length]. lia.
Qed.

(** One exchange at a time.  While the model is thinking, Enter submits
    nothing, whatever the input holds: only the two widgets see the key and
    no command is returned.  A submission sets the thinking flag and empties
    the input.  The message of executed tools leaves the flag as it is, so
    the model keeps thinking through the follow-up command; a response
    message and a tool-response message clear it. *)
Theorem one_exchange_at_a_time m :
  (forall runes,
     tui.thinking m = true ->
     tui.Update m (tui.KeyMsg tui.KeyEnter runes)
     = (tui.set_widgets m
          (tui.textarea_Update (tui.input m) (tui.KeyMsg tui.KeyEnter runes)).1
          (tui.viewport_Update (tui.viewport_ m) (tui.KeyMsg tui.KeyEnter runes)).1,
        None)) /\
  (forall runes,
     tui.thinking m = false ->
     submitted m runes <> EmptyString ->
     tui.thinking (tui.Update m (tui.KeyMsg tui.KeyEnter runes)).1 = true /\
     tui.input (tui.Update m (tui.KeyMsg tui.KeyEnter runes)).1
     = tui.textarea_Reset
         (tui.textarea_Update (tui.input m) (tui.KeyMsg tui.KeyEnter runes)).1 /\
     (tui.Update m (tui.KeyMsg tui.KeyEnter runes)).2
     = Some (tui.sendMessageCmd (tui.Update m (tui.KeyMsg tui.KeyEnter runes)).1)) /\
  (forall msg,
     tui.thinking (tui.Update m (tui.ToolExecutedMsg msg)).1 = tui.thinking m) /\
  (forall msg, tui.thinking (tui.Update m (tui.ResponseMsg msg)).1 = false) /\
  (forall msg, tui.thinking (tui.Update m (tui.ToolResponseMsg msg)).1 = false).
Proof.
  split_and!.
  - intros runes Hth. rewrite Update_enter. cbn zeta. now rewrite Hth.
  - intros runes Hth Hin. unfold submitted in Hin. rewrite Update_enter. cbn zeta.
    rewrite Hth, (bool_decide_eq_false_2 _ Hin). split_and!; reflexivity.
  - intros msg. destruct (Update_toolExecuted m msg) as (m' & -> & _ & _ & _ & Hth).
    exact Hth.
  - intros msg. destruct (Update_response m msg) as (m' & -> & Hth & _). exact Hth.
  - intros msg. unfold tui.Update.
    destruct (tui.textarea_Update _ _) as [ta tiCmd].
    destruct (tui.viewport_Update _ _) as [vp vpCmd].
    now destruct (tui.toolResponseMsg.err msg).
Qed.

(** ** Further properties: the registry and the tools on offer *)

(** What [tools.New] registers and what [GetAvailableTools] offers.  The
    registry holds exactly three names: bash and nvidia_smi with the
    handlers of package tools, and get_time with the handler of package ai.
    The bash handler of package ai is replaced; the one of package tools is
    that handler run under a deadline of thirty seconds.  Every tool on
    offer is registered.  The converse fails: get_time is registered and
    runs [date] when a reply calls it, whatever input comes with the call,
    but it is not among the tools offered to the provider.  In package ai
    the names on offer are the registered names. *)
Theorem registry_and_offer :
  (forall name,
     ai.tools (tools.executor tools.New) !! name
     = if bool_decide (name = "nvidia_smi") then Some tools.ExecuteNvidiaSmi
       else if bool_decide (name = "bash") then Some tools.ExecuteBash
       else if bool_decide (name = "get_time") then Some ai.executeGetTime
       else None) /\
  (forall ctx input, tools.ExecuteBash ctx input = ai.executeBash (WithTimeout ctx 30) input) /\
  map ai.Tool.Name (tools.GetAvailableTools tools.New) = ["bash"; "nvidia_smi"] /\
  (forall ctx toolCall (r : ai.Run),
     ai.ToolCall.Name toolCall = "get_time" ->
     tools.Execute tools.New ctx toolCall r
     = ((ai.executeGetTime ctx EmptyString (ai.world r)).1,
        ai.mkRun (ai.executeGetTime ctx EmptyString (ai.world r)).2
          (ai.calls r ++ [ai.ToolExecution toolCall]))) /\
  (forall name,
     is_Some (ai.tools ai.NewToolExecutor !! name) <->
     name ∈ map ai.Tool.Name (ai.GetAvailableTools ai.NewToolExecutor)).
Proof.
  assert (Hreg : forall name,
            ai.tools (tools.executor tools.New) !! name
            = if bool_decide (name = "nvidia_smi") then Some tools.ExecuteNvidiaSmi
              else if bool_decide (name = "bash") then Some tools.ExecuteBash
              else if bool_decide (name = "get_time") then Some ai.executeGetTime
              else None).
  { intros name.
    cbn [tools.New tools.executor ai.RegisterTool ai.NewToolExecutor ai.tools].
    repeat case_bool_decide; subst;
      repeat (first [ rewrite lookup_insert_eq; reflexivity
                    | rewrite lookup_insert_ne by congruence ]);
      try reflexivity. }
  split_and!.
  - exact Hreg.
  - reflexivity.
  - reflexivity.
  - intros ctx toolCall r Hname.
    rewrite (Execute_registered tools.New ctx toolCall ai.executeGetTime r);
      [reflexivity|].
    rewrite Hreg, Hname. reflexivity.
  - intros name.
    cbn [ai.NewToolExecutor ai.RegisterTool ai.tools ai.GetAvailableTools map ai.Tool.Name].
    rewrite !elem_of_cons, elem_of_nil.
    destruct (decide (name = "get_time")) as [->|Hg].
    { rewrite lookup_insert_eq. split; [auto | intros _; eexists; reflexivity]. }
    rewrite lookup_insert_ne by congruence.
    destruct (decide (name = "bash")) as [->|Hb].
    { rewrite lookup_insert_eq. split; [auto | intros _; eexists; reflexivity]. }
    rewrite lookup_insert_ne by congruence. rewrite lookup_empty.
    split; [intros [x Hx]; discriminate Hx | intros [?|[?|[]]]; contradiction].
Qed.

(** ** Further properties: what is shown *)

Lemma rendered_acc msgs : forall out,
  fold_left (fun out msg => out +:+ tui.renderMessage msg) msgs out
  = out +:+ rendered msgs.
Proof.
  unfold rendered.
  induction msgs as [|msg msgs IH]; intros out; cbn [fold_left].
  - now rewrite append_nil_r.
  - rewrite IH, (IH (EmptyString +:+ tui.renderMessage msg)), append_nil_l.
    now rewrite append_assoc.
Qed.

Lemma rendered_app a b : rendered (a ++ b) = rendered a +:+ rendered b.
Proof.
  unfold rendered at 1. rewrite fold_left_app. fold (rendered a).
  apply rendered_acc.
Qed.

(** What the viewport shows.  The turns are rendered one after the other
    and joined, so the view of a transcript is the view of its parts.  The
    turn of a tool call renders to nothing: the view of a transcript is the
    view of the transcript without its tool-call turns, and the result of a
    tool is shown with no trace of the call it answers.  The line [Kilo is
    thinking...] is put after the turns while the model thinks.  An empty
    transcript shows the placeholder alone, also while the model thinks. *)
Theorem tool_calls_are_not_shown m :
  (forall a b, rendered (a ++ b) = rendered a +:+ rendered b) /\
  (forall toolCall, tui.renderMessage (tui.toolCallMessage toolCall) = EmptyString) /\
  (tui.messages m <> [] ->
   tui.renderMessages m
   = rendered (tui.messages m)
       +:+ (if tui.thinking m
            then tui.Render (tui.mkStyle "#B026FF" false true) "Kilo is thinking..."
            else EmptyString)) /\
  (forall before toolCall after,
     tui.messages m = before ++ tui.toolCallMessage toolCall :: after ->
     tui.renderMessages m
     = rendered (before ++ after)
         +:+ (if tui.thinking m
              then tui.Render (tui.mkStyle "#B026FF" false true) "Kilo is thinking..."
              else EmptyString)) /\
  (tui.messages m = [] ->
   tui.renderMessages m
   = tui.Render (tui.mkStyle "#666666" false true) "Start chatting with Claude...").
Proof.
  assert (Hcall : forall toolCall,
            tui.renderMessage (tui.toolCallMessage toolCall) = EmptyString).
  { intros toolCall. unfold tui.renderMessage, tui.toolCallMessage.
    cbn [ai.Message.Role ai.Message.Content].
    rewrite (bool_decide_eq_false_2 ("assistant" = "user")) by discriminate.
    rewrite (bool_decide_eq_true_2 ("assistant" = "assistant")) by reflexivity.
    now rewrite (bool_decide_eq_false_2 (EmptyString <> EmptyString)) by auto. }
  split_and!.
  - exact rendered_app.
  - exact Hcall.
  - intros Hne. unfold tui.renderMessages.
    destruct (tui.messages m) as [|msg msgs] eqn:Emsgs; [now destruct Hne|].
    cbn [length Nat.eqb]. fold (rendered (msg :: msgs)).
    destruct (tui.thinking m); [reflexivity | now rewrite append_nil_r].
  - intros before toolCall after Hmsgs. unfold tui.renderMessages. rewrite Hmsgs.
    rewrite length_app. cbn [length].
    replace (length before + S (length after) =? 0) with false
      by (symmetry; apply Nat.eqb_neq; lia).
    fold (rendered (before ++ tui.toolCallMessage toolCall :: after)).
    rewrite !rendered_app.
    change (tui.toolCallMessage toolCall :: after)
      with ([tui.toolCallMessage toolCall] ++ after).
    rewrite rendered_app.
    assert (Hone : rendered [tui.toolCallMessage toolCall] = EmptyString).
    { unfold rendered. cbn [fold_left]. now rewrite Hcall. }
    rewrite Hone, append_nil_l.
    destruct (tui.thinking m); [reflexivity | now rewrite append_nil_r].
  - intros Hmsgs. unfold tui.renderMessages. now rewrite Hmsgs.
Qed.

(** ** Further properties: a failure of the first gateway call, end to end *)

(** When the provider fails on the first request of an exchange, the
    exchange ends after that one call.  The transcript keeps the user turn
    and gains one assistant turn that reads [Error: failed to send message: ]
    followed by the text of the provider's error; the model stops thinking;
    the log gains the one gateway call and no tool execution. *)
Theorem gateway_failure_is_shown m (r : ai.Run) err w :
  tui.thinking m = false ->
  submitted m EmptyString <> EmptyString ->
  MessagesNew Background (ai.Client.apiKey (tui.client m))
    (request (tui.client m)
       (tui.messages m ++ [tui.textMessage "user" (submitted m EmptyString)])
       (tools.GetAvailableTools (tui.executor m)))
    (ai.world r) = (inr err, w) ->
  exists m',
    (tui.exchange 2 m r).1 = Some m' /\
    tui.messages m'
    = tui.messages m
        ++ [tui.textMessage "user" (submitted m EmptyString);
            tui.textMessage "assistant"
              ("Error: failed to send message: " +:+ Error err)] /\
    tui.thinking m' = false /\
    ai.world (tui.exchange 2 m r).2 = w /\
    ai.calls (tui.exchange 2 m r).2
    = ai.calls r
        ++ [ai.GatewayCall
              (tui.messages m ++ [tui.textMessage "user" (submitted m EmptyString)])].
Proof.
  intros Hth Hin Hfail. unfold submitted in *.
  unfold tui.exchange. rewrite Update_enter. cbn zeta.
  rewrite Hth, (bool_decide_eq_false_2 _ Hin).
  set (ta := (tui.textarea_Update _ _).1) in *.
  set (userInput := TrimSpace (tui.textarea_Value ta)) in *.
  set (m1 := tui.showMessages _).
  assert (Hm1 : tui.messages m1 = tui.messages m ++ [tui.textMessage "user" userInput])
    by reflexivity.
  rewrite settle_S, runCmd_sendMessage. cbn [fst snd].
  rewrite sendMessage_eq, SendMessageWithTools_eq.
  change (tui.client m1) with (tui.client m).
  change (tui.executor m1) with (tui.executor m).
  rewrite Hm1, Hfail. cbn [fst snd].
  destruct (Update_response m1
              (tui.responseMsg.mk EmptyString []
                 (Some (Errorf_w "failed to send message: " err EmptyString))))
    as (m' & HU & Hth' & Hmsgs).
  rewrite HU. cbn [fst snd]. rewrite settle_None. cbn [fst snd ai.world ai.calls].
  exists m'. split_and!; [reflexivity | | exact Hth' | reflexivity | reflexivity].
  rewrite Hmsgs. cbn [tui.responseMsg.err]. rewrite Hm1, <- app_assoc.
  cbn [app]. unfold Errorf_w. cbn [Error].
  rewrite append_nil_r, <- append_assoc. reflexivity.
Qed.

(** ** Further properties: the cap on tool results, through a session *)

Lemma executeToolCalls_capped e ctx toolCalls : forall msgs (r : ai.Run),
  Forall capped msgs ->
  Forall capped (tui.executeToolCalls e ctx toolCalls msgs r).1.
Proof.
  induction toolCalls as [|tc tcs IH]; intros msgs r Hmsgs; [exact Hmsgs|].
  rewrite executeToolCalls_cons. apply IH.
  apply Forall_app. split; [exact Hmsgs|].
  constructor; [discriminate|]. constructor; [|constructor].
  intros _. cbn [tui.toolResultMessage ai.Message.Content].
  apply resultText_bounded.
Qed.

Lemma finalLoop_capped m ctx tools remaining : forall msgs (r : ai.Run),
  Forall capped msgs ->
  Forall capped (carried (tui.finalLoop m ctx tools remaining msgs r).1).
Proof.
  induction remaining as [|k IH]; intros msgs r Hmsgs.
  - rewrite finalLoop_0. exact Hmsgs.
  - rewrite finalLoop_S.
    destruct (ai.SendMessageWithTools _ _ _ _ _) as [[response|err] r1];
      [|exact Hmsgs].
    destruct (ai.Response.ToolCalls response) as [|tc tcs].
    + case_bool_decide; exact Hmsgs.
    + apply IH. now apply executeToolCalls_capped.
Qed.

(** The transcript inside a command, if there is one. *)
Lemma runCmd_capped c (r : ai.Run) msg :
  match c with
  | tui.sendMessageCmd m0 | tui.sendFinalMessageCmd m0 => Forall capped (tui.messages m0)
  | _ => True
  end ->
  (tui.runCmd c r).1 = Some msg ->
  Forall capped (carried msg).
Proof.
  intros Hc Hmsg. destruct c as [|cmds|m0|m0]; try discriminate Hmsg.
  - rewrite runCmd_sendMessage in Hmsg. injection Hmsg as <-.
    rewrite sendMessage_eq.
    destruct (ai.SendMessageWithTools _ _ _ _ _) as [[response|err] r1];
      [|constructor].
    destruct (ai.Response.ToolCalls response) as [|tc tcs]; [exact Hc|].
    cbn zeta. cbn [fst carried tui.toolExecutedMsg.messages].
    now apply executeToolCalls_capped.
  - rewrite runCmd_sendFinalMessage in Hmsg. injection Hmsg as <-.
    now apply finalLoop_capped.
Qed.

Lemma Update_capped m msg :
  Forall capped (tui.messages m) ->
  Forall capped (carried msg) ->
  Forall capped (tui.messages (tui.Update m msg).1) /\
  match (tui.Update m msg).2 with
  | Some (tui.sendMessageCmd m0) | Some (tui.sendFinalMessageCmd m0) =>
      Forall capped (tui.messages m0)
  | _ => True
  end.
Proof.
  intros Hm Hmsg.
  assert (Htext : forall role content, role <> "tool" ->
            Forall capped (tui.messages m ++ [tui.textMessage role content])).
  { intros role content Hrole. apply Forall_app. split; [exact Hm|].
    constructor; [|constructor]. intros Hr. now destruct Hrole. }
  unfold tui.Update.
  destruct (tui.textarea_Update _ _) as [ta tiCmd].
  destruct (tui.viewport_Update _ _) as [vp vpCmd].
  destruct msg as [Width Height|type runes|msg|msg|msg|tag].
  - cbn [fst snd]. destruct (tui.ready _); split; auto.
  - destruct type; try (split; [exact Hm | exact I]).
    cbn [tui.thinking tui.set_input tui.set_viewport tui.set_widgets].
    destruct (tui.thinking m); [split; [exact Hm | exact I]|].
    case_bool_decide; [split; [exact Hm | exact I]|].
    cbn [fst snd]. split; apply (Htext "user"); discriminate.
  - cbn [carried] in Hmsg. cbn [fst snd]. split; [|exact I].
    destruct (tui.responseMsg.err msg); [apply (Htext "assistant"); discriminate|].
    destruct (0 <? length (tui.responseMsg.messages msg)).
    + apply Forall_app. split; [exact Hmsg|].
      constructor; [discriminate | constructor].
    + apply (Htext "assistant"); discriminate.
  - cbn [fst snd]. split; [|exact I].
    destruct (tui.toolResponseMsg.err msg); apply (Htext "assistant"); discriminate.
  - cbn [carried] in Hmsg. split; exact Hmsg.
  - split; [exact Hm | exact I].
Qed.

Lemma settle_capped fuel : forall m c (r : ai.Run) m',
  Forall capped (tui.messages m) ->
  match c with
  | Some (tui.sendMessageCmd m0) | Some (tui.sendFinalMessageCmd m0) =>
      Forall capped (tui.messages m0)
  | _ => True
  end ->
  (tui.settle fuel m c r).1 = Some m' ->
  Forall capped (tui.messages m').
Proof.
  induction fuel as [|fuel IH]; intros m c r m' Hm Hc Hres.
  - destruct c as [c|]; [discriminate Hres|]. now injection Hres as <-.
  - destruct c as [c|]; [|now injection Hres as <-].
    rewrite settle_S in Hres.
    destruct (tui.runCmd c r).1 as [msg|] eqn:Emsg; [|now injection Hres as <-].
    assert (Hmsg : Forall capped (carried msg)).
    { apply (runCmd_capped c r msg); [|exact Emsg]. now destruct c. }
    destruct (Update_capped m msg Hm Hmsg) as [Hm1 Hc1].
    exact (IH _ _ _ _ Hm1 Hc1 Hres).
Qed.

(** The cap on tool results holds through a whole session: in the
    transcript of every model a session reaches, each turn of role tool
    holds at most 5000 bytes and the marker, 5033 bytes in all, whatever
    the tools returned and however the exchanges ended.  An exchange that
    starts from such a transcript ends in such a transcript, and both
    commands carry such a transcript back. *)
Theorem tool_results_stay_capped :
  (forall m, Reachable m -> Forall capped (tui.messages m)) /\
  (forall m (r : ai.Run),
     Forall capped (tui.messages m) ->
     (exists m', (tui.exchange 2 m r).1 = Some m' /\ Forall capped (tui.messages m')) /\
     Forall capped (carried (tui.sendMessage m r).1) /\
     Forall capped (carried (tui.sendFinalMessage m r).1)) /\
  (forall msg, capped msg <->
     (ai.Message.Role msg = "tool" -> len (ai.Message.Content msg) <= 5000 + 33)).
Proof.
  assert (Hex : forall m (r : ai.Run) m',
            Forall capped (tui.messages m) ->
            (tui.exchange 2 m r).1 = Some m' -> Forall capped (tui.messages m')).
  { intros m r m' Hm Hres. unfold tui.exchange in Hres.
    destruct (Update_capped m (tui.KeyMsg tui.KeyEnter EmptyString) Hm) as [Hm1 Hc1];
      [constructor|].
    destruct (tui.Update m _) as [m1 c1]. cbn [fst snd] in Hm1, Hc1.
    exact (settle_capped 2 m1 c1 r m' Hm1 Hc1 Hres). }
  split_and!.
  - intros m Hm. induction Hm as [|m msg Hm IH Hidle|m r m' Hm IH Hres].
    + constructor.
    + rewrite Update_idle by exact Hidle. exact IH.
    + exact (Hex m r m' IH Hres).
  - intros m r Hm. split_and!.
    + destruct (exchange_spec m r) as (m' & evs & Hres & _). cbn zeta in Hres.
      exists m'. split; [exact Hres | exact (Hex m r m' Hm Hres)].
    + apply (runCmd_capped (tui.sendMessageCmd m) r); [exact Hm|].
      now rewrite runCmd_sendMessage.
    + apply (runCmd_capped (tui.sendFinalMessageCmd m) r); [exact Hm|].
      now rewrite runCmd_sendFinalMessage.
  - intros msg. reflexivity.
Qed.

End MoreProperties.

(** ** Further runs in the laboratory *)

Section MoreLabRuns.

#[local] Existing Instance Lab.outside.
#[local] Existing Instance Lab.widgets.

(** A follow-up command that runs [pwd] and then loses the connection:
    the command carries back three turns, the model keeps the one it had
    and shows the error after it. *)
Lemma follow_up_result_in_the_model_witness :
  let m := tui.set_messages (Lab.typed EmptyString)
             [tui.textMessage "user" "where am I?"] in
  let r := Lab.start [Lab.useBash "t1" "pwd"] in
  let toolCall := ai.ToolCall.mk "t1" "bash" (Lab.payload "pwd") in
  let failure :=
    Errorf_w "final response error: "
      (Errorf_w "failed to send message: " (errorString "connection refused")
         EmptyString)
      EmptyString in
  let rm :=
    tui.responseMsg.mk EmptyString
      [tui.textMessage "user" "where am I?";
       tui.toolCallMessage toolCall;
       tui.toolResultMessage toolCall "/home/kilo"]
      (Some failure) in
  (tui.sendFinalMessage m r).1 = tui.ResponseMsg rm /\
  exists m',
    (tui.settle 1 m (Some (tui.sendFinalMessageCmd m)) r).1 = Some m' /\
    tui.thinking m' = false /\
    tui.messages m'
    = [tui.textMessage "user" "where am I?";
       tui.textMessage "assistant"
         "Error: final response error: failed to send message: connection refused"].
Proof.
  cbn zeta.
  set (m := tui.set_messages _ _). set (r := Lab.start _).
  set (rm := tui.responseMsg.mk _ _ _).
  assert (Hres : (tui.sendFinalMessage m r).1 = tui.ResponseMsg rm)
    by (vm_compute; reflexivity).
  split; [exact Hres|].
  destruct (follow_up_result_in_the_model 0 m r rm Hres) as (m' & Hsettled & Hth & Hmsgs).
  exists m'. split_and!; [exact Hsettled | exact Hth | exact Hmsgs].
Defined.

(** A model in the middle of an exchange: a text has been typed and Enter
    pressed, the first command is in flight.  And the model at the end of
    that exchange. *)
Lemma session_keeps_client_and_tools_witness :
  let m0 := (tui.Update tui.New (tui.KeyMsg tui.KeyRunes "where am I?")).1 in
  let m1 := (tui.Update m0 (tui.KeyMsg tui.KeyEnter EmptyString)).1 in
  let r := Lab.start [Lab.useBash "toolu_1" "pwd"; Lab.say "In /home/kilo."] in
  Live m1 /\
  tui.thinking m1 = true /\
  (tui.Update m0 (tui.KeyMsg tui.KeyEnter EmptyString)).2 = Some (tui.sendMessageCmd m1) /\
  tui.client m1 = ai.Client.mk "sk-lab" "claude-sonnet-4-20250514" /\
  tui.executor m1 = tools.New /\
  (forall ctx msgs (r0 : ai.Run),
     ai.SendMessageWithTools (tui.client m1) ctx msgs
       (tools.GetAvailableTools (tui.executor m1)) r0
     = (match (MessagesNew ctx "sk-lab"
                 (anthropic.mkMessageNewParams "claude-sonnet-4-20250514" 1024
                    (flat_map ai.toParam msgs)
                    [ai.toToolParam tools.BashTool; ai.toToolParam tools.NvidiaSmiTool]
                    [ai.systemPrompt]) (ai.world r0)).1 with
        | inr err => inr (Errorf_w "failed to send message: " err EmptyString)
        | inl reply => inl (ai.extract (anthropic.Content reply) EmptyString [])
        end,
        ai.mkRun
          (MessagesNew ctx "sk-lab"
             (anthropic.mkMessageNewParams "claude-sonnet-4-20250514" 1024
                (flat_map ai.toParam msgs)
                [ai.toToolParam tools.BashTool; ai.toToolParam tools.NvidiaSmiTool]
                [ai.systemPrompt]) (ai.world r0)).2
          (ai.calls r0 ++ [ai.GatewayCall msgs]))) /\
  exists m', (tui.exchange 2 m0 r).1 = Some m' /\ Live m' /\ tui.executor m' = tools.New.
Proof.
  cbn zeta.
  set (m0 := (tui.Update tui.New (tui.KeyMsg tui.KeyRunes "where am I?")).1).
  set (m1 := (tui.Update m0 (tui.KeyMsg tui.KeyEnter EmptyString)).1).
  destruct session_keeps_client_and_tools as (_ & Hexchange & Hlive).
  assert (Hm0 : Live m0) by (apply Live_Update, Live_New).
  assert (Hm1 : Live m1) by (apply Live_Update, Hm0).
  destruct (Hlive m1 Hm1) as (Hc & He & _ & Hgw & _).
  split_and!; [exact Hm1 | reflexivity | reflexivity | exact Hc | exact He | exact Hgw |].
  destruct (exchange_spec m0
              (Lab.start [Lab.useBash "toolu_1" "pwd"; Lab.say "In /home/kilo."]))
    as (m' & evs & Hres & _).
  cbn zeta in Hres. exists m'.
  pose proof (Hexchange 2 m0 _ m' Hm0 Hres) as Hm'.
  split_and!; [exact Hres | exact Hm' | exact (proj1 (proj2 (Hlive m' Hm')))].
Defined.

(** The question of the example program of package ai, put to a provider
    that answers the two kinds of request alike. *)
Lemma text_requests_agree_witness :
  let c := ai.NewClient "sk-lab" in
  let msgs := [tui.textMessage "user" "What is the capital of France?"] in
  let r := Lab.start [Lab.say "Paris."] in
  Forall plainText msgs /\
  flat_map ai.toTextParam msgs = flat_map ai.toParam msgs /\
  MessagesNew Background (ai.Client.apiKey c) (textRequest c msgs) (ai.world r)
  = MessagesNew Background (ai.Client.apiKey c) (request c msgs []) (ai.world r) /\
  ai.SendMessage c Background msgs r
  = match ai.SendMessageWithTools c Background msgs [] r with
    | (inl response, r1) => ((ai.Response.Content response, None), r1)
    | (inr err, r1) => ((EmptyString, Some err), r1)
    end /\
  (ai.SendMessage c Background msgs r).1 = ("Paris.", None).
Proof.
  cbn zeta.
  destruct (text_requests_agree (ai.NewClient "sk-lab") Background
              [tui.textMessage "user" "What is the capital of France?"]
              (Lab.start [Lab.say "Paris."]))
    as (_ & _ & Hplain & _ & Halike).
  assert (Hmsgs : Forall plainText
                    [tui.textMessage "user" "What is the capital of France?"])
    by (constructor; [left; reflexivity | constructor]).
  split_and!; [exact Hmsgs | exact (Hplain Hmsgs) | reflexivity
              | exact (Halike eq_refl) | reflexivity].
Defined.

(** The provider refuses the first request of an exchange. *)
Lemma gateway_failure_is_shown_witness :
  let m := Lab.typed "  hello " in
  let r := Lab.start [Lab.refuse "connection reset by peer"] in
  tui.thinking m = false /\
  submitted m EmptyString = "hello" /\
  exists m',
    (tui.exchange 2 m r).1 = Some m' /\
    tui.messages m'
    = tui.messages m
        ++ [tui.textMessage "user" (submitted m EmptyString);
            tui.textMessage "assistant"
              ("Error: failed to send message: "
               +:+ Error (errorString "connection reset by peer"))] /\
    tui.thinking m' = false /\
    ai.world (tui.exchange 2 m r).2 = Lab.mkWorld [] /\
    ai.calls (tui.exchange 2 m r).2
    = ai.calls r
        ++ [ai.GatewayCall
              (tui.messages m ++ [tui.textMessage "user" (submitted m EmptyString)])].
Proof.
  cbn zeta.
  set (m := Lab.typed _). set (r := Lab.start _).
  assert (Hin : submitted m EmptyString = "hello") by (vm_compute; reflexivity).
  split_and!; [reflexivity | exact Hin |].
  apply (gateway_failure_is_shown m r (errorString "connection reset by peer")
           (Lab.mkWorld [])).
  - reflexivity.
  - rewrite Hin. discriminate.
  - reflexivity.
Defined.

End MoreLabRuns.
